(** * WinIoT backend: a shallow embedding of [winiot-backend.py]

    The Flask service exposes monitor power / brightness control (through
    the external "Twinkle Tray" executable, run as a child process) and the
    system mute flag (through pycaw / COM).  This file embeds

    - the Python built-ins the handlers rely on ([str.lower], [str.strip],
      [str.isdigit], [int], f-string formatting of integers),
    - the authentication decorator [require_api_key],
    - the process executor [run_command],
    - the two command builders,
    - the audio gateway ([_get_master_volume_control], [set_system_mute],
      [get_system_mute_status]),
    - every route handler,

    and proves the properties of the written specification against them.

    Conventions.  A Python [str] is a Rocq [string] holding its UTF-8
    bytes.  [str.lower] and [str.upper] are modelled on the ASCII range
    (bytes above 127 are left alone); no character outside ASCII maps onto
    a letter of the texts the source compares with, so those comparisons
    are decided exactly.  The built-ins whose result depends on the Unicode
    tables or on interpreter limits ([str.strip], [str.isdigit] and [int]
    of a [str]) are not reimplemented: they are components of the
    interpreter ([Py.runtime]) that the platform provides, and every
    theorem holds for every such interpreter.  An ASCII instance is given
    for the sample configurations.  Floats are not modelled.

    Calls into the operating system (child processes, COM) are modelled by
    an explicit description of what the platform answers, and every such
    call is recorded in a trace of events, so that "is called", "is never
    called" and "is called before" are statements about the trace. *)

From Stdlib Require Import ZArith List String Ascii Bool Lia.
From Stdlib Require Import DecimalString.
Import ListNotations.

Local Open Scope string_scope.
Local Open Scope Z_scope.

(* ===================================================================== *)
(** ** Python values and built-ins *)
(* ===================================================================== *)

Module Py.

(** The dynamically typed values that reach the functions below. *)
Inductive value : Type :=
| VInt (z : Z)
| VBool (b : bool)
| VStr (s : string)
| VNone.

(** [isinstance(v, int)]: [bool] is a subclass of [int]. *)
Definition isinstance_int (v : value) : bool :=
  match v with
  | VInt _ | VBool _ => true
  | _ => false
  end.

(** The integer an [int] instance denotes in comparisons. *)
Definition int_value (v : value) : option Z :=
  match v with
  | VInt z => Some z
  | VBool b => Some (if b then 1 else 0)
  | _ => None
  end.

(** [v == k] for an integer literal [k]. *)
Definition eq_int (v : value) (k : Z) : bool :=
  match int_value v with
  | Some z => z =? k
  | None => false
  end.

(** [v <= k] for an [int] instance [v]. *)
Definition le_int (v : value) (k : Z) : bool :=
  match int_value v with
  | Some z => z <=? k
  | None => false
  end.

(** Exception classes that the source names in an [except] clause, and
    one for everything else below [Exception]. *)
Inductive exn_class : Type :=
| FileNotFoundError
| TimeoutExpired
| AttributeError
| IndexError
| OtherException.

(** An exception: its class and [str(e)]. *)
Record exn : Type := Exn { exn_cls : exn_class; exn_str : string }.

Definition is_class (c : exn_class) (e : exn) : bool :=
  match c, exn_cls e with
  | FileNotFoundError, FileNotFoundError => true
  | TimeoutExpired, TimeoutExpired => true
  | AttributeError, AttributeError => true
  | IndexError, IndexError => true
  | OtherException, OtherException => true
  | _, _ => false
  end.

(** What a call into the platform does: it returns or it raises. *)
Inductive outcome (A : Type) : Type :=
| Returns (a : A)
| Raises (e : exn).
Arguments Returns {A} a.
Arguments Raises {A} e.

(** How a call of a function of the program ends: it returns, an exception
    leaves it, or it never comes back. *)
Inductive completion (A : Type) : Type :=
| Done (a : A)
| Escapes (e : exn)
| Hangs.
Arguments Done {A} a.
Arguments Escapes {A} e.
Arguments Hangs {A}.

(** *** Characters *)

Definition code (c : ascii) : N := N_of_ascii c.

Definition is_upper (c : ascii) : bool :=
  ((65 <=? code c) && (code c <=? 90))%N.

Definition is_lower (c : ascii) : bool :=
  ((97 <=? code c) && (code c <=? 122))%N.

Definition is_digit (c : ascii) : bool :=
  ((48 <=? code c) && (code c <=? 57))%N.

(** [str.isspace] on the ASCII range: TAB, LF, VT, FF, CR, the four
    separators FS..US and the space. *)
Definition is_space (c : ascii) : bool :=
  (((9 <=? code c) && (code c <=? 13))
   || ((28 <=? code c) && (code c <=? 32)))%N.

(** White space as [int] skips it around an ASCII literal: TAB, LF, VT,
    FF, CR and the space (the separators FS..US are not skipped). *)
Definition is_c_space (c : ascii) : bool :=
  (((9 <=? code c) && (code c <=? 13)) || (code c =? 32))%N.

Definition lower_char (c : ascii) : ascii :=
  if is_upper c then ascii_of_N (code c + 32) else c.

Definition upper_char (c : ascii) : ascii :=
  if is_lower c then ascii_of_N (code c - 32) else c.

(** *** Strings *)

Fixpoint map_string (f : ascii -> ascii) (s : string) : string :=
  match s with
  | EmptyString => EmptyString
  | String c r => String (f c) (map_string f r)
  end.

(** [s.lower()] and [s.upper()]. *)
Definition lower (s : string) : string := map_string lower_char s.
Definition upper (s : string) : string := map_string upper_char s.

(** Dropping the leading / trailing characters that pass [space]. *)
Fixpoint lstrip_by (space : ascii -> bool) (s : string) : string :=
  match s with
  | EmptyString => EmptyString
  | String c r => if space c then lstrip_by space r else s
  end.

Fixpoint rstrip_by (space : ascii -> bool) (s : string) : string :=
  match s with
  | EmptyString => EmptyString
  | String c r =>
      match rstrip_by space r with
      | EmptyString => if space c then EmptyString else String c EmptyString
      | r' => String c r'
      end
  end.

Definition strip_by (space : ascii -> bool) (s : string) : string :=
  rstrip_by space (lstrip_by space s).

(** Truthiness of a [str]: only the empty string is false. *)
Definition truthy (s : string) : bool :=
  match s with
  | EmptyString => false
  | _ => true
  end.

(** [a or b] on strings. *)
Definition or_else (a b : string) : string := if truthy a then a else b.

Fixpoint all_digits (s : string) : bool :=
  match s with
  | EmptyString => true
  | String c r => is_digit c && all_digits r
  end.

(** [needle in hay]. *)
Fixpoint contains (needle hay : string) : bool :=
  prefix needle hay
  || match hay with
     | EmptyString => false
     | String _ r => contains needle r
     end.

(** *** The interpreter *)

(** Some byte of the string is an ASCII digit or belongs to a character
    outside ASCII (which may be a Unicode digit). *)
Fixpoint may_hold_digit (s : string) : bool :=
  match s with
  | EmptyString => false
  | String c r => is_digit c || (128 <=? code c)%N || may_hold_digit r
  end.

(** The built-ins that depend on the Unicode tables and on interpreter
    limits: [s.strip()], [s.isdigit()] and [int(s)] for a [str] ([None]
    stands for [ValueError]).  The one fact about them that is used is that
    [int] accepts no text without a digit. *)
Record runtime : Type := Runtime {
  str_strip : string -> string;
  str_isdigit : string -> bool;
  int_of_str : string -> option Z;
  int_needs_digit : forall s, may_hold_digit s = false -> int_of_str s = None
}.

(** What [int(v)] does. *)
Inductive int_result : Type :=
| IntOk (z : Z)
| IntValueError
| IntTypeError.

Definition int_of (rt : runtime) (v : value) : int_result :=
  match v with
  | VInt z => IntOk z
  | VBool b => IntOk (if b then 1 else 0)
  | VStr s =>
      match int_of_str rt s with
      | Some z => IntOk z
      | None => IntValueError
      end
  | VNone => IntTypeError
  end.

(** *** An ASCII instance of the interpreter

    These three functions agree with CPython on every [str] made of ASCII
    characters only ([int]: with at most 4300 digits, the default limit).
    They serve the sample configurations only; the general statements are
    about every interpreter. *)

Definition ascii_strip (s : string) : string := strip_by is_space s.

Definition ascii_isdigit (s : string) : bool := truthy s && all_digits s.

Definition digit_val (c : ascii) : Z := Z.of_N (code c - 48).

(** The digits of a literal: a digit first, single underscores allowed
    between digits only.  [after_digit] tells whether the previous
    character was a digit. *)
Fixpoint digits_value (acc : Z) (after_digit : bool) (s : string)
  : option Z :=
  match s with
  | EmptyString => if after_digit then Some acc else None
  | String c r =>
      if is_digit c then digits_value (10 * acc + digit_val c) true r
      else if Ascii.eqb c "_" then
             if after_digit then digits_value acc false r else None
           else None
  end.

(** A decimal literal: surrounding white space is dropped and one sign is
    accepted before the digits. *)
Definition ascii_literal (s : string) : option Z :=
  match strip_by is_c_space s with
  | EmptyString => None
  | String c r =>
      if Ascii.eqb c "-" then option_map Z.opp (digits_value 0 false r)
      else if Ascii.eqb c "+" then digits_value 0 false r
      else digits_value 0 false (String c r)
  end.

(** [int(s)] in base 10 on an ASCII text: a text without a digit is
    rejected, any other is read as a literal. *)
Definition ascii_int (s : string) : option Z :=
  if may_hold_digit s then ascii_literal s else None.

Definition ascii_int_needs_digit (s : string)
    (H : may_hold_digit s = false) : ascii_int s = None :=
  @eq_ind_r bool false
    (fun b : bool => (if b then ascii_literal s else None) = None)
    (eq_refl None) (may_hold_digit s) H.

Definition ascii_runtime : runtime :=
  Runtime ascii_strip ascii_isdigit ascii_int ascii_int_needs_digit.

(** [bool(v)]. *)
Definition bool_of (v : value) : bool :=
  match v with
  | VInt z => negb (z =? 0)
  | VBool b => b
  | VStr s => truthy s
  | VNone => false
  end.

(** *** Formatting *)

(** [str(z)] for an integer. *)
Definition str_of_Z (z : Z) : string := NilZero.string_of_int (Z.to_int z).

(** [f"{v}"] / [str(v)]. *)
Definition format (v : value) : string :=
  match v with
  | VInt z => str_of_Z z
  | VBool true => "True"
  | VBool false => "False"
  | VStr s => s
  | VNone => "None"
  end.

End Py.

(* ===================================================================== *)
(** ** Effects: the trace of calls into the platform *)
(* ===================================================================== *)

Inductive log_level : Type := DEBUG | INFO | WARNING | ERROR.

(** One event per call that leaves the program: the [subprocess] API, the
    COM / pycaw API, and [app.logger] (by level; [logger.exception] logs at
    [ERROR]). *)
Inductive event : Type :=
| EvPopen (command_parts : list string) (creationflags : Z)
| EvCommunicate (timeout : option Z)
| EvKill
| EvCoInitializeEx
| EvGetSpeakers
| EvActivate
| EvQueryInterface
| EvCoUninitialize
| EvGetMute
| EvSetMute (flag : Z)
| EvLog (level : log_level).

(** A computation returns a value and the events it performed, oldest
    first. *)
Definition M (A : Type) : Type := (A * list event)%type.

Definition ret {A} (a : A) : M A := (a, []).

Definition bind {A B} (m : M A) (k : A -> M B) : M B :=
  let (a, t1) := m in
  let (b, t2) := k a in
  (b, (t1 ++ t2)%list).

Definition emit (e : event) : M unit := (tt, [e]).

Definition log (l : log_level) : M unit := emit (EvLog l).

Definition value_of {A} (m : M A) : A := fst m.
Definition trace_of {A} (m : M A) : list event := snd m.

Declare Scope trace_scope.
Delimit Scope trace_scope with trace.
Notation "x <- c ;; k" := (bind c (fun x => k))
  (at level 100, c at next level, right associativity) : trace_scope.
Notation "c ;; k" := (bind c (fun _ => k))
  (at level 100, right associativity) : trace_scope.
Local Open Scope trace_scope.

(* ===================================================================== *)
(** ** Module globals and platform answers *)
(* ===================================================================== *)

(** The module-level state the request handlers read.  The three import
    flags say whether the name is bound to a module / class ([true]) or to
    [None] ([false]). *)
Record globals : Type := Globals {
  API_AUTH_ENABLED : bool;
  EXPECTED_API_KEY : string;
  twinkle_tray_base_path : string;
  twinkle_tray_base_path_found : bool;
  pythoncom : bool;
  AudioUtilities : bool;
  IAudioEndpointVolume : bool
}.

(** What the child process does once [run_command] starts it. *)
Inductive child : Type :=
| PopenRaises (e : Py.exn)
| CommunicateRaises (e : Py.exn)
| Exits (returncode : Z) (stdout stderr : string).

(** The object [speakers.Activate] returns, as far as [hasattr] sees it. *)
Record interface : Type := Interface {
  has_SetMute : bool;
  has_GetMute : bool
}.

(** The master volume object the gateway hands out. *)
Inductive handle : Type :=
| ActivatedInterface (i : interface)
| QueriedInterface.

(** The answers of COM and pycaw during one acquisition of the handle.
    [GetSpeakers] answers with the truthiness of the device it returns,
    [QueryInterface] with whether its result is an object ([true]) or
    [None] ([false]). *)
Record com_answers : Type := ComAnswers {
  CoInitializeEx : Py.outcome Py.value;
  GetSpeakers : Py.outcome bool;
  Activate : Py.outcome interface;
  QueryInterface : Py.outcome bool;
  CoUninitialize : Py.outcome unit
}.

(** Everything outside the program that one request can observe. *)
Record platform : Type := Platform {
  which_twinkle_tray : bool;       (* bool(shutil.which(twinkle_tray_base_path)) *)
  CREATE_NO_WINDOW : option Z;     (* the attribute of [subprocess], if any *)
  process : child;
  com_first : com_answers;         (* first acquisition of the handle *)
  GetMute : Py.outcome Py.value;
  com_second : com_answers;        (* second acquisition (toggle only) *)
  SetMute : Py.outcome unit;
  python : Py.runtime;             (* the interpreter's Unicode built-ins *)
  kill_answer : Py.outcome unit;   (* process.kill() after a timeout *)
  drain_answer : Py.completion unit (* process.communicate() after the kill *)
}.

(* ===================================================================== *)
(** ** Authentication decorator *)
(* ===================================================================== *)

Inductive json : Type :=
| JStr (s : string)
| JInt (z : Z)
| JBool (b : bool).

(** A response: [jsonify(body), status]; or what [abort] and Flask's
    handling of an escaped exception produce (an HTTP error that is not
    built by [jsonify]); or none at all, when the view never returns. *)
Inductive response : Type :=
| Json (body : list (string * json)) (status_code : Z)
| Aborted (status_code : Z) (description : string)
| NeverAnswers.

Definition status_code_of (r : response) : option Z :=
  match r with
  | Json _ c => Some c
  | Aborted c _ => Some c
  | NeverAnswers => None
  end.

(** Top-level field of a JSON object. *)
Fixpoint field (k : string) (body : list (string * json)) : option json :=
  match body with
  | [] => None
  | (k', v) :: r => if String.eqb k k' then Some v else field k r
  end.

(** [require_api_key(f)], applied to the value of the [X-API-Key] header. *)
Definition require_api_key (g : globals) (api_key : option string)
    (f : M response) : M response :=
  if API_AUTH_ENABLED g then
    if negb (match api_key with Some k => Py.truthy k | None => false end) then
      log WARNING ;;
      ret (Aborted 401
             "API key required. Please provide it in the 'X-API-Key' header.")
    else if negb (match api_key with
                  | Some k => String.eqb k (EXPECTED_API_KEY g)
                  | None => false
                  end) then
      log WARNING ;;
      ret (Aborted 403 "Invalid API key.")
    else f
  else f.

(* ===================================================================== *)
(** ** Process executor *)
(* ===================================================================== *)

(** The [except] clauses of [run_command].  [process_bound] tells whether
    the local [process] was assigned, that is, whether [Popen] returned.
    The two calls of the timeout clause are not guarded: an exception of
    [process.kill()] or of the draining [process.communicate()] leaves
    [run_command], and a drain that blocks keeps it from returning. *)
Definition run_command_except (p : platform) (command_parts : list string)
    (process_bound : bool) (e : Py.exn)
  : M (Py.completion (bool * string)) :=
  match Py.exn_cls e with
  | Py.FileNotFoundError =>
      log ERROR ;;
      ret (Py.Done
             (false, "错误：可执行文件 '" ++ hd "" command_parts ++ "' 未找到。"))
  | Py.TimeoutExpired =>
      log WARNING ;;
      if process_bound then
        emit EvKill ;;
        match kill_answer p with
        | Py.Raises k => ret (Py.Escapes k)
        | Py.Returns _ =>
            emit (EvCommunicate None) ;;
            match drain_answer p with
            | Py.Done _ => ret (Py.Done (false, "命令执行超时。"))
            | Py.Escapes d => ret (Py.Escapes d)
            | Py.Hangs => ret Py.Hangs
            end
        end
      else ret (Py.Done (false, "命令执行超时。"))
  | _ =>
      log ERROR ;;
      ret (Py.Done (false, "发生意外错误: " ++ Py.exn_str e))
  end.

(** [creationflags] as [run_command] computes it for a first element. *)
Definition creationflags_for (p : platform) (exe : string) : Z :=
  if String.eqb (Py.lower exe) "powershell"
  then match CREATE_NO_WINDOW p with Some f => f | None => 0 end
  else 0.

Definition run_command (p : platform) (command_parts : list string)
  : M (Py.completion (bool * string)) :=
  log DEBUG ;;
  match command_parts with
  | [] =>
      run_command_except p command_parts false
        (Py.Exn Py.IndexError "list index out of range")
  | exe :: _ =>
      let creationflags := creationflags_for p exe in
      emit (EvPopen command_parts creationflags) ;;
      match process p with
      | PopenRaises e => run_command_except p command_parts false e
      | CommunicateRaises e =>
          emit (EvCommunicate (Some 15)) ;;
          run_command_except p command_parts true e
      | Exits returncode stdout stderr =>
          emit (EvCommunicate (Some 15)) ;;
          if returncode =? 0 then
            log INFO ;;
            ret (Py.Done
                   (true,
                    Py.or_else (Py.str_strip (python p) stdout)
                      "命令成功执行。"))
          else
            let error_message :=
              Py.or_else (Py.str_strip (python p) stderr)
                (Py.or_else (Py.str_strip (python p) stdout)
                   ("未知错误 (返回码: " ++ Py.str_of_Z returncode ++ ")")) in
            log ERROR ;;
            ret (Py.Done (false, "执行命令出错: " ++ error_message))
      end
  end.

(** [run_command(None)]: subscripting [None] raises inside the [try]. *)
Definition run_command_None (p : platform)
  : M (Py.completion (bool * string)) :=
  log DEBUG ;;
  run_command_except p [] false
    (Py.Exn Py.OtherException "'NoneType' object is not subscriptable").

(** The call [run_command(command_parts)] of a handler, whose argument is
    whatever the builder returned first. *)
Definition run_built (p : platform) (command_parts : option (list string))
  : M (Py.completion (bool * string)) :=
  match command_parts with
  | Some parts => run_command p parts
  | None => run_command_None p
  end.

(* ===================================================================== *)
(** ** Command builders *)
(* ===================================================================== *)

(** [if error:] on the second component of a builder's result. *)
Definition error_set (error : option string) : bool :=
  match error with
  | Some e => Py.truthy e
  | None => false
  end.

Definition executable_missing (g : globals) (p : platform) : bool :=
  negb (twinkle_tray_base_path_found g) && negb (which_twinkle_tray p).

Definition executable_missing_message (g : globals) : string :=
  "Twinkle Tray 可执行文件 '" ++ twinkle_tray_base_path g ++ "' 未找到。".

Definition get_twinkle_power_command_parts (g : globals) (p : platform)
    (monitor_num : Py.value) (power_state_vcp : string)
  : M (option (list string) * option string) :=
  if executable_missing g p then
    log WARNING ;;
    ret (None, Some (executable_missing_message g))
  else if negb (Py.isinstance_int monitor_num) || Py.le_int monitor_num 0 then
    ret (None, Some "显示器编号必须是一个正整数。")
  else
    ret (Some [twinkle_tray_base_path g;
               "--MonitorNum=" ++ Py.format monitor_num;
               "--VCP=" ++ power_state_vcp],
         None).

Definition valid_brightness (brightness_level : Py.value) : bool :=
  Py.isinstance_int brightness_level
  && match Py.int_value brightness_level with
     | Some l => (0 <=? l) && (l <=? 100)
     | None => false
     end.

Definition all_monitors_parts (g : globals) (brightness_level : Py.value)
  : list string :=
  [twinkle_tray_base_path g; "--AllMonitors";
   "--Set=" ++ Py.format brightness_level].

Definition one_monitor_parts (g : globals) (monitor_num : Z)
    (brightness_level : Py.value) : list string :=
  [twinkle_tray_base_path g;
   "--MonitorNum=" ++ Py.str_of_Z monitor_num;
   "--Set=" ++ Py.format brightness_level].

Definition invalid_level_message : string :=
  "亮度值必须是 0 到 100 之间的整数。".

Definition negative_monitor_message : string := "显示器编号不能为负数。".

Definition invalid_monitor_message (monitor_num_input : Py.value) : string :=
  "无效的显示器编号: '" ++ Py.format monitor_num_input
  ++ "'。应为正整数, 0, 或 'all'。".

(** The builder returns a pair, or lets the [TypeError] of [int(...)]
    escape (only [ValueError] is caught). *)
Definition get_twinkle_brightness_command_parts (g : globals) (p : platform)
    (monitor_num_input : Py.value) (brightness_level : Py.value)
  : M (Py.outcome (option (list string) * option string)) :=
  if executable_missing g p then
    log WARNING ;;
    ret (Py.Returns (None, Some (executable_missing_message g)))
  else if negb (valid_brightness brightness_level) then
    ret (Py.Returns (None, Some invalid_level_message))
  else
    match Py.int_of (python p) monitor_num_input with
    | Py.IntOk monitor_num =>
        if monitor_num =? 0 then
          ret (Py.Returns (Some (all_monitors_parts g brightness_level), None))
        else if monitor_num >? 0 then
          ret (Py.Returns
                 (Some (one_monitor_parts g monitor_num brightness_level), None))
        else
          ret (Py.Returns (None, Some negative_monitor_message))
    | Py.IntValueError =>
        if String.eqb (Py.lower (Py.format monitor_num_input)) "all" then
          ret (Py.Returns (Some (all_monitors_parts g brightness_level), None))
        else
          ret (Py.Returns
                 (None, Some (invalid_monitor_message monitor_num_input)))
    | Py.IntTypeError =>
        ret (Py.Raises
               (Py.Exn Py.OtherException
                  "int() argument must be a string, a bytes-like object or a real number, not 'NoneType'"))
    end.

(* ===================================================================== *)
(** ** Monitor handlers *)
(* ===================================================================== *)

(** What Flask answers when an exception leaves a view function. *)
Definition unhandled : response := Aborted 500 "Internal Server Error".

Definition monitor_on_vcp (g : globals) (p : platform)
    (api_key : option string) (monitor_num : Z) : M response :=
  require_api_key g api_key (
    r <- get_twinkle_power_command_parts g p (Py.VInt monitor_num) "0xD6:1" ;;
    let '(command_parts, error) := r in
    let execute :=
      r' <- run_built p command_parts ;;
      match r' with
      | Py.Done (success, message) =>
          if success then
            ret (Json [("status", JStr "success");
                       ("monitor_num", JInt monitor_num);
                       ("action", JStr "MONITOR_ON_VCP");
                       ("message", JStr "显示器已通过 VCP 命令打开。");
                       ("details", JStr message)] 200)
          else
            ret (Json [("status", JStr "error");
                       ("monitor_num", JInt monitor_num);
                       ("action", JStr "MONITOR_ON_VCP");
                       ("message", JStr "通过 VCP 命令打开显示器失败。");
                       ("details", JStr message)] 500)
      | Py.Escapes _ => ret unhandled
      | Py.Hangs => ret NeverAnswers
      end in
    match error with
    | Some e =>
        if Py.truthy e
        then ret (Json [("status", JStr "error"); ("message", JStr e)] 400)
        else execute
    | None => execute
    end).

Definition monitor_off_vcp (g : globals) (p : platform)
    (api_key : option string) (monitor_num : Z) : M response :=
  require_api_key g api_key (
    r <- get_twinkle_power_command_parts g p (Py.VInt monitor_num) "0xD6:5" ;;
    let '(command_parts, error) := r in
    let execute :=
      r' <- run_built p command_parts ;;
      match r' with
      | Py.Done (success, message) =>
          if success then
            ret (Json [("status", JStr "success");
                       ("monitor_num", JInt monitor_num);
                       ("action", JStr "MONITOR_OFF_VCP");
                       ("message", JStr "显示器已通过 VCP 命令关闭/待机。");
                       ("details", JStr message)] 200)
          else
            ret (Json [("status", JStr "error");
                       ("monitor_num", JInt monitor_num);
                       ("action", JStr "MONITOR_OFF_VCP");
                       ("message", JStr "通过 VCP 命令关闭/待机显示器失败。");
                       ("details", JStr message)] 500)
      | Py.Escapes _ => ret unhandled
      | Py.Hangs => ret NeverAnswers
      end in
    match error with
    | Some e =>
        if Py.truthy e
        then ret (Json [("status", JStr "error"); ("message", JStr e)] 400)
        else execute
    | None => execute
    end).

(** [target_description] of the brightness handler; [None] when
    [int(monitor_num_str)] raises after [isdigit()] accepted the string. *)
Definition target_description (p : platform) (monitor_num_str : string)
  : option string :=
  if Py.str_isdigit (python p) monitor_num_str then
    match Py.int_of_str (python p) monitor_num_str with
    | Some n =>
        Some (if n >? 0 then "显示器 " ++ monitor_num_str else "所有显示器")
    | None => None
    end
  else Some "所有显示器".

Definition set_monitor_brightness (g : globals) (p : platform)
    (api_key : option string) (monitor_num_str : string) (level : Z)
  : M response :=
  require_api_key g api_key (
    match target_description p monitor_num_str with
    | None => ret unhandled
    | Some target =>
        b <- get_twinkle_brightness_command_parts g p
               (Py.VStr monitor_num_str) (Py.VInt level) ;;
        match b with
        | Py.Raises _ => ret unhandled
        | Py.Returns (command_parts, error) =>
            let execute :=
              r' <- run_built p command_parts ;;
              match r' with
              | Py.Done (success, message) =>
                  if success then
                    ret (Json [("status", JStr "success");
                               ("target", JStr target);
                               ("brightness_level", JInt level);
                               ("message",
                                JStr (target ++ " 亮度已设置为 "
                                      ++ Py.str_of_Z level ++ "%。"));
                               ("details", JStr message)] 200)
                  else
                    ret (Json [("status", JStr "error");
                               ("target", JStr target);
                               ("brightness_level", JInt level);
                               ("message",
                                JStr ("设置 " ++ target ++ " 亮度为 "
                                      ++ Py.str_of_Z level ++ "% 失败。"));
                               ("details", JStr message)] 500)
              | Py.Escapes _ => ret unhandled
              | Py.Hangs => ret NeverAnswers
              end in
            match error with
            | Some e =>
                if Py.truthy e then
                  log ERROR ;;
                  ret (Json [("status", JStr "error"); ("message", JStr e)] 400)
                else execute
            | None => execute
            end
        end
    end).

Definition monitor_status_placeholder (g : globals)
    (api_key : option string) (monitor_num : Z) : M response :=
  require_api_key g api_key (
    if monitor_num <=? 0 then
      ret (Json [("status", JStr "error");
                 ("message", JStr "显示器编号必须是一个正整数。")] 400)
    else
      ret (Json [("status", JStr "info");
                 ("monitor_num", JInt monitor_num);
                 ("message", JStr "此接口为状态查询占位符。")] 200)).

(* ===================================================================== *)
(** ** Audio gateway *)
(* ===================================================================== *)

(** The COM initialisation step.  [inl flag] continues with
    [com_initialized_here = flag]; [inr message] is the early return. *)
Definition com_initialize (c : com_answers) : M (bool + string) :=
  emit EvCoInitializeEx ;;
  match CoInitializeEx c with
  | Py.Returns hr =>
      if Py.eq_int hr 0 || Py.eq_int hr 1 then ret (inl true)
      else ret (inl false)
  | Py.Raises e =>
      if Py.is_class Py.AttributeError e then ret (inl false)
      else if negb (Py.contains "already initialized" (Py.lower (Py.exn_str e)))
              && negb (Py.contains "RPC_E_CHANGED_MODE"
                         (Py.upper (Py.exn_str e)))
      then log ERROR ;; ret (inr ("COM 初始化失败: " ++ Py.exn_str e))
      else ret (inl false)
  end.

(** The two [except] clauses around the activation of the interface. *)
Definition acquire_except (e : Py.exn) : M (option handle * option string) :=
  log ERROR ;;
  if Py.is_class Py.AttributeError e
  then ret (None, Some ("获取主音量控制时出错 (AttributeError): "
                        ++ Py.exn_str e))
  else ret (None, Some ("获取主音量控制时出错: " ++ Py.exn_str e)).

(** The body of the [try]: the pair ([master_volume], [error_message]). *)
Definition acquire (c : com_answers) : M (option handle * option string) :=
  emit EvGetSpeakers ;;
  match GetSpeakers c with
  | Py.Raises e => acquire_except e
  | Py.Returns false => ret (None, Some "未能获取默认扬声器设备。")
  | Py.Returns true =>
      emit EvActivate ;;
      match Activate c with
      | Py.Raises e => acquire_except e
      | Py.Returns i =>
          if has_SetMute i && has_GetMute i
          then ret (Some (ActivatedInterface i), None)
          else
            emit EvQueryInterface ;;
            match QueryInterface c with
            | Py.Raises e => acquire_except e
            | Py.Returns true => ret (Some QueriedInterface, None)
            | Py.Returns false => ret (None, None)
            end
      end
  end.

(** The [finally] clause. *)
Definition release (g : globals) (c : com_answers)
    (com_initialized_here : bool) : M unit :=
  if com_initialized_here && pythoncom g then
    emit EvCoUninitialize ;;
    match CoUninitialize c with
    | Py.Returns _ => ret tt
    | Py.Raises _ => log WARNING
    end
  else ret tt.

(** The three [return] statements after the [finally] clause. *)
Definition gateway_result (r : option handle * option string)
  : option handle * option string :=
  let '(master_volume, error_message) := r in
  if error_set error_message then (None, error_message)
  else
    match master_volume with
    | None => (None, Some "未能成功激活主音量控制接口。")
    | Some h => (Some h, None)
    end.

Definition _get_master_volume_control (g : globals) (c : com_answers)
  : M (option handle * option string) :=
  if negb (AudioUtilities g) || negb (IAudioEndpointVolume g) then
    ret (None, Some "pycaw 库或其必要组件未加载。")
  else
    init <- (if pythoncom g then com_initialize c else ret (inl false)) ;;
    match init with
    | inr message => ret (None, Some message)
    | inl com_initialized_here =>
        r <- acquire c ;;
        release g c com_initialized_here ;;
        ret (gateway_result r)
    end.

(** [set_system_mute(mute_state)], with the answers of one acquisition and
    of the [SetMute] call. *)
Definition set_system_mute (g : globals) (c : com_answers)
    (set_mute : Py.outcome unit) (mute_state : bool) : M (bool * string) :=
  r <- _get_master_volume_control g c ;;
  let '(master_volume, error) := r in
  let write :=
    match master_volume with
    | None =>
        log ERROR ;;
        ret (false, "设置系统静音时出错: "
                    ++ "'NoneType' object has no attribute 'SetMute'")
    | Some _ =>
        emit (EvSetMute (if mute_state then 1 else 0)) ;;
        match set_mute with
        | Py.Returns _ =>
            log INFO ;;
            ret (true, "系统主音量静音状态已设置为 "
                       ++ (if mute_state then "静音" else "取消静音") ++ "。")
        | Py.Raises e =>
            log ERROR ;;
            ret (false, "设置系统静音时出错: " ++ Py.exn_str e)
        end
    end in
  match error with
  | Some e => if Py.truthy e then ret (false, e) else write
  | None => write
  end.

(** [get_system_mute_status()]: the first component is [None] on failure
    and the mute flag on success. *)
Definition get_system_mute_status (g : globals) (c : com_answers)
    (get_mute : Py.outcome Py.value) : M (option bool * string) :=
  r <- _get_master_volume_control g c ;;
  let '(master_volume, error) := r in
  let read :=
    match master_volume with
    | None =>
        log ERROR ;;
        ret (None, "获取系统静音状态时出错: "
                   ++ "'NoneType' object has no attribute 'GetMute'")
    | Some _ =>
        emit EvGetMute ;;
        match get_mute with
        | Py.Returns muted =>
            log DEBUG ;;
            ret (Some (Py.bool_of muted), "成功获取静音状态。")
        | Py.Raises e =>
            log ERROR ;;
            ret (None, "获取系统静音状态时出错: " ++ Py.exn_str e)
        end
    end in
  match error with
  | Some e => if Py.truthy e then ret (None, e) else read
  | None => read
  end.

(* ===================================================================== *)
(** ** Audio handlers *)
(* ===================================================================== *)

Definition audio_unavailable_message : string :=
  "音频控制功能不可用 (pycaw 未加载)。".

Definition audio_mute (g : globals) (p : platform)
    (api_key : option string) : M response :=
  require_api_key g api_key (
    if negb (AudioUtilities g) then
      ret (Json [("status", JStr "error"); ("action", JStr "MUTE");
                 ("message", JStr audio_unavailable_message)] 503)
    else
      r <- set_system_mute g (com_first p) (SetMute p) true ;;
      let '(success, message) := r in
      if success then
        ret (Json [("status", JStr "success"); ("action", JStr "MUTE");
                   ("audio_muted", JBool true);
                   ("message", JStr "系统音频已静音。");
                   ("details", JStr message)] 200)
      else
        ret (Json [("status", JStr "error"); ("action", JStr "MUTE");
                   ("message", JStr "静音系统音频失败。");
                   ("details", JStr message)] 500)).

Definition audio_unmute (g : globals) (p : platform)
    (api_key : option string) : M response :=
  require_api_key g api_key (
    if negb (AudioUtilities g) then
      ret (Json [("status", JStr "error"); ("action", JStr "UNMUTE");
                 ("message", JStr audio_unavailable_message)] 503)
    else
      r <- set_system_mute g (com_first p) (SetMute p) false ;;
      let '(success, message) := r in
      if success then
        ret (Json [("status", JStr "success"); ("action", JStr "UNMUTE");
                   ("audio_muted", JBool false);
                   ("message", JStr "系统音频已取消静音。");
                   ("details", JStr message)] 200)
      else
        ret (Json [("status", JStr "error"); ("action", JStr "UNMUTE");
                   ("message", JStr "取消系统音频静音失败。");
                   ("details", JStr message)] 500)).

Definition audio_mute_toggle (g : globals) (p : platform)
    (api_key : option string) : M response :=
  require_api_key g api_key (
    if negb (AudioUtilities g) then
      ret (Json [("status", JStr "error"); ("action", JStr "TOGGLE_MUTE");
                 ("message", JStr audio_unavailable_message)] 503)
    else
      r <- get_system_mute_status g (com_first p) (GetMute p) ;;
      let '(current_mute_state, msg) := r in
      match current_mute_state with
      | None =>
          ret (Json [("status", JStr "error");
                     ("action", JStr "TOGGLE_MUTE");
                     ("message", JStr "获取当前静音状态失败。");
                     ("details", JStr msg)] 500)
      | Some current =>
          let new_mute_state := negb current in
          r' <- set_system_mute g (com_second p) (SetMute p) new_mute_state ;;
          let '(success, message) := r' in
          if success then
            ret (Json [("status", JStr "success");
                       ("action", JStr "TOGGLE_MUTE");
                       ("audio_muted", JBool new_mute_state);
                       ("message",
                        JStr ("系统音频静音状态已切换为: "
                              ++ (if new_mute_state
                                  then "静音" else "取消静音")));
                       ("details", JStr message)] 200)
          else
            ret (Json [("status", JStr "error");
                       ("action", JStr "TOGGLE_MUTE");
                       ("message", JStr "切换系统音频静音失败。");
                       ("details", JStr message)] 500)
      end).

Definition audio_status (g : globals) (p : platform)
    (api_key : option string) : M response :=
  require_api_key g api_key (
    if negb (AudioUtilities g) then
      ret (Json [("status", JStr "error");
                 ("message", JStr audio_unavailable_message)] 503)
    else
      r <- get_system_mute_status g (com_first p) (GetMute p) ;;
      let '(muted, message) := r in
      match muted with
      | Some m =>
          ret (Json [("status", JStr "success"); ("audio_muted", JBool m);
                     ("message", JStr "成功获取音频状态。");
                     ("details", JStr message)] 200)
      | None =>
          ret (Json [("status", JStr "error");
                     ("message", JStr "获取音频状态失败。");
                     ("details", JStr message)] 500)
      end).

(* ===================================================================== *)
(** ** The routing table *)
(* ===================================================================== *)

(** One constructor per [@app.route], with the converted URL variables. *)
Inductive route : Type :=
| MonitorOn (monitor_num : Z)
| MonitorOff (monitor_num : Z)
| MonitorBrightness (monitor_num_str : string) (level : Z)
| AudioMute
| AudioUnmute
| AudioMuteToggle
| AudioStatus
| MonitorStatusPlaceholder (monitor_num : Z).

Record request : Type := Request {
  X_API_Key : option string;
  target : route
}.

Definition serve (g : globals) (p : platform) (rq : request) : M response :=
  match target rq with
  | MonitorOn n => monitor_on_vcp g p (X_API_Key rq) n
  | MonitorOff n => monitor_off_vcp g p (X_API_Key rq) n
  | MonitorBrightness s l => set_monitor_brightness g p (X_API_Key rq) s l
  | AudioMute => audio_mute g p (X_API_Key rq)
  | AudioUnmute => audio_unmute g p (X_API_Key rq)
  | AudioMuteToggle => audio_mute_toggle g p (X_API_Key rq)
  | AudioStatus => audio_status g p (X_API_Key rq)
  | MonitorStatusPlaceholder n =>
      monitor_status_placeholder g (X_API_Key rq) n
  end.

(* ===================================================================== *)
(** ** Vocabulary of the statements *)
(* ===================================================================== *)

(** The header value passes the guard. *)
Definition authorized (g : globals) (api_key : option string) : bool :=
  negb (API_AUTH_ENABLED g)
  || match api_key with
     | Some k => Py.truthy k && String.eqb k (EXPECTED_API_KEY g)
     | None => false
     end.

(** The call initialises COM itself: [CoInitializeEx] is reached and
    returns [S_OK] (0) or [S_FALSE] (1), the two results that the source
    records in [com_initialized_here]. *)
Definition performs_initialization (g : globals) (c : com_answers) : bool :=
  AudioUtilities g && IAudioEndpointVolume g && pythoncom g
  && match CoInitializeEx c with
     | Py.Returns hr => Py.eq_int hr 0 || Py.eq_int hr 1
     | Py.Raises _ => false
     end.

(** The same answers, with another answer of [CoUninitialize]. *)
Definition with_CoUninitialize (c : com_answers) (u : Py.outcome unit)
  : com_answers :=
  ComAnswers (CoInitializeEx c) (GetSpeakers c) (Activate c)
             (QueryInterface c) u.

(** The failure text as the specification words it: trimmed standard
    error, else trimmed standard output, else a text with the exit code. *)
Definition spec_failure_message (rt : Py.runtime) (returncode : Z)
    (stdout stderr : string) : string :=
  Py.or_else (Py.str_strip rt stderr)
    (Py.or_else (Py.str_strip rt stdout)
       ("未知错误 (返回码: " ++ Py.str_of_Z returncode ++ ")")).

(** Every event of the trace passes the test [ok]. *)
Definition only (ok : event -> bool) (t : list event) : Prop :=
  forallb ok t = true.

Definition is_log (e : event) : bool :=
  match e with
  | EvLog _ => true
  | _ => false
  end.

(** Events of the acquisition of the audio handle, the release excluded. *)
Definition is_acquire_event (e : event) : bool :=
  match e with
  | EvGetSpeakers | EvActivate | EvQueryInterface | EvLog _ => true
  | _ => false
  end.

(** Events of [_get_master_volume_control]. *)
Definition is_gateway_event (e : event) : bool :=
  match e with
  | EvCoInitializeEx | EvCoUninitialize => true
  | _ => is_acquire_event e
  end.

(** Events of the audio operations. *)
Definition is_audio_event (e : event) : bool :=
  match e with
  | EvGetMute | EvSetMute _ => true
  | _ => is_gateway_event e
  end.

Definition is_read_event (e : event) : bool :=
  match e with
  | EvGetMute => true
  | _ => is_gateway_event e
  end.

(** A builder result: an error text that is not empty and no list, or a
    list headed by the executable and no error. *)
Definition built (g : globals) (r : option (list string) * option string)
  : Prop :=
  (exists m, r = (None, Some m) /\ Py.truthy m = true)
  \/ (exists rest, r = (Some (twinkle_tray_base_path g :: rest), None)).

(** [Popen] is called with the command itself and the flags computed from
    its first element. *)
Definition popen_with (parts : list string) (flags : Z) (e : event) : bool :=
  match e with
  | EvPopen parts' flags' =>
      (if list_eq_dec string_dec parts' parts then true else false)
      && (flags' =? flags)
  | _ => true
  end.

(** The test a [Popen] event of a request passes: the command is headed by
    the configured executable and the flags are those [run_command]
    computes for it. *)
Definition popen_of_tray (g : globals) (p : platform) (e : event) : bool :=
  match e with
  | EvPopen (exe :: _) flags =>
      String.eqb exe (twinkle_tray_base_path g)
      && (flags =? creationflags_for p (twinkle_tray_base_path g))
  | EvPopen [] _ => false
  | _ => true
  end.

(** A JSON response whose [status] field is "success" or "error"; an
    aborted request has no JSON body. *)
Definition status_success_or_error (r : response) : Prop :=
  match r with
  | Json body _ =>
      field "status" body = Some (JStr "success")
      \/ field "status" body = Some (JStr "error")
  | Aborted _ _ => True
  | NeverAnswers => True
  end.

(* ===================================================================== *)
(** ** Module start-up *)
(* ===================================================================== *)

(** What the module meets while it is imported: the process environment
    (after [.env] was loaded), the file system through [os.path.exists],
    the platform's [os.path.join], whether the optional imports succeed,
    the interpreter, whether the required imports (flask, dotenv) succeed
    and whether the log file can be opened by [RotatingFileHandler]. *)
Record startup_env : Type := StartupEnv {
  getenv : string -> option string;
  path_exists : string -> bool;
  path_join : string -> list string -> string;
  import_pythoncom : bool;
  import_pycaw : bool;
  interpreter : Py.runtime;
  required_imports : bool;
  log_file_opens : bool
}.

(** [os.getenv(name, default)]. *)
Definition getenv_default (e : startup_env) (name default : string) : string :=
  match getenv e name with
  | Some v => v
  | None => default
  end.

(** Truthiness of [os.getenv(name)]: set and not empty. *)
Definition getenv_truthy (e : startup_env) (name : string) : option string :=
  match getenv e name with
  | Some v => if Py.truthy v then Some v else None
  | None => None
  end.

(** The [for path in paths_to_check] loop: the first candidate that exists
    replaces the pair (path, found). *)
Fixpoint first_existing (e : startup_env) (paths_to_check : list string)
    (current : string * bool) : string * bool :=
  match paths_to_check with
  | [] => current
  | path :: rest =>
      if path_exists e path then (path, true)
      else first_existing e rest current
  end.

(** The [else] branch of the resolution: the two install locations under
    [LOCALAPPDATA], in order, then the bare name left to the search path. *)
Definition resolve_under_local_app_data (e : startup_env) : string * bool :=
  let fallback := ("Twinkle Tray.exe", false) in
  match getenv_truthy e "LOCALAPPDATA" with
  | Some local_app_data =>
      first_existing e
        [path_join e local_app_data
           ["Programs"; "twinkle-tray"; "Twinkle Tray.exe"];
         path_join e local_app_data ["twinkle-tray"; "Twinkle Tray.exe"]]
        fallback
  | None => fallback
  end.

(** The pair ([twinkle_tray_base_path], [twinkle_tray_base_path_found])
    after the import. *)
Definition resolve_twinkle_tray (e : startup_env) : string * bool :=
  match getenv_truthy e "TWINKLE_TRAY_PATH" with
  | Some env_path =>
      if path_exists e env_path then (env_path, true)
      else resolve_under_local_app_data e
  | None => resolve_under_local_app_data e
  end.

(** [FLASK_PORT]: [int] of the variable, 5000 when it is not set; [None]
    when [int] raises [ValueError], which aborts the import. *)
Definition flask_port (e : startup_env) : option Z :=
  match getenv e "FLASK_PORT" with
  | Some v => Py.int_of_str (interpreter e) v
  | None => Some 5000
  end.

(** The globals once the module is imported; [None] when the import is
    aborted: a required import fails, [int] rejects [FLASK_PORT], or the
    log file cannot be opened.  These are the failures the model knows; the
    import may fail for other reasons, so [None] is a consequence of each
    of them and nothing is claimed in the other direction. *)
Definition module_globals (e : startup_env) : option globals :=
  if negb (required_imports e) then None
  else
    match flask_port e with
    | None => None
    | Some _ =>
        let '(path, found) := resolve_twinkle_tray e in
        if negb (log_file_opens e) then None
        else
          Some (Globals
                  (String.eqb
                     (Py.lower (getenv_default e "API_AUTH_ENABLED" "False"))
                     "true")
                  (getenv_default e "API_KEY"
                     "you_should_really_set_a_key_if_auth_is_enabled")
                  path found
                  (import_pythoncom e) (import_pycaw e) (import_pycaw e))
    end.

(** The checks of the [__main__] block before the server starts:
    [which] is [bool(shutil.which(twinkle_tray_base_path))] at that time.
    Only [twinkle_tray_base_path_found] may change. *)
Definition main_checks (g : globals) (which : bool) : M globals :=
  g' <- (if negb (twinkle_tray_base_path_found g) then
           if which then
             log INFO ;;
             ret (Globals (API_AUTH_ENABLED g) (EXPECTED_API_KEY g)
                          (twinkle_tray_base_path g) true
                          (pythoncom g) (AudioUtilities g)
                          (IAudioEndpointVolume g))
           else log ERROR ;; ret g
         else log INFO ;; ret g) ;;
  (if negb (AudioUtilities g') || negb (IAudioEndpointVolume g')
   then log WARNING else ret tt) ;;
  (if negb (pythoncom g') then log WARNING else ret tt) ;;
  log INFO ;;
  log INFO ;;
  ret g'.

(* ===================================================================== *)
(** ** The audio endpoint as the requests change it *)
(* ===================================================================== *)

(** The mute flag of the endpoint after the calls of a trace, when every
    [SetMute] of the trace returned: [SetMute(flag, None)] stores whether
    [flag] is not zero, no other call changes the flag. *)
Definition muted_after (t : list event) (muted : bool) : bool :=
  fold_left (fun m e => match e with
                        | EvSetMute flag => negb (flag =? 0)
                        | _ => m
                        end) t muted.

(** A platform on which the endpoint answers: both acquisitions hand out
    a handle, [GetMute] returns a value whose truth is [muted], [SetMute]
    returns. *)
Definition endpoint_answers (g : globals) (p : platform) (muted : bool)
  : Prop :=
  (exists h, value_of (_get_master_volume_control g (com_first p))
             = (Some h, None))
  /\ (exists h, value_of (_get_master_volume_control g (com_second p))
                = (Some h, None))
  /\ (exists v, GetMute p = Py.Returns v /\ Py.bool_of v = muted)
  /\ SetMute p = Py.Returns tt.

(** Number of [Popen] calls of a trace. *)
Definition popen_count (t : list event) : nat :=
  List.length (filter (fun e => match e with
                                | EvPopen _ _ => true
                                | _ => false
                                end) t).

(** [communicate(timeout=15)] raised [TimeoutExpired]: the child did not
    finish within the timeout. *)
Definition timed_out (p : platform) : Prop :=
  exists e, process p = CommunicateRaises e
            /\ Py.exn_cls e = Py.TimeoutExpired.

(** What the view answers after [run_command] completed as [c]: 200 or 500
    by the first component of a returned pair, the 500 of an unhandled
    exception when one left [run_command], nothing when it never returned. *)
Definition answer_after (c : Py.completion (bool * string))
    (body_ok body_failed : list (string * json)) : response :=
  match c with
  | Py.Done (true, _) => Json body_ok 200
  | Py.Done (false, _) => Json body_failed 500
  | Py.Escapes _ => unhandled
  | Py.Hangs => NeverAnswers
  end.

(** What an authorised monitor view does once its builder is called:
    after a builder that only logs, either it answers 400 without calling
    the executor, or it calls [run_command] once, on a command headed by the
    executable, and answers by [answer_after]. *)
Definition view_outcome (g : globals) (p : platform) (view : M response)
  : Prop :=
  exists builder_trace,
    only is_log builder_trace
    /\ ((exists body, view = (Json body 400, builder_trace))
        \/ (exists rest body_ok body_failed,
              view
              = (answer_after
                   (value_of
                      (run_command p (twinkle_tray_base_path g :: rest)))
                   body_ok body_failed,
                 (builder_trace
                  ++ trace_of
                       (run_command p (twinkle_tray_base_path g :: rest)))
                 %list))).

(** The three routes that drive the monitor-control executable. *)
Definition monitor_route (r : route) : bool :=
  match r with
  | MonitorOn _ | MonitorOff _ | MonitorBrightness _ _ => true
  | _ => false
  end.

(** The four audio routes. *)
Definition audio_route (r : route) : bool :=
  match r with
  | AudioMute | AudioUnmute | AudioMuteToggle | AudioStatus => true
  | _ => false
  end.

(** The error text of the two [except] clauses around the activation. *)
Definition acquire_error_text (e : Py.exn) : string :=
  if Py.is_class Py.AttributeError e
  then "获取主音量控制时出错 (AttributeError): " ++ Py.exn_str e
  else "获取主音量控制时出错: " ++ Py.exn_str e.

(** The exception of [CoInitializeEx] is one the gateway passes over: an
    [AttributeError], or a text that mentions "already initialized" (in any
    case) or "RPC_E_CHANGED_MODE" (in any case). *)
Definition passed_over (e : Py.exn) : bool :=
  Py.is_class Py.AttributeError e
  || Py.contains "already initialized" (Py.lower (Py.exn_str e))
  || Py.contains "RPC_E_CHANGED_MODE" (Py.upper (Py.exn_str e)).

(* ===================================================================== *)
(** ** Sample configurations *)
(* ===================================================================== *)

Module Sample.

Definition tray_path : string :=
  "C:\Users\iot\AppData\Local\Programs\twinkle-tray\Twinkle Tray.exe".

(** Authentication off, executable found at start-up, audio loaded. *)
Definition g_ok : globals :=
  Globals false "you_should_really_set_a_key_if_auth_is_enabled"
          tray_path true true true true.

(** Nothing found at start-up: the fallback name, resolved through PATH. *)
Definition g_fallback : globals :=
  Globals false "you_should_really_set_a_key_if_auth_is_enabled"
          "Twinkle Tray.exe" false true true true.

Definition com_ok : com_answers :=
  ComAnswers (Py.Returns (Py.VInt 0)) (Py.Returns true)
             (Py.Returns (Interface true true)) (Py.Returns true)
             (Py.Returns tt).

(** A Windows host running child [ch]; the audio device is unmuted. *)
Definition windows (on_path : bool) (ch : child) : platform :=
  Platform on_path (Some 134217728) ch com_ok (Py.Returns (Py.VInt 0))
           com_ok (Py.Returns tt)
           Py.ascii_runtime (Py.Returns tt) (Py.Done tt).

Definition quiet_exit : child := Exits 0 "" "".

(** The same host, with a child that [kill()] cannot terminate: it raises
    [k]. *)
Definition out_of_reach (ch : child) (k : Py.exn) : platform :=
  Platform true (Some 134217728) ch com_ok (Py.Returns (Py.VInt 0))
           com_ok (Py.Returns tt)
           Py.ascii_runtime (Py.Raises k) (Py.Done tt).

(** The same host, where the pipes of the child stay open after it was
    killed: the draining [communicate()] does not come back. *)
Definition never_drained (ch : child) : platform :=
  Platform true (Some 134217728) ch com_ok (Py.Returns (Py.VInt 0))
           com_ok (Py.Returns tt)
           Py.ascii_runtime (Py.Returns tt) Py.Hangs.

(** Authentication on, with the key "s3cret". *)
Definition g_auth : globals :=
  Globals true "s3cret" tray_path true true true true.

(** A start-up environment with nothing set and no file found. *)
Definition bare_env : startup_env :=
  StartupEnv (fun _ => None) (fun _ => false)
             (fun a rest => fold_left (fun x y => x ++ "\" ++ y) rest a)
             true true Py.ascii_runtime true true.

(** The release raises. *)
Definition com_release_fails : com_answers :=
  ComAnswers (Py.Returns (Py.VInt 0)) (Py.Returns true)
             (Py.Returns (Interface true true)) (Py.Returns true)
             (Py.Raises (Py.Exn Py.OtherException "CoUninitialize failed")).

(** No default output device. *)
Definition com_no_speakers : com_answers :=
  ComAnswers (Py.Returns (Py.VInt 0)) (Py.Returns false)
             (Py.Returns (Interface true true)) (Py.Returns true)
             (Py.Returns tt).

End Sample.

(* ===================================================================== *)
(** ** Sanity checks on concrete inputs *)
(* ===================================================================== *)

Example lower_mixed : Py.lower "PowerShell" = "powershell".
Proof. reflexivity. Qed.

Example strip_both : Py.ascii_strip (String "009" " ok  " ++ String "010" "") = "ok".
Proof. reflexivity. Qed.

Example strip_inner : Py.ascii_strip " a b " = "a b".
Proof. reflexivity. Qed.

Example int_padded : Py.ascii_int " +1_000 " = Some 1000.
Proof. reflexivity. Qed.

Example int_negative : Py.ascii_int "-3" = Some (-3).
Proof. reflexivity. Qed.

Example int_bad_underscore : Py.ascii_int "1__0" = None.
Proof. reflexivity. Qed.

Example int_all : Py.ascii_int "all" = None.
Proof. reflexivity. Qed.

Example int_empty : Py.ascii_int "" = None.
Proof. reflexivity. Qed.

Example int_separator :
  Py.ascii_int (String "028" "5") = None
  /\ Py.ascii_strip (String "028" "5") = "5".
Proof. split; reflexivity. Qed.

Example str_of_negative : Py.str_of_Z (-9) = "-9".
Proof. reflexivity. Qed.

Example str_of_zero : Py.str_of_Z 0 = "0".
Proof. reflexivity. Qed.

Example contains_middle : Py.contains "bc" "abcd" = true.
Proof. reflexivity. Qed.


Example on_2_ok :
  value_of (monitor_on_vcp Sample.g_ok (Sample.windows false Sample.quiet_exit)
              None 2)
  = Json [("status", JStr "success"); ("monitor_num", JInt 2);
          ("action", JStr "MONITOR_ON_VCP");
          ("message", JStr "显示器已通过 VCP 命令打开。");
          ("details", JStr "命令成功执行。")] 200.
Proof. reflexivity. Qed.

Example on_2_trace :
  trace_of (monitor_on_vcp Sample.g_ok
              (Sample.windows false Sample.quiet_exit) None 2)
  = [EvLog DEBUG;
     EvPopen [Sample.tray_path; "--MonitorNum=2"; "--VCP=0xD6:1"] 0;
     EvCommunicate (Some 15); EvLog INFO].
Proof. reflexivity. Qed.

Example brightness_all_50 :
  exists details,
    value_of (set_monitor_brightness Sample.g_ok
                (Sample.windows false Sample.quiet_exit) None "all" 50)
    = Json [("status", JStr "success"); ("target", JStr "所有显示器");
            ("brightness_level", JInt 50);
            ("message", JStr "所有显示器 亮度已设置为 50%。");
            ("details", JStr details)] 200.
Proof. eexists. reflexivity. Qed.

Example auth_no_key :
  monitor_status_placeholder Sample.g_auth None 1
  = (Aborted 401
       "API key required. Please provide it in the 'X-API-Key' header.",
     [EvLog WARNING]).
Proof. reflexivity. Qed.

Example auth_wrong_key :
  monitor_status_placeholder Sample.g_auth (Some "S3cret") 1
  = (Aborted 403 "Invalid API key.", [EvLog WARNING]).
Proof. reflexivity. Qed.

Example auth_right_key :
  status_code_of
    (value_of (monitor_status_placeholder Sample.g_auth (Some "s3cret") 1))
  = Some 200.
Proof. reflexivity. Qed.

Example brightness_rejects_before_running :
  set_monitor_brightness Sample.g_ok
    (Sample.windows false Sample.quiet_exit) None "-1" 50
  = (Json [("status", JStr "error");
           ("message", JStr "显示器编号不能为负数。")] 400,
     [EvLog ERROR]).
Proof. reflexivity. Qed.

Example toggle_trace :
  trace_of (audio_mute_toggle Sample.g_ok
              (Sample.windows false Sample.quiet_exit) None)
  = [EvCoInitializeEx; EvGetSpeakers; EvActivate; EvCoUninitialize;
     EvGetMute; EvLog DEBUG;
     EvCoInitializeEx; EvGetSpeakers; EvActivate; EvCoUninitialize;
     EvSetMute 1; EvLog INFO].
Proof. reflexivity. Qed.

(* ===================================================================== *)
(** ** Facts about the built-ins *)
(* ===================================================================== *)

Module PyFacts.
Import Py.

Ltac by_cases_on_char c :=
  destruct c as [[] [] [] [] [] [] [] []]; vm_compute;
  try (intros; discriminate); auto.

Lemma lower_char_a (c : ascii) :
  lower_char c = "a"%char -> c = "a"%char \/ c = "A"%char.
Proof. by_cases_on_char c. Qed.

Lemma lower_char_l (c : ascii) :
  lower_char c = "l"%char -> c = "l"%char \/ c = "L"%char.
Proof. by_cases_on_char c. Qed.

(** The eight spellings of "all". *)
Lemma lower_all_spellings (s : string) :
  lower s = "all" ->
  exists a l1 l2,
    s = String a (String l1 (String l2 EmptyString))
    /\ (a = "a"%char \/ a = "A"%char)
    /\ (l1 = "l"%char \/ l1 = "L"%char)
    /\ (l2 = "l"%char \/ l2 = "L"%char).
Proof.
  destruct s as [|a [|l1 [|l2 [|x r]]]]; cbn; intro H; try discriminate H.
  injection H as Ha H1 H2.
  exists a, l1, l2.
  auto using lower_char_a, lower_char_l.
Qed.

(** No spelling of "all" holds a digit, so [int] raises [ValueError] on
    each of them, whatever the interpreter. *)
Lemma all_holds_no_digit (s : string) :
  lower s = "all" -> may_hold_digit s = false.
Proof.
  intro H.
  destruct (lower_all_spellings s H)
    as (a & l1 & l2 & -> & [-> | ->] & [-> | ->] & [-> | ->]);
    reflexivity.
Qed.

Lemma int_of_all (rt : runtime) (s : string) :
  lower s = "all" -> int_of_str rt s = None.
Proof. intro H. apply int_needs_digit, all_holds_no_digit, H. Qed.

End PyFacts.

(* ===================================================================== *)
(** ** Facts about the trace monad and the decorator *)
(* ===================================================================== *)

Lemma value_of_bind {A B} (m : M A) (k : A -> M B) :
  value_of (bind m k) = value_of (k (value_of m)).
Proof.
  unfold value_of, bind. destruct m as [a t1]. cbn.
  destruct (k a); reflexivity.
Qed.

Lemma trace_of_bind {A B} (m : M A) (k : A -> M B) :
  trace_of (bind m k) = (trace_of m ++ trace_of (k (value_of m)))%list.
Proof.
  unfold trace_of, value_of, bind. destruct m as [a t1]. cbn.
  destruct (k a); reflexivity.
Qed.

Lemma value_of_ret {A} (a : A) : value_of (ret a) = a.
Proof. reflexivity. Qed.

Lemma trace_of_ret {A} (a : A) : trace_of (ret a) = [].
Proof. reflexivity. Qed.

Lemma trace_of_emit (e : event) : trace_of (emit e) = [e].
Proof. reflexivity. Qed.

Lemma trace_of_log (l : log_level) : trace_of (log l) = [EvLog l].
Proof. reflexivity. Qed.

(** Rewriting a computation into its value and its trace. *)
Ltac run :=
  repeat (rewrite ?trace_of_bind, ?value_of_bind, ?trace_of_ret,
            ?value_of_ret, ?trace_of_emit, ?trace_of_log;
          cbn [app fst snd]).

(** The [Popen] call of [run_command] on a non-empty command. *)
Lemma run_command_popen (p : platform) (exe : string) (rest : list string) :
  In (EvPopen (exe :: rest) (creationflags_for p exe))
     (trace_of (run_command p (exe :: rest))).
Proof.
  unfold run_command. run. right. left. reflexivity.
Qed.

Lemma require_api_key_authorized (g : globals) (k : option string)
    (f : M response) :
  authorized g k = true -> require_api_key g k f = f.
Proof.
  unfold authorized, require_api_key.
  destruct (API_AUTH_ENABLED g); cbn; [|reflexivity].
  destruct k as [k|]; [|discriminate].
  destruct (Py.truthy k); cbn; [|discriminate].
  now intros ->.
Qed.

Lemma require_api_key_rejected (g : globals) (k : option string)
    (f : M response) :
  authorized g k = false ->
  exists c d, require_api_key g k f = (Aborted c d, [EvLog WARNING]).
Proof.
  unfold authorized, require_api_key.
  destruct (API_AUTH_ENABLED g); cbn; [|discriminate].
  destruct k as [k|]; cbn; [|eauto].
  destruct (Py.truthy k); cbn; [|eauto].
  intros ->. cbn. eauto.
Qed.

(** Either the guard aborts, or the decorated function is the view. *)
Lemma require_api_key_cases (g : globals) (k : option string)
    (f : M response) :
  (exists c d, require_api_key g k f = (Aborted c d, [EvLog WARNING]))
  \/ require_api_key g k f = f.
Proof.
  destruct (authorized g k) eqn:E.
  - right. now apply require_api_key_authorized.
  - left. now apply require_api_key_rejected.
Qed.

(* ===================================================================== *)
(** ** Command builders: power *)
(* ===================================================================== *)

Lemma power_parts_positive (g : globals) (p : platform) (m : Z) (vcp : string) :
  0 < m ->
  executable_missing g p = false ->
  get_twinkle_power_command_parts g p (Py.VInt m) vcp
  = ret (Some [twinkle_tray_base_path g;
               "--MonitorNum=" ++ Py.str_of_Z m;
               "--VCP=" ++ vcp], None).
Proof.
  intros Hm Hx. unfold get_twinkle_power_command_parts. rewrite Hx.
  cbn. destruct (Z.leb_spec m 0); [lia | reflexivity].
Qed.

Lemma power_parts_missing (g : globals) (p : platform) (v : Py.value)
    (vcp : string) :
  executable_missing g p = true ->
  get_twinkle_power_command_parts g p v vcp
  = (log WARNING ;; ret (None, Some (executable_missing_message g))).
Proof.
  intros Hx. unfold get_twinkle_power_command_parts. now rewrite Hx.
Qed.

(** C9.  For every positive monitor number [m], when the executable
    resolves, the power builder returns for "on" and for "off" two argument
    lists with one common prefix (the executable and the monitor index)
    followed by a single argument, the power-state code, which is
    [--VCP=0xD6:1] for on and [--VCP=0xD6:5] for off; the two codes are
    distinct, and these are the lists the on and off handlers start. *)
Theorem power_on_off_differ_only_in_code :
  forall (g : globals) (p : platform) (api_key : option string) (m : Z),
    0 < m ->
    executable_missing g p = false ->
    authorized g api_key = true ->
    exists common,
      value_of (get_twinkle_power_command_parts g p (Py.VInt m) "0xD6:1")
      = (Some (common ++ ["--VCP=0xD6:1"])%list, None)
      /\ value_of (get_twinkle_power_command_parts g p (Py.VInt m) "0xD6:5")
         = (Some (common ++ ["--VCP=0xD6:5"])%list, None)
      /\ "--VCP=0xD6:1" <> "--VCP=0xD6:5"
      /\ (exists flags,
            In (EvPopen (common ++ ["--VCP=0xD6:1"])%list flags)
               (trace_of (monitor_on_vcp g p api_key m)))
      /\ (exists flags,
            In (EvPopen (common ++ ["--VCP=0xD6:5"])%list flags)
               (trace_of (monitor_off_vcp g p api_key m))).
Proof.
  intros g p api_key m Hm Hx Hauth.
  exists [twinkle_tray_base_path g; "--MonitorNum=" ++ Py.str_of_Z m].
  repeat split.
  - now rewrite power_parts_positive.
  - now rewrite power_parts_positive.
  - discriminate.
  - exists (creationflags_for p (twinkle_tray_base_path g)).
    unfold monitor_on_vcp.
    rewrite require_api_key_authorized, power_parts_positive by assumption.
    run. unfold run_built.
    apply in_or_app. left. apply run_command_popen.
  - exists (creationflags_for p (twinkle_tray_base_path g)).
    unfold monitor_off_vcp.
    rewrite require_api_key_authorized, power_parts_positive by assumption.
    run. unfold run_built.
    apply in_or_app. left. apply run_command_popen.
Qed.

(** [power_on_off_differ_only_in_code] at a sample configuration, its hypotheses
    discharged by evaluation. *)
Lemma power_on_off_differ_only_in_code_witness :
  exists common,
    value_of (get_twinkle_power_command_parts Sample.g_ok
                (Sample.windows false Sample.quiet_exit) (Py.VInt 2) "0xD6:1")
    = (Some (common ++ ["--VCP=0xD6:1"])%list, None)
    /\ value_of (get_twinkle_power_command_parts Sample.g_ok
                   (Sample.windows false Sample.quiet_exit) (Py.VInt 2) "0xD6:5")
       = (Some (common ++ ["--VCP=0xD6:5"])%list, None).
Proof.
  destruct (power_on_off_differ_only_in_code Sample.g_ok
              (Sample.windows false Sample.quiet_exit) None 2)
    as (common & Hon & Hoff & _); [lia | reflexivity | reflexivity |].
  exists common. split; assumption.
Defined.

(* ===================================================================== *)
(** ** Command builders: brightness *)
(* ===================================================================== *)

Lemma valid_brightness_spec (lvl : Py.value) :
  valid_brightness lvl = true
  <-> exists l, Py.int_value lvl = Some l /\ 0 <= l <= 100.
Proof.
  unfold valid_brightness. split.
  - intro H. apply andb_prop in H as [_ H].
    destruct (Py.int_value lvl) as [l|]; [|discriminate].
    exists l. split; [reflexivity | lia].
  - intros (l & Hl & Hr).
    destruct lvl as [z | b | s | ]; cbn in *; try discriminate;
      injection Hl as <-; try destruct b; lia.
Qed.

Lemma invalid_brightness_spec (lvl : Py.value) :
  Py.isinstance_int lvl = false
  \/ (exists l, Py.int_value lvl = Some l /\ (l < 0 \/ 100 < l)) ->
  valid_brightness lvl = false.
Proof.
  intros [H | (l & Hl & Hr)]; unfold valid_brightness.
  - now rewrite H.
  - rewrite Hl. apply andb_false_intro2. lia.
Qed.

(** C4.  The brightness builder, case by case.  With [r] the pair it
    returns: (1) an executable that does not resolve gives the
    executable-not-found message and no argument list, whatever the selector
    and the level; otherwise (2) a level that is not an [int], or an [int]
    outside 0..100, gives the level message and no list; otherwise, for a
    level [l] in 0..100, (3) a selector that converts to a positive integer
    [n] gives the specific-monitor list, (4) one that converts to 0, or a
    string spelling "all" in any case, gives the broadcast list, (5) one
    that converts to a negative integer gives the negative-number message
    and no list, and (6) a string that [int] rejects and that does not spell
    "all" gives the invalid-selector message and no list.  "Converts" is
    what [int] of the interpreter does, whatever digits and white space it
    accepts; that it rejects every spelling of "all" follows from the one
    assumed fact that [int] needs a digit. *)
Theorem brightness_builder_cases :
  forall (g : globals) (p : platform) (sel lvl : Py.value),
    let r := value_of (get_twinkle_brightness_command_parts g p sel lvl) in
    let path := twinkle_tray_base_path g in
    (executable_missing g p = true ->
     r = Py.Returns
           (None, Some ("Twinkle Tray 可执行文件 '" ++ path ++ "' 未找到。")))
    /\ (executable_missing g p = false ->
        (Py.isinstance_int lvl = false
         \/ (exists l, Py.int_value lvl = Some l /\ (l < 0 \/ 100 < l)) ->
         r = Py.Returns (None, Some "亮度值必须是 0 到 100 之间的整数。"))
        /\ (forall l, Py.int_value lvl = Some l -> 0 <= l <= 100 ->
            (forall n, Py.int_of (python p) sel = Py.IntOk n -> 0 < n ->
               r = Py.Returns
                     (Some [path; "--MonitorNum=" ++ Py.str_of_Z n;
                            "--Set=" ++ Py.format lvl], None))
            /\ (Py.int_of (python p) sel = Py.IntOk 0 ->
                r = Py.Returns
                      (Some [path; "--AllMonitors"; "--Set=" ++ Py.format lvl],
                       None))
            /\ (forall s, sel = Py.VStr s -> Py.lower s = "all" ->
                r = Py.Returns
                      (Some [path; "--AllMonitors"; "--Set=" ++ Py.format lvl],
                       None))
            /\ (forall n, Py.int_of (python p) sel = Py.IntOk n -> n < 0 ->
                r = Py.Returns (None, Some "显示器编号不能为负数。"))
            /\ (forall s, sel = Py.VStr s -> Py.int_of_str (python p) s = None ->
                Py.lower s <> "all" ->
                r = Py.Returns
                      (None,
                       Some ("无效的显示器编号: '" ++ s
                             ++ "'。应为正整数, 0, 或 'all'。"))))).
Proof.
  intros g p sel lvl r path. subst r path.
  unfold get_twinkle_brightness_command_parts. split.
  - intros ->. reflexivity.
  - intros ->. split.
    + intro H. now rewrite (invalid_brightness_spec lvl H).
    + intros l Hl Hr.
      assert (Hv : valid_brightness lvl = true)
        by (apply valid_brightness_spec; eauto).
      rewrite Hv. cbn [negb]. repeat split.
      * intros n -> Hn.
        destruct (Z.eqb_spec n 0); [lia|].
        destruct (Z.gtb_spec n 0); [reflexivity | lia].
      * intros ->. reflexivity.
      * intros s -> Hs. cbn [Py.int_of Py.format].
        rewrite (PyFacts.int_of_all (python p) s Hs), Hs. reflexivity.
      * intros n -> Hn.
        destruct (Z.eqb_spec n 0); [lia|].
        destruct (Z.gtb_spec n 0); [lia | reflexivity].
      * intros s -> Hs Hne. cbn [Py.int_of Py.format]. rewrite Hs.
        destruct (String.eqb_spec (Py.lower s) "all"); [contradiction|].
        reflexivity.
Qed.

(** [brightness_builder_cases] at a sample configuration, its hypotheses
    discharged by evaluation. *)
Lemma brightness_builder_cases_witness :
  value_of (get_twinkle_brightness_command_parts Sample.g_fallback
              (Sample.windows false Sample.quiet_exit)
              (Py.VStr "all") (Py.VInt 50))
  = Py.Returns
      (None, Some "Twinkle Tray 可执行文件 'Twinkle Tray.exe' 未找到。")
  /\ value_of (get_twinkle_brightness_command_parts Sample.g_fallback
                 (Sample.windows true Sample.quiet_exit)
                 (Py.VStr "1") (Py.VInt 101))
     = Py.Returns (None, Some "亮度值必须是 0 到 100 之间的整数。")
  /\ value_of (get_twinkle_brightness_command_parts Sample.g_fallback
                 (Sample.windows true Sample.quiet_exit)
                 (Py.VStr "2") (Py.VInt 50))
     = Py.Returns
         (Some ["Twinkle Tray.exe"; "--MonitorNum=2"; "--Set=50"], None)
  /\ value_of (get_twinkle_brightness_command_parts Sample.g_fallback
                 (Sample.windows true Sample.quiet_exit)
                 (Py.VStr "ALL") (Py.VInt 0))
     = Py.Returns (Some ["Twinkle Tray.exe"; "--AllMonitors"; "--Set=0"], None)
  /\ value_of (get_twinkle_brightness_command_parts Sample.g_fallback
                 (Sample.windows true Sample.quiet_exit)
                 (Py.VStr "-1") (Py.VInt 100))
     = Py.Returns (None, Some "显示器编号不能为负数。")
  /\ value_of (get_twinkle_brightness_command_parts Sample.g_fallback
                 (Sample.windows true Sample.quiet_exit)
                 (Py.VStr "left") (Py.VInt 100))
     = Py.Returns
         (None, Some "无效的显示器编号: 'left'。应为正整数, 0, 或 'all'。").
Proof.
  split; [|split; [|split; [|split; [|split]]]].
  - apply (brightness_builder_cases Sample.g_fallback
             (Sample.windows false Sample.quiet_exit)
             (Py.VStr "all") (Py.VInt 50)).
    reflexivity.
  - apply (brightness_builder_cases Sample.g_fallback
             (Sample.windows true Sample.quiet_exit)
             (Py.VStr "1") (Py.VInt 101)); [reflexivity|].
    right. exists 101. split; [reflexivity | lia].
  - apply (brightness_builder_cases Sample.g_fallback
             (Sample.windows true Sample.quiet_exit)
             (Py.VStr "2") (Py.VInt 50)) with (l := 50) (n := 2);
      [reflexivity | reflexivity | lia | reflexivity | lia].
  - apply (brightness_builder_cases Sample.g_fallback
             (Sample.windows true Sample.quiet_exit)
             (Py.VStr "ALL") (Py.VInt 0)) with (l := 0) (s := "ALL");
      [reflexivity | reflexivity | lia | reflexivity | reflexivity].
  - apply (brightness_builder_cases Sample.g_fallback
             (Sample.windows true Sample.quiet_exit)
             (Py.VStr "-1") (Py.VInt 100)) with (l := 100) (n := -1);
      [reflexivity | reflexivity | lia | reflexivity | lia].
  - apply (brightness_builder_cases Sample.g_fallback
             (Sample.windows true Sample.quiet_exit)
             (Py.VStr "left") (Py.VInt 100)) with (l := 100) (s := "left");
      [reflexivity | reflexivity | lia | reflexivity | reflexivity
      | discriminate].
Defined.

(* ===================================================================== *)
(** ** Process executor *)
(* ===================================================================== *)

Lemma run_command_exits (p : platform) (exe : string) (rest : list string)
    (rc : Z) (out err : string) :
  process p = Exits rc out err ->
  run_command p (exe :: rest)
  = (Py.Done
       (if rc =? 0
        then (true, Py.or_else (Py.str_strip (python p) out) "命令成功执行。")
        else (false,
              "执行命令出错: " ++ spec_failure_message (python p) rc out err)),
     [EvLog DEBUG; EvPopen (exe :: rest) (creationflags_for p exe);
      EvCommunicate (Some 15); EvLog (if rc =? 0 then INFO else ERROR)]).
Proof.
  intro Hp. unfold run_command. rewrite Hp.
  destruct (rc =? 0); reflexivity.
Qed.

(** C5 (as the code has it).  When the child exits within the timeout,
    [run_command] returns a pair; it reports success exactly when the exit
    code is zero; on success the message is the trimmed standard output, or
    the fixed phrase when that is empty; on failure the message is a fixed
    prefix followed by the trimmed standard error, else the trimmed
    standard output, else a text that embeds the exit code.  Trimming is
    [str.strip] of the interpreter, whatever white space it removes. *)
Theorem run_command_on_exit :
  forall (p : platform) (exe : string) (rest : list string)
         (rc : Z) (out err : string),
    process p = Exits rc out err ->
    let trimmed := Py.str_strip (python p) in
    exists (success : bool) (message : string),
      value_of (run_command p (exe :: rest)) = Py.Done (success, message)
      /\ (success = true <-> rc = 0)
      /\ (rc = 0 -> message = Py.or_else (trimmed out) "命令成功执行。")
      /\ (rc <> 0 ->
          message
          = "执行命令出错: "
            ++ Py.or_else (trimmed err)
                 (Py.or_else (trimmed out)
                    ("未知错误 (返回码: " ++ Py.str_of_Z rc ++ ")"))).
Proof.
  intros p exe rest rc out err Hp trimmed. subst trimmed.
  rewrite (run_command_exits p exe rest rc out err Hp).
  unfold value_of. cbn [fst].
  destruct (Z.eqb_spec rc 0) as [-> | Hrc]; eexists; eexists;
    (split; [reflexivity|]).
  - repeat split; auto. intro H. now contradiction H.
  - repeat split; auto; try discriminate; intro H; contradiction.
Qed.

(** [run_command_on_exit] at a sample configuration, its hypotheses
    discharged by evaluation. *)
Lemma run_command_on_exit_witness :
  exists (success : bool) (message : string),
    value_of (run_command (Sample.windows true (Exits 3 "  " ""))
                ["Twinkle Tray.exe"; "--MonitorNum=1"; "--VCP=0xD6:1"])
    = Py.Done (success, message)
    /\ message = "执行命令出错: 未知错误 (返回码: 3)".
Proof.
  destruct (run_command_on_exit (Sample.windows true (Exits 3 "  " ""))
              "Twinkle Tray.exe" ["--MonitorNum=1"; "--VCP=0xD6:1"]
              3 "  " "" eq_refl)
    as (success & message & Hv & _ & _ & Hm).
  exists success, message. split; [exact Hv|].
  rewrite Hm by discriminate. reflexivity.
Defined.

(** C5, as worded, fails: a child that exits with code 1 and writes "boom"
    on its standard error gives a message that is not that trimmed text. *)
Lemma failure_message_has_prefix :
  let p := Sample.windows true (Exits 1 "" "boom") in
  let r := value_of (run_command p
                       ["Twinkle Tray.exe"; "--AllMonitors"; "--Set=50"]) in
  spec_failure_message (python p) 1 "" "boom" = "boom"
  /\ r = Py.Done (false, "执行命令出错: boom")
  /\ r <> Py.Done (false, spec_failure_message (python p) 1 "" "boom").
Proof.
  cbv zeta. repeat split. discriminate.
Qed.

(** C6.  When [communicate(timeout=15)] raises [TimeoutExpired], the
    handler logs a warning and calls [process.kill()].  What follows depends
    on calls that the handler does not guard: (1) when [kill()] returns and
    the draining [communicate()] returns, [run_command] returns the failure
    pair with the timeout message, after exactly these calls in this order;
    (2) when [kill()] raises, that exception leaves [run_command] and the
    child is not drained; (3) when the draining [communicate()] raises, that
    exception leaves [run_command]; (4) when the draining [communicate()]
    does not come back, neither does [run_command]. *)
Theorem run_command_on_timeout :
  forall (p : platform) (exe : string) (rest : list string) (e : Py.exn),
    process p = CommunicateRaises e ->
    Py.exn_cls e = Py.TimeoutExpired ->
    let killed :=
      [EvLog DEBUG;
       EvPopen (exe :: rest) (creationflags_for p exe);
       EvCommunicate (Some 15);
       EvLog WARNING;
       EvKill] in
    let drained := (killed ++ [EvCommunicate None])%list in
    (kill_answer p = Py.Returns tt -> drain_answer p = Py.Done tt ->
     run_command p (exe :: rest)
     = (Py.Done (false, "命令执行超时。"), drained))
    /\ (forall k, kill_answer p = Py.Raises k ->
        run_command p (exe :: rest) = (Py.Escapes k, killed))
    /\ (forall d, kill_answer p = Py.Returns tt ->
        drain_answer p = Py.Escapes d ->
        run_command p (exe :: rest) = (Py.Escapes d, drained))
    /\ (kill_answer p = Py.Returns tt -> drain_answer p = Py.Hangs ->
        run_command p (exe :: rest) = (Py.Hangs, drained)).
Proof.
  intros p exe rest e Hp He killed drained. subst killed drained.
  unfold run_command, run_command_except. rewrite Hp, He.
  repeat split.
  - intros -> ->. reflexivity.
  - intros k ->. reflexivity.
  - intros d -> ->. reflexivity.
  - intros -> ->. reflexivity.
Qed.

(** [run_command_on_timeout] where the child outlives the timeout and
    cannot be terminated: [kill()] raises [PermissionError], which leaves
    [run_command]; and where the child is terminated but a process it
    started keeps the pipes open: [run_command] does not return. *)
Lemma run_command_on_timeout_witness :
  let timeout :=
    CommunicateRaises
      (Py.Exn Py.TimeoutExpired "timed out after 15 seconds") in
  let denied := Py.Exn Py.OtherException "[WinError 5] Access is denied" in
  let command := ["Twinkle Tray.exe"; "--AllMonitors"; "--Set=50"] in
  let started :=
    [EvLog DEBUG; EvPopen command 0; EvCommunicate (Some 15);
     EvLog WARNING; EvKill] in
  run_command (Sample.out_of_reach timeout denied) command
  = (Py.Escapes denied, started)
  /\ run_command (Sample.never_drained timeout) command
     = (Py.Hangs, (started ++ [EvCommunicate None])%list).
Proof.
  cbv zeta. split.
  - apply (run_command_on_timeout
             (Sample.out_of_reach
                (CommunicateRaises
                   (Py.Exn Py.TimeoutExpired "timed out after 15 seconds"))
                (Py.Exn Py.OtherException "[WinError 5] Access is denied"))
             "Twinkle Tray.exe" ["--AllMonitors"; "--Set=50"]
             (Py.Exn Py.TimeoutExpired "timed out after 15 seconds"));
      reflexivity.
  - apply (run_command_on_timeout
             (Sample.never_drained
                (CommunicateRaises
                   (Py.Exn Py.TimeoutExpired "timed out after 15 seconds")))
             "Twinkle Tray.exe" ["--AllMonitors"; "--Set=50"]
             (Py.Exn Py.TimeoutExpired "timed out after 15 seconds"));
      reflexivity.
Defined.

(* ===================================================================== *)
(** ** Traces that hold events of one kind only *)
(* ===================================================================== *)

Lemma only_app (ok : event -> bool) (t1 t2 : list event) :
  only ok t1 -> only ok t2 -> only ok (t1 ++ t2)%list.
Proof.
  unfold only. intros H1 H2. now rewrite forallb_app, H1, H2.
Qed.

Lemma only_bind {A B} (ok : event -> bool) (m : M A) (k : A -> M B) :
  only ok (trace_of m) ->
  (forall a, only ok (trace_of (k a))) ->
  only ok (trace_of (bind m k)).
Proof.
  intros Hm Hk. rewrite trace_of_bind. now apply only_app.
Qed.

Lemma only_In (ok : event -> bool) (t : list event) (e : event) :
  only ok t -> In e t -> ok e = true.
Proof.
  unfold only. intros H Hin.
  rewrite forallb_forall in H. now apply H.
Qed.

Lemma only_weaken (ok ok' : event -> bool) (t : list event) :
  (forall e, ok e = true -> ok' e = true) -> only ok t -> only ok' t.
Proof.
  unfold only. intros Himp H.
  rewrite forallb_forall in *. auto.
Qed.

(** Splits a computation along its binds and branches; the leaves are
    closed by evaluation. *)
Ltac only_tac :=
  repeat first
    [ apply only_bind; [| intro]
    | match goal with
      | |- only _ (trace_of (match ?x with _ => _ end)) => destruct x
      | |- only _ (trace_of (ret _)) => reflexivity
      | |- only _ (trace_of (emit _)) => reflexivity
      | |- only _ (trace_of (log _)) => reflexivity
      end ].

Lemma acquire_only (c : com_answers) :
  only is_acquire_event (trace_of (acquire c)).
Proof. unfold acquire, acquire_except. only_tac. Qed.

Lemma gateway_only (g : globals) (c : com_answers) :
  only is_gateway_event (trace_of (_get_master_volume_control g c)).
Proof.
  unfold _get_master_volume_control, com_initialize, release.
  only_tac.
Qed.

Lemma require_api_key_only (ok : event -> bool) (g : globals)
    (k : option string) (f : M response) :
  (forall l, ok (EvLog l) = true) ->
  only ok (trace_of f) -> only ok (trace_of (require_api_key g k f)).
Proof.
  intros Hlog Hf.
  destruct (require_api_key_cases g k f) as [(c & d & ->) | ->]; [|exact Hf].
  unfold only. cbn. now rewrite Hlog.
Qed.

(* ===================================================================== *)
(** ** Audio gateway: acquisition and release *)
(* ===================================================================== *)

Lemma com_initialize_flag (c : com_answers) (b : bool) :
  value_of (com_initialize c) = inl b ->
  b = match CoInitializeEx c with
      | Py.Returns hr => Py.eq_int hr 0 || Py.eq_int hr 1
      | Py.Raises _ => false
      end
  /\ only is_log (tl (trace_of (com_initialize c)))
  /\ hd EvKill (trace_of (com_initialize c)) = EvCoInitializeEx.
Proof.
  unfold com_initialize.
  destruct (CoInitializeEx c) as [hr | e].
  - destruct (Py.eq_int hr 0 || Py.eq_int hr 1); cbn; intro H;
      injection H as <-; repeat split.
  - destruct (Py.is_class Py.AttributeError e); cbn.
    + intro H. injection H as <-. repeat split.
    + destruct (negb _ && negb _); cbn; intro H; [discriminate H|].
      injection H as <-. repeat split.
Qed.

Lemma com_initialize_true (c : com_answers) :
  value_of (com_initialize c) = inl true ->
  trace_of (com_initialize c) = [EvCoInitializeEx].
Proof.
  unfold com_initialize.
  destruct (CoInitializeEx c) as [hr | e].
  - destruct (Py.eq_int hr 0 || Py.eq_int hr 1); cbn; [reflexivity|].
    discriminate.
  - destruct (Py.is_class Py.AttributeError e); cbn; [discriminate|].
    destruct (negb _ && negb _); cbn; discriminate.
Qed.

Lemma com_initialize_only (c : com_answers) :
  only (fun e => match e with
                 | EvCoInitializeEx | EvLog _ => true
                 | _ => false
                 end)
       (trace_of (com_initialize c)).
Proof. unfold com_initialize. only_tac. Qed.

Lemma release_none (g : globals) (c : com_answers) :
  release g c false = ret tt.
Proof. reflexivity. Qed.

Lemma release_trace (g : globals) (c : com_answers) :
  pythoncom g = true ->
  trace_of (release g c true)
  = EvCoUninitialize
    :: match CoUninitialize c with
       | Py.Returns _ => []
       | Py.Raises _ => [EvLog WARNING]
       end.
Proof.
  intro Hp. unfold release. rewrite Hp. cbn [andb].
  destruct (CoUninitialize c); reflexivity.
Qed.

(** The gateway once the pycaw names are bound. *)
Lemma gateway_unfold (g : globals) (c : com_answers) :
  AudioUtilities g = true -> IAudioEndpointVolume g = true ->
  let init := if pythoncom g then com_initialize c else ret (inl false) in
  _get_master_volume_control g c
  = match value_of init with
    | inr message => ((None, Some message), trace_of init)
    | inl here =>
        (gateway_result (value_of (acquire c)),
         (trace_of init ++ trace_of (acquire c)
          ++ trace_of (release g c here))%list)
    end.
Proof.
  intros Ha Hi init. unfold _get_master_volume_control.
  rewrite Ha, Hi. cbn [negb orb]. fold init.
  destruct init as [[here | message] t0];
    unfold bind, ret, value_of, trace_of; cbn [fst snd].
  - destruct (acquire c) as [r t1].
    destruct (release g c here) as [[] t2].
    now rewrite !app_nil_r.
  - now rewrite app_nil_r.
Qed.

Lemma not_in_only (ok : event -> bool) (t : list event) (e : event) :
  only ok t -> ok e = false -> ~ In e t.
Proof.
  intros H He Hin. apply (only_In ok t e H) in Hin. congruence.
Qed.

(** Without the pycaw names the gateway touches nothing. *)
Lemma gateway_unloaded (g : globals) (c : com_answers) :
  AudioUtilities g && IAudioEndpointVolume g = false ->
  _get_master_volume_control g c
  = ret (None, Some "pycaw 库或其必要组件未加载。").
Proof.
  unfold _get_master_volume_control.
  destruct (AudioUtilities g), (IAudioEndpointVolume g);
    cbn; congruence.
Qed.

(** C8.  For every configuration and every behaviour of COM and pycaw:
    (1) when the call performs the COM initialisation, its trace is the
    initialisation, then the events of the acquisition (none of them a
    release), then exactly one [CoUninitialize], followed by nothing but
    the warning logged when that release raises; (2) when the call did not
    perform the initialisation, [CoUninitialize] is never called; (3) the
    pair returned does not depend on what [CoUninitialize] does. *)
Theorem gateway_releases_its_own_initialization :
  forall (g : globals) (c : com_answers),
    let t := trace_of (_get_master_volume_control g c) in
    (performs_initialization g c = true ->
     exists acquisition,
       t = (EvCoInitializeEx :: acquisition
            ++ EvCoUninitialize
               :: match CoUninitialize c with
                  | Py.Returns _ => []
                  | Py.Raises _ => [EvLog WARNING]
                  end)%list
       /\ ~ In EvCoUninitialize acquisition)
    /\ (performs_initialization g c = false -> ~ In EvCoUninitialize t)
    /\ (forall u : Py.outcome unit,
          value_of (_get_master_volume_control g (with_CoUninitialize c u))
          = value_of (_get_master_volume_control g c)).
Proof.
  intros g c t. subst t. unfold performs_initialization.
  destruct (AudioUtilities g && IAudioEndpointVolume g) eqn:Hl.
  - apply andb_prop in Hl as [Ha Hi]. cbn [andb].
    split; [|split].
    + intro H. apply andb_prop in H as [Hp Hhr].
      rewrite (gateway_unfold g c Ha Hi). cbv zeta. rewrite Hp.
      assert (Hv : value_of (com_initialize c) = inl true).
      { unfold com_initialize. destruct (CoInitializeEx c); [|discriminate].
        now rewrite Hhr. }
      rewrite Hv. unfold trace_of at 1. cbn [snd].
      fold (trace_of (com_initialize c)).
      rewrite (com_initialize_true c Hv), (release_trace g c Hp).
      exists (trace_of (acquire c)). split; [reflexivity|].
      apply (not_in_only is_acquire_event); [apply acquire_only | reflexivity].
    + intro H. rewrite (gateway_unfold g c Ha Hi). cbv zeta.
      destruct (pythoncom g) eqn:Hp; cbn [andb] in H.
      * destruct (value_of (com_initialize c)) as [here | message] eqn:Hv;
          unfold trace_of at 1; cbn [snd].
        -- destruct (com_initialize_flag c here Hv) as (Hhere & _ & _).
           rewrite H in Hhere. subst here. rewrite release_none.
           intro Hin. apply in_app_or in Hin as [Hin | Hin].
           ++ revert Hin. apply (not_in_only _ _ _ (com_initialize_only c)).
              reflexivity.
           ++ apply in_app_or in Hin as [Hin | []].
              revert Hin.
              apply (not_in_only _ _ _ (acquire_only c)). reflexivity.
        -- apply (not_in_only _ _ _ (com_initialize_only c)). reflexivity.
      * cbn. rewrite app_nil_r.
        apply (not_in_only _ _ _ (acquire_only c)). reflexivity.
    + intro u.
      rewrite (gateway_unfold g c Ha Hi).
      rewrite (gateway_unfold g (with_CoUninitialize c u) Ha Hi).
      cbv zeta.
      replace (com_initialize (with_CoUninitialize c u))
        with (com_initialize c) by reflexivity.
      replace (acquire (with_CoUninitialize c u))
        with (acquire c) by reflexivity.
      destruct (value_of (if pythoncom g then com_initialize c
                          else ret (inl false))); reflexivity.
  - cbn [andb]. rewrite (gateway_unloaded g c Hl).
    split; [discriminate|]. split; [intros _ []|].
    intro u. now rewrite (gateway_unloaded g (with_CoUninitialize c u)).
Qed.

(** [gateway_releases_its_own_initialization] at a sample configuration, its hypotheses
    discharged by evaluation. *)
Lemma gateway_releases_its_own_initialization_witness :
  exists acquisition,
    trace_of (_get_master_volume_control Sample.g_ok Sample.com_release_fails)
    = (EvCoInitializeEx :: acquisition
       ++ [EvCoUninitialize; EvLog WARNING])%list
    /\ ~ In EvCoUninitialize acquisition.
Proof.
  apply (gateway_releases_its_own_initialization
           Sample.g_ok Sample.com_release_fails).
  reflexivity.
Defined.

(* ===================================================================== *)
(** ** Audio gateway: reading and writing the mute flag *)
(* ===================================================================== *)

Lemma com_initialize_message (c : com_answers) (m : string) :
  value_of (com_initialize c) = inr m -> Py.truthy m = true.
Proof.
  unfold com_initialize.
  destruct (CoInitializeEx c) as [hr | e].
  - destruct (Py.eq_int hr 0 || Py.eq_int hr 1); discriminate.
  - destruct (Py.is_class Py.AttributeError e); [discriminate|].
    destruct (negb _ && negb _); [|discriminate].
    cbn. intro H. injection H as <-. reflexivity.
Qed.

Lemma gateway_result_shape (r : option handle * option string) :
  (exists h, gateway_result r = (Some h, None))
  \/ (exists m, gateway_result r = (None, Some m) /\ Py.truthy m = true).
Proof.
  destruct r as [master_volume error_message]. unfold gateway_result.
  destruct error_message as [e|]; cbn [error_set].
  - destruct (Py.truthy e) eqn:He; [right; eauto|].
    destruct master_volume; [left; eauto | right; eauto].
  - destruct master_volume; [left; eauto | right; eauto].
Qed.

(** The gateway returns a handle and no error, or no handle and an error
    text that is not empty. *)
Lemma gateway_value (g : globals) (c : com_answers) :
  (exists h, value_of (_get_master_volume_control g c) = (Some h, None))
  \/ (exists m, value_of (_get_master_volume_control g c) = (None, Some m)
                /\ Py.truthy m = true).
Proof.
  destruct (AudioUtilities g && IAudioEndpointVolume g) eqn:Hl.
  - apply andb_prop in Hl as [Ha Hi].
    rewrite (gateway_unfold g c Ha Hi). cbv zeta.
    destruct (value_of (if pythoncom g then com_initialize c
                        else ret (inl false)))
      as [here | m] eqn:Hv.
    + apply gateway_result_shape.
    + right. exists m. split; [reflexivity|].
      destruct (pythoncom g); [|discriminate Hv].
      now apply com_initialize_message with c.
  - rewrite (gateway_unloaded g c Hl). right.
    eexists. split; reflexivity.
Qed.

Lemma status_acquired (g : globals) (c : com_answers)
    (gm : Py.outcome Py.value) (h : handle) :
  value_of (_get_master_volume_control g c) = (Some h, None) ->
  get_system_mute_status g c gm
  = (match gm with
     | Py.Returns muted => (Some (Py.bool_of muted), "成功获取静音状态。")
     | Py.Raises e => (None, "获取系统静音状态时出错: " ++ Py.exn_str e)
     end,
     (trace_of (_get_master_volume_control g c)
      ++ [EvGetMute;
          EvLog match gm with Py.Returns _ => DEBUG | Py.Raises _ => ERROR end])
     %list).
Proof.
  unfold get_system_mute_status, value_of, trace_of.
  destruct (_get_master_volume_control g c) as [r t]. cbn [fst snd].
  intros ->. unfold bind. destruct gm; reflexivity.
Qed.

Lemma status_not_acquired (g : globals) (c : com_answers)
    (gm : Py.outcome Py.value) (m : string) :
  value_of (_get_master_volume_control g c) = (None, Some m) ->
  Py.truthy m = true ->
  get_system_mute_status g c gm
  = ((None, m), trace_of (_get_master_volume_control g c)).
Proof.
  unfold get_system_mute_status, value_of, trace_of.
  destruct (_get_master_volume_control g c) as [r t]. cbn [fst snd].
  intros -> Hm. unfold bind. rewrite Hm. cbn. now rewrite app_nil_r.
Qed.

Lemma mute_acquired (g : globals) (c : com_answers)
    (sm : Py.outcome unit) (mute_state : bool) (h : handle) :
  value_of (_get_master_volume_control g c) = (Some h, None) ->
  set_system_mute g c sm mute_state
  = (match sm with
     | Py.Returns _ =>
         (true, "系统主音量静音状态已设置为 "
                ++ (if mute_state then "静音" else "取消静音") ++ "。")
     | Py.Raises e => (false, "设置系统静音时出错: " ++ Py.exn_str e)
     end,
     (trace_of (_get_master_volume_control g c)
      ++ [EvSetMute (if mute_state then 1 else 0);
          EvLog match sm with Py.Returns _ => INFO | Py.Raises _ => ERROR end])
     %list).
Proof.
  unfold set_system_mute, value_of, trace_of.
  destruct (_get_master_volume_control g c) as [r t]. cbn [fst snd].
  intros ->. unfold bind. destruct sm; reflexivity.
Qed.

Lemma mute_not_acquired (g : globals) (c : com_answers)
    (sm : Py.outcome unit) (mute_state : bool) (m : string) :
  value_of (_get_master_volume_control g c) = (None, Some m) ->
  Py.truthy m = true ->
  set_system_mute g c sm mute_state
  = ((false, m), trace_of (_get_master_volume_control g c)).
Proof.
  unfold set_system_mute, value_of, trace_of.
  destruct (_get_master_volume_control g c) as [r t]. cbn [fst snd].
  intros -> Hm. unfold bind. rewrite Hm. cbn. now rewrite app_nil_r.
Qed.

Lemma acquired_loaded (g : globals) (c : com_answers) (h : handle) :
  value_of (_get_master_volume_control g c) = (Some h, None) ->
  AudioUtilities g = true.
Proof.
  intro H. destruct (AudioUtilities g) eqn:Ha; [reflexivity|].
  rewrite (gateway_unloaded g c) in H; [discriminate H|].
  now rewrite Ha.
Qed.




(* ===================================================================== *)
(** ** Mute toggle *)
(* ===================================================================== *)

Lemma status_only (g : globals) (c : com_answers)
    (gm : Py.outcome Py.value) :
  only is_read_event (trace_of (get_system_mute_status g c gm)).
Proof.
  assert (Hg : only is_read_event (trace_of (_get_master_volume_control g c))).
  { eapply only_weaken; [|apply gateway_only]. now intros []. }
  destruct (gateway_value g c) as [(h & Hv) | (m & Hv & Hm)].
  - rewrite (status_acquired g c gm h Hv). unfold trace_of at 1. cbn [snd].
    apply only_app; [exact Hg | reflexivity].
  - now rewrite (status_not_acquired g c gm m Hv Hm).
Qed.

Lemma status_some_reads (g : globals) (c : com_answers)
    (gm : Py.outcome Py.value) (cur : bool) (msg : string) :
  value_of (get_system_mute_status g c gm) = (Some cur, msg) ->
  In EvGetMute (trace_of (get_system_mute_status g c gm)).
Proof.
  destruct (gateway_value g c) as [(h & Hv) | (m & Hv & Hm)].
  - rewrite (status_acquired g c gm h Hv). intros _.
    unfold trace_of at 1. cbn [snd]. apply in_or_app. right. now left.
  - rewrite (status_not_acquired g c gm m Hv Hm). discriminate.
Qed.

Lemma mute_writes (g : globals) (c : com_answers) (sm : Py.outcome unit)
    (mute_state : bool) (v : Z) :
  In (EvSetMute v) (trace_of (set_system_mute g c sm mute_state)) ->
  v = if mute_state then 1 else 0.
Proof.
  assert (Hg : ~ In (EvSetMute v) (trace_of (_get_master_volume_control g c)))
    by (apply (not_in_only _ _ _ (gateway_only g c)); reflexivity).
  destruct (gateway_value g c) as [(h & Hv) | (m & Hv & Hm)].
  - rewrite (mute_acquired g c sm mute_state h Hv).
    unfold trace_of at 1. cbn [snd]. intro Hin.
    apply in_app_or in Hin as [Hin | [Hin | [Hin | []]]];
      [contradiction | now injection Hin | discriminate Hin].
  - rewrite (mute_not_acquired g c sm mute_state m Hv Hm).
    unfold trace_of at 1. cbn [snd]. contradiction.
Qed.

(** The undecorated view of the toggle, once [AudioUtilities] is bound. *)
Lemma toggle_read_failed (g : globals) (p : platform)
    (api_key : option string) (msg : string) :
  authorized g api_key = true ->
  AudioUtilities g = true ->
  value_of (get_system_mute_status g (com_first p) (GetMute p)) = (None, msg) ->
  audio_mute_toggle g p api_key
  = (Json [("status", JStr "error");
           ("action", JStr "TOGGLE_MUTE");
           ("message", JStr "获取当前静音状态失败。");
           ("details", JStr msg)] 500,
     trace_of (get_system_mute_status g (com_first p) (GetMute p))).
Proof.
  intros Hauth Ha. unfold audio_mute_toggle.
  rewrite (require_api_key_authorized g api_key _ Hauth), Ha. cbn [negb].
  unfold value_of, trace_of, bind.
  destruct (get_system_mute_status g (com_first p) (GetMute p)) as [r t].
  cbn [fst snd]. intros ->. cbn. now rewrite app_nil_r.
Qed.

Lemma toggle_read_ok (g : globals) (p : platform)
    (api_key : option string) (cur : bool) (msg : string) :
  authorized g api_key = true ->
  AudioUtilities g = true ->
  value_of (get_system_mute_status g (com_first p) (GetMute p))
  = (Some cur, msg) ->
  let write := set_system_mute g (com_second p) (SetMute p) (negb cur) in
  trace_of (audio_mute_toggle g p api_key)
  = (trace_of (get_system_mute_status g (com_first p) (GetMute p))
     ++ trace_of write)%list
  /\ forall body, value_of (audio_mute_toggle g p api_key) = Json body 200 ->
                  field "audio_muted" body = Some (JBool (negb cur)).
Proof.
  intros Hauth Ha Hr write. unfold audio_mute_toggle.
  rewrite (require_api_key_authorized g api_key _ Hauth), Ha. cbn [negb].
  rewrite trace_of_bind, value_of_bind, Hr. fold write.
  rewrite trace_of_bind, value_of_bind.
  destruct (value_of write) as [[|] message]; cbn [trace_of ret snd];
    rewrite app_nil_r; split; try reflexivity.
  - intros body H. injection H as <-. reflexivity.
  - intros body H. discriminate H.
Qed.

Lemma toggle_unloaded (g : globals) (p : platform) (api_key : option string) :
  authorized g api_key = true ->
  AudioUtilities g = false ->
  audio_mute_toggle g p api_key
  = ret (Json [("status", JStr "error"); ("action", JStr "TOGGLE_MUTE");
               ("message", JStr audio_unavailable_message)] 503).
Proof.
  intros Hauth Ha. unfold audio_mute_toggle.
  now rewrite (require_api_key_authorized g api_key _ Hauth), Ha.
Qed.

(** The possible shapes of a toggle request. *)
Lemma toggle_cases (g : globals) (p : platform) (api_key : option string) :
  let read := get_system_mute_status g (com_first p) (GetMute p) in
  let toggle := audio_mute_toggle g p api_key in
  (exists c d, toggle = (Aborted c d, [EvLog WARNING]))
  \/ (exists body, toggle = (Json body 503, []))
  \/ (exists msg body,
        authorized g api_key = true /\ AudioUtilities g = true
        /\ value_of read = (None, msg)
        /\ toggle = (Json body 500, trace_of read))
  \/ (exists cur msg,
        authorized g api_key = true /\ AudioUtilities g = true
        /\ value_of read = (Some cur, msg)).
Proof.
  intros read toggle. subst read toggle.
  destruct (authorized g api_key) eqn:Hauth.
  - destruct (AudioUtilities g) eqn:Ha.
    + destruct (value_of (get_system_mute_status g (com_first p) (GetMute p)))
        as [[cur|] msg] eqn:Hr.
      * right. right. right. eauto.
      * right. right. left. exists msg. eexists.
        split; [reflexivity|]. split; [reflexivity|]. split; [reflexivity|].
        apply (toggle_read_failed g p api_key msg); assumption.
    + right. left. rewrite (toggle_unloaded g p api_key Hauth Ha).
      eexists. reflexivity.
  - left. unfold audio_mute_toggle. now apply require_api_key_rejected.
Qed.

(** C7.  In the toggle handler: (1) when the read of the mute state fails,
    the answer is the 500 error that carries the text of the read error,
    and [SetMute] is not called; (2) whenever [SetMute] is called, the read
    returned a state, the trace of the whole request is the trace of that
    read (which contains the [GetMute] call and no [SetMute]) followed by
    the rest, and the flag written is the negation of the state read;
    (3) whenever the answer is a 200, its [audio_muted] field is the
    negation of the state read. *)
Theorem toggle_writes_only_after_read :
  forall (g : globals) (p : platform) (api_key : option string),
    let read := get_system_mute_status g (com_first p) (GetMute p) in
    let toggle := audio_mute_toggle g p api_key in
    (forall msg,
        authorized g api_key = true -> AudioUtilities g = true ->
        value_of read = (None, msg) ->
        value_of toggle
        = Json [("status", JStr "error");
                ("action", JStr "TOGGLE_MUTE");
                ("message", JStr "获取当前静音状态失败。");
                ("details", JStr msg)] 500
        /\ forall v, ~ In (EvSetMute v) (trace_of toggle))
    /\ (forall v,
          In (EvSetMute v) (trace_of toggle) ->
          exists cur msg rest,
            value_of read = (Some cur, msg)
            /\ trace_of toggle = (trace_of read ++ rest)%list
            /\ In EvGetMute (trace_of read)
            /\ (forall w, ~ In (EvSetMute w) (trace_of read))
            /\ In (EvSetMute v) rest
            /\ v = (if cur then 0 else 1))
    /\ (forall body,
          value_of toggle = Json body 200 ->
          exists cur msg,
            value_of read = (Some cur, msg)
            /\ field "audio_muted" body = Some (JBool (negb cur))).
Proof.
  intros g p api_key read toggle.
  assert (Hnw : forall w, ~ In (EvSetMute w) (trace_of read)).
  { intro w. apply (not_in_only _ _ _ (status_only g _ _)). reflexivity. }
  split; [|split].
  - intros msg Hauth Ha Hr. subst toggle.
    rewrite (toggle_read_failed g p api_key msg Hauth Ha Hr).
    split; [reflexivity | exact Hnw].
  - intros v Hin.
    destruct (toggle_cases g p api_key)
      as [(c & d & H) | [(body & H) | [(msg & body & _ & _ & _ & H)
                                      | (cur & msg & Hauth & Ha & Hr)]]];
      fold toggle in H || idtac.
    + rewrite H in Hin. cbn in Hin. destruct Hin as [Hin | []]. discriminate.
    + rewrite H in Hin. destruct Hin.
    + rewrite H in Hin. now apply Hnw in Hin.
    + destruct (toggle_read_ok g p api_key cur msg Hauth Ha Hr) as [Ht _].
      fold toggle read in Ht.
      exists cur, msg. eexists. split; [exact Hr|].
      split; [exact Ht|].
      split; [now apply status_some_reads with cur msg|].
      split; [exact Hnw|].
      rewrite Ht in Hin. apply in_app_or in Hin as [Hin | Hin];
        [now apply Hnw in Hin|].
      split; [exact Hin|].
      apply mute_writes in Hin. now destruct cur.
  - intros body Hb.
    destruct (toggle_cases g p api_key)
      as [(c & d & H) | [(body' & H) | [(msg & body' & _ & _ & _ & H)
                                       | (cur & msg & Hauth & Ha & Hr)]]];
      fold toggle in H || idtac.
    + rewrite H in Hb. discriminate Hb.
    + rewrite H in Hb. discriminate Hb.
    + rewrite H in Hb. discriminate Hb.
    + destruct (toggle_read_ok g p api_key cur msg Hauth Ha Hr) as [_ Hf].
      exists cur, msg. split; [exact Hr|]. now apply Hf.
Qed.

(** [toggle_writes_only_after_read] at a sample configuration, its hypotheses
    discharged by evaluation. *)
Lemma toggle_writes_only_after_read_witness :
  value_of (audio_mute_toggle Sample.g_ok
              (Platform false None Sample.quiet_exit Sample.com_no_speakers
                 (Py.Returns (Py.VInt 0)) Sample.com_ok (Py.Returns tt)
                 Py.ascii_runtime (Py.Returns tt) (Py.Done tt))
              None)
  = Json [("status", JStr "error");
          ("action", JStr "TOGGLE_MUTE");
          ("message", JStr "获取当前静音状态失败。");
          ("details", JStr "未能获取默认扬声器设备。")] 500
  /\ forall v,
       ~ In (EvSetMute v)
            (trace_of (audio_mute_toggle Sample.g_ok
                         (Platform false None Sample.quiet_exit
                            Sample.com_no_speakers (Py.Returns (Py.VInt 0))
                            Sample.com_ok (Py.Returns tt)
                            Py.ascii_runtime (Py.Returns tt) (Py.Done tt))
                         None)).
Proof.
  apply (toggle_writes_only_after_read Sample.g_ok
           (Platform false None Sample.quiet_exit Sample.com_no_speakers
              (Py.Returns (Py.VInt 0)) Sample.com_ok (Py.Returns tt)
              Py.ascii_runtime (Py.Returns tt) (Py.Done tt))
           None);
    reflexivity.
Defined.

(* ===================================================================== *)
(** ** What the builders hand to the executor *)
(* ===================================================================== *)

Lemma power_built (g : globals) (p : platform) (v : Py.value) (vcp : string) :
  built g (value_of (get_twinkle_power_command_parts g p v vcp)).
Proof.
  unfold get_twinkle_power_command_parts, built.
  destruct (executable_missing g p).
  - left. eexists. split; reflexivity.
  - destruct (negb (Py.isinstance_int v) || Py.le_int v 0).
    + left. eexists. split; reflexivity.
    + right. eexists. reflexivity.
Qed.

Lemma brightness_built (g : globals) (p : platform) (s : string) (l : Z) :
  exists r,
    value_of (get_twinkle_brightness_command_parts g p (Py.VStr s) (Py.VInt l))
    = Py.Returns r
    /\ built g r.
Proof.
  unfold get_twinkle_brightness_command_parts, built.
  destruct (executable_missing g p).
  { eexists. split; [reflexivity|]. left. eexists. split; reflexivity. }
  destruct (negb (valid_brightness (Py.VInt l))).
  { eexists. split; [reflexivity|]. left. eexists. split; reflexivity. }
  cbn [Py.int_of]. destruct (Py.int_of_str (python p) s) as [n|].
  - destruct (n =? 0).
    { eexists. split; [reflexivity|]. right. eexists. reflexivity. }
    destruct (n >? 0).
    { eexists. split; [reflexivity|]. right. eexists. reflexivity. }
    eexists. split; [reflexivity|]. left. eexists. split; reflexivity.
  - destruct (String.eqb _ "all").
    { eexists. split; [reflexivity|]. right. eexists. reflexivity. }
    eexists. split; [reflexivity|]. left. eexists. split; reflexivity.
Qed.

(** The events of the builders are log entries. *)
Lemma power_only_logs (g : globals) (p : platform) (v : Py.value)
    (vcp : string) :
  only is_log (trace_of (get_twinkle_power_command_parts g p v vcp)).
Proof. unfold get_twinkle_power_command_parts. only_tac. Qed.

Lemma brightness_only_logs (g : globals) (p : platform) (sel lvl : Py.value) :
  only is_log (trace_of (get_twinkle_brightness_command_parts g p sel lvl)).
Proof. unfold get_twinkle_brightness_command_parts. only_tac. Qed.

Lemma popen_with_In (parts : list string) (flags : Z) (t : list event)
    (parts' : list string) (flags' : Z) :
  only (popen_with parts flags) t ->
  In (EvPopen parts' flags') t ->
  parts' = parts /\ flags' = flags.
Proof.
  intros H Hin. apply (only_In _ _ _ H) in Hin. cbn in Hin.
  apply andb_prop in Hin as [Hp Hf].
  destruct (list_eq_dec string_dec parts' parts); [|discriminate].
  split; [assumption | now apply Z.eqb_eq].
Qed.

Lemma popen_with_self (parts : list string) (flags : Z) :
  popen_with parts flags (EvPopen parts flags) = true.
Proof.
  cbn. destruct (list_eq_dec string_dec parts parts); [|contradiction].
  now rewrite Z.eqb_refl.
Qed.

Lemma run_command_popen_with (p : platform) (exe : string)
    (rest : list string) :
  only (popen_with (exe :: rest) (creationflags_for p exe))
       (trace_of (run_command p (exe :: rest))).
Proof.
  unfold run_command, run_command_except. only_tac.
  unfold only. cbn [trace_of emit snd forallb].
  now rewrite popen_with_self.
Qed.

(* ===================================================================== *)
(** ** The child processes a request starts *)
(* ===================================================================== *)

Lemma run_built_tray (g : globals) (p : platform)
    (r : option (list string) * option string) :
  built g r -> only (popen_of_tray g p) (trace_of (run_built p (fst r))).
Proof.
  intros [(m & -> & _) | (rest & ->)]; cbn [fst run_built].
  - reflexivity.
  - eapply only_weaken; [|apply run_command_popen_with].
    intros [parts flags| | | | | | | | | |]; cbn; try reflexivity.
    intro H. apply andb_prop in H as [Hp Hf].
    destruct (list_eq_dec string_dec parts _) as [-> |]; [|discriminate].
    now rewrite String.eqb_refl, Hf.
Qed.

(** The part of a monitor view that follows the builder. *)
Ltac after_builder Hb :=
  destruct Hb as [(m & -> & Hm) | (rest & ->)]; cbv zeta;
  [ rewrite Hm; only_tac
  | apply only_bind;
    [ apply (run_built_tray _ _ (Some (_ :: rest), None)); right; eauto
    | intros [[[|] message] | e |]; reflexivity ] ].

Lemma monitor_on_tray (g : globals) (p : platform) (k : option string)
    (n : Z) :
  only (popen_of_tray g p) (trace_of (monitor_on_vcp g p k n)).
Proof.
  unfold monitor_on_vcp. apply require_api_key_only; [reflexivity|].
  rewrite trace_of_bind. apply only_app.
  - eapply only_weaken; [|apply power_only_logs]. now intros [].
  - pose proof (power_built g p (Py.VInt n) "0xD6:1") as Hb.
    after_builder Hb.
Qed.

Lemma monitor_off_tray (g : globals) (p : platform) (k : option string)
    (n : Z) :
  only (popen_of_tray g p) (trace_of (monitor_off_vcp g p k n)).
Proof.
  unfold monitor_off_vcp. apply require_api_key_only; [reflexivity|].
  rewrite trace_of_bind. apply only_app.
  - eapply only_weaken; [|apply power_only_logs]. now intros [].
  - pose proof (power_built g p (Py.VInt n) "0xD6:5") as Hb.
    after_builder Hb.
Qed.

Lemma brightness_tray (g : globals) (p : platform) (k : option string)
    (s : string) (l : Z) :
  only (popen_of_tray g p) (trace_of (set_monitor_brightness g p k s l)).
Proof.
  unfold set_monitor_brightness. apply require_api_key_only; [reflexivity|].
  destruct (target_description p s) as [t|]; [|reflexivity].
  rewrite trace_of_bind. apply only_app.
  - eapply only_weaken; [|apply brightness_only_logs]. now intros [].
  - destruct (brightness_built g p s l) as (r & -> & Hb).
    after_builder Hb.
Qed.

Lemma mute_only (g : globals) (c : com_answers) (sm : Py.outcome unit)
    (b : bool) :
  only is_audio_event (trace_of (set_system_mute g c sm b)).
Proof.
  assert (Hg : only is_audio_event (trace_of (_get_master_volume_control g c))).
  { eapply only_weaken; [|apply gateway_only]. now intros []. }
  destruct (gateway_value g c) as [(h & Hv) | (m & Hv & Hm)].
  - rewrite (mute_acquired g c sm b h Hv). unfold trace_of at 1. cbn [snd].
    apply only_app; [exact Hg | reflexivity].
  - now rewrite (mute_not_acquired g c sm b m Hv Hm).
Qed.

Lemma status_only_audio (g : globals) (c : com_answers)
    (gm : Py.outcome Py.value) :
  only is_audio_event (trace_of (get_system_mute_status g c gm)).
Proof.
  eapply only_weaken; [|apply status_only]. now intros [].
Qed.

(** The audio views start no process. *)
Lemma audio_views_only (g : globals) (p : platform) (k : option string) :
  only is_audio_event (trace_of (audio_mute g p k))
  /\ only is_audio_event (trace_of (audio_unmute g p k))
  /\ only is_audio_event (trace_of (audio_mute_toggle g p k))
  /\ only is_audio_event (trace_of (audio_status g p k)).
Proof.
  repeat split.
  - unfold audio_mute. apply require_api_key_only; [reflexivity|].
    destruct (negb (AudioUtilities g)); [reflexivity|].
    apply only_bind; [apply mute_only | intros [[|] m]; reflexivity].
  - unfold audio_unmute. apply require_api_key_only; [reflexivity|].
    destruct (negb (AudioUtilities g)); [reflexivity|].
    apply only_bind; [apply mute_only | intros [[|] m]; reflexivity].
  - unfold audio_mute_toggle. apply require_api_key_only; [reflexivity|].
    destruct (negb (AudioUtilities g)); [reflexivity|].
    apply only_bind; [apply status_only_audio|].
    intros [[cur|] m]; [|reflexivity].
    apply only_bind; [apply mute_only | intros [[|] m']; reflexivity].
  - unfold audio_status. apply require_api_key_only; [reflexivity|].
    destruct (negb (AudioUtilities g)); [reflexivity|].
    apply only_bind; [apply status_only_audio|].
    intros [[cur|] m]; reflexivity.
Qed.

Lemma serve_tray (g : globals) (p : platform) (rq : request) :
  only (popen_of_tray g p) (trace_of (serve g p rq)).
Proof.
  assert (Haudio : forall t, only is_audio_event t -> only (popen_of_tray g p) t).
  { intro t. apply only_weaken. now intros []. }
  unfold serve.
  destruct (target rq) as [n | n | s l | | | | | n].
  - apply monitor_on_tray.
  - apply monitor_off_tray.
  - apply brightness_tray.
  - apply Haudio, audio_views_only.
  - apply Haudio, audio_views_only.
  - apply Haudio, audio_views_only.
  - apply Haudio, audio_views_only.
  - unfold monitor_status_placeholder.
    apply require_api_key_only; [reflexivity|].
    destruct (n <=? 0); reflexivity.
Qed.

(** C2 (as the code has it).  [run_command] passes the no-window flag of
    the platform exactly when the first element of the command, in lower
    case, is "powershell", and passes 0 otherwise.  Every child process a
    request starts has the configured monitor-control executable as its
    first element, so it is started with flags 0 unless that path, in lower
    case, is "powershell". *)
Theorem no_window_flag_only_for_powershell :
  (forall (p : platform) (exe : string) (rest parts : list string) (flags : Z),
      In (EvPopen parts flags) (trace_of (run_command p (exe :: rest))) ->
      parts = exe :: rest
      /\ flags = if String.eqb (Py.lower exe) "powershell"
                 then match CREATE_NO_WINDOW p with Some f => f | None => 0 end
                 else 0)
  /\ (forall (g : globals) (p : platform) (rq : request)
             (parts : list string) (flags : Z),
         In (EvPopen parts flags) (trace_of (serve g p rq)) ->
         exists rest,
           parts = twinkle_tray_base_path g :: rest
           /\ flags = if String.eqb (Py.lower (twinkle_tray_base_path g))
                                    "powershell"
                      then match CREATE_NO_WINDOW p with
                           | Some f => f
                           | None => 0
                           end
                      else 0).
Proof.
  split.
  - intros p exe rest parts flags Hin.
    apply (popen_with_In _ _ _ _ _ (run_command_popen_with p exe rest)) in Hin.
    exact Hin.
  - intros g p rq parts flags Hin.
    apply (only_In _ _ _ (serve_tray g p rq)) in Hin.
    destruct parts as [|exe rest]; [discriminate Hin|].
    cbn in Hin. apply andb_prop in Hin as [He Hf].
    apply String.eqb_eq in He. apply Z.eqb_eq in Hf. subst exe.
    exists rest. split; [reflexivity | exact Hf].
Qed.

(** [no_window_flag_only_for_powershell] at a sample configuration, its hypotheses
    discharged by evaluation. *)
Lemma no_window_flag_only_for_powershell_witness :
  exists rest,
    [Sample.tray_path; "--MonitorNum=2"; "--VCP=0xD6:1"]
    = twinkle_tray_base_path Sample.g_ok :: rest
    /\ 0 = if String.eqb (Py.lower (twinkle_tray_base_path Sample.g_ok))
                        "powershell"
           then 134217728
           else 0.
Proof.
  apply (proj2 no_window_flag_only_for_powershell Sample.g_ok
           (Sample.windows false Sample.quiet_exit)
           (Request None (MonitorOn 2))
           [Sample.tray_path; "--MonitorNum=2"; "--VCP=0xD6:1"] 0).
  right. left. reflexivity.
Defined.

(** C2, as worded, fails: on a platform that has the no-window flag, the
    power-on request starts the monitor-control executable with creation
    flags 0. *)
Lemma tray_started_without_no_window_flag :
  CREATE_NO_WINDOW (Sample.windows false Sample.quiet_exit) = Some 134217728
  /\ In (EvPopen [Sample.tray_path; "--MonitorNum=2"; "--VCP=0xD6:1"] 0)
        (trace_of (serve Sample.g_ok (Sample.windows false Sample.quiet_exit)
                     (Request None (MonitorOn 2))))
  /\ ~ In (EvPopen [Sample.tray_path; "--MonitorNum=2"; "--VCP=0xD6:1"]
                   134217728)
          (trace_of (serve Sample.g_ok (Sample.windows false Sample.quiet_exit)
                       (Request None (MonitorOn 2)))).
Proof.
  split; [reflexivity|]. split.
  - right. left. reflexivity.
  - cbn. intros [H | [H | [H | [H | []]]]]; discriminate H.
Qed.

(* ===================================================================== *)
(** ** The response envelope *)
(* ===================================================================== *)

Lemma value_bind {A B} (P : B -> Prop) (m : M A) (k : A -> M B) :
  (forall a, P (value_of (k a))) -> P (value_of (bind m k)).
Proof. intro H. rewrite value_of_bind. apply H. Qed.

Lemma require_api_key_value (P : response -> Prop) (g : globals)
    (k : option string) (f : M response) :
  (forall c d, P (Aborted c d)) ->
  P (value_of f) -> P (value_of (require_api_key g k f)).
Proof.
  intros Ha Hf.
  destruct (require_api_key_cases g k f) as [(c & d & ->) | ->];
    [apply Ha | exact Hf].
Qed.

(** Splits the value of a view along its binds and branches. *)
Ltac value_tac :=
  repeat first
    [ progress cbv zeta
    | apply value_bind; intro
    | match goal with
      | |- _ (value_of (match ?x with _ => _ end)) => destruct x
      | |- _ (value_of (ret _)) => cbn; auto
      end ].

Lemma views_success_or_error (g : globals) (p : platform)
    (k : option string) :
  (forall n, status_success_or_error (value_of (monitor_on_vcp g p k n)))
  /\ (forall n, status_success_or_error (value_of (monitor_off_vcp g p k n)))
  /\ (forall s l,
        status_success_or_error (value_of (set_monitor_brightness g p k s l)))
  /\ status_success_or_error (value_of (audio_mute g p k))
  /\ status_success_or_error (value_of (audio_unmute g p k))
  /\ status_success_or_error (value_of (audio_mute_toggle g p k))
  /\ status_success_or_error (value_of (audio_status g p k)).
Proof.
  repeat split; intros;
    unfold monitor_on_vcp, monitor_off_vcp, set_monitor_brightness,
      audio_mute, audio_unmute, audio_mute_toggle, audio_status;
    (apply require_api_key_value; [intros; exact I|]); value_tac.
Qed.

(** C3 (as the code has it).  Every JSON response of every route has a
    top-level [status] field.  On every route but the status placeholder
    its value is "success" or "error"; the placeholder answers "info" with
    its 200 and "error" with its 400. *)
Theorem status_field_values :
  forall (g : globals) (p : platform) (rq : request)
         (body : list (string * json)) (code : Z),
    value_of (serve g p rq) = Json body code ->
    match target rq with
    | MonitorStatusPlaceholder _ =>
        (code = 200 /\ field "status" body = Some (JStr "info"))
        \/ (code = 400 /\ field "status" body = Some (JStr "error"))
    | _ =>
        field "status" body = Some (JStr "success")
        \/ field "status" body = Some (JStr "error")
    end.
Proof.
  intros g p rq body code H.
  destruct (views_success_or_error g p (X_API_Key rq))
    as (Hon & Hoff & Hbr & Hm & Hu & Ht & Hs).
  unfold serve in H.
  destruct (target rq) as [n | n | s l | | | | | n].
  - specialize (Hon n). now rewrite H in Hon.
  - specialize (Hoff n). now rewrite H in Hoff.
  - specialize (Hbr s l). now rewrite H in Hbr.
  - now rewrite H in Hm.
  - now rewrite H in Hu.
  - now rewrite H in Ht.
  - now rewrite H in Hs.
  - unfold monitor_status_placeholder in H.
    destruct (require_api_key_cases g (X_API_Key rq)
                (if n <=? 0
                 then ret (Json [("status", JStr "error");
                                 ("message",
                                  JStr "显示器编号必须是一个正整数。")] 400)
                 else ret (Json [("status", JStr "info");
                                 ("monitor_num", JInt n);
                                 ("message",
                                  JStr "此接口为状态查询占位符。")] 200)))
      as [(c & d & Hr) | Hr]; rewrite Hr in H.
    + discriminate H.
    + destruct (n <=? 0); injection H as <- <-; [right | left];
        split; reflexivity.
Qed.

(** [status_field_values] at a sample configuration, its hypotheses
    discharged by evaluation. *)
Lemma status_field_values_witness :
  field "status"
    [("status", JStr "success"); ("audio_muted", JBool false);
     ("message", JStr "成功获取音频状态。");
     ("details", JStr "成功获取静音状态。")]
  = Some (JStr "success")
  \/ field "status"
       [("status", JStr "success"); ("audio_muted", JBool false);
        ("message", JStr "成功获取音频状态。");
        ("details", JStr "成功获取静音状态。")]
     = Some (JStr "error").
Proof.
  apply (status_field_values Sample.g_ok
           (Sample.windows false Sample.quiet_exit)
           (Request None AudioStatus) _ 200).
  reflexivity.
Defined.

(** C3, as worded, fails: the status placeholder answers a JSON object
    whose [status] is "info". *)
Lemma placeholder_status_is_info :
  exists body,
    value_of (serve Sample.g_ok (Sample.windows false Sample.quiet_exit)
                (Request None (MonitorStatusPlaceholder 1)))
    = Json body 200
    /\ field "status" body = Some (JStr "info")
    /\ field "status" body <> Some (JStr "success")
    /\ field "status" body <> Some (JStr "error").
Proof.
  eexists. split; [reflexivity|]. repeat split; discriminate.
Qed.

(* ===================================================================== *)
(** ** A monitor-control executable that cannot be found *)
(* ===================================================================== *)

Lemma brightness_parts_missing (g : globals) (p : platform)
    (sel lvl : Py.value) :
  executable_missing g p = true ->
  get_twinkle_brightness_command_parts g p sel lvl
  = (log WARNING ;;
     ret (Py.Returns (None, Some (executable_missing_message g)))).
Proof.
  intro Hx. unfold get_twinkle_brightness_command_parts. now rewrite Hx.
Qed.

(** [Popen] raising [FileNotFoundError]. *)
Lemma run_command_not_found (p : platform) (exe : string)
    (rest : list string) (e : Py.exn) :
  process p = PopenRaises e ->
  Py.exn_cls e = Py.FileNotFoundError ->
  run_command p (exe :: rest)
  = (Py.Done (false, "错误：可执行文件 '" ++ exe ++ "' 未找到。"),
     [EvLog DEBUG; EvPopen (exe :: rest) (creationflags_for p exe);
      EvLog ERROR]).
Proof.
  intros Hp He. unfold run_command, run_command_except.
  rewrite Hp, He. reflexivity.
Qed.

(** C1 (as the code has it).  For an authorised request to one of the
    three monitor routes: (1) when the executable does not resolve at
    command-build time, the answer is the 400 error that carries the
    not-found text; (2) when the builder returned a command and starting
    the child raises [FileNotFoundError], the answer has status code 500
    and its details carry the not-found text of the executor.  For the
    brightness route both parts are about selectors on which the first line
    of the view, which computes the target description, does not raise. *)
Theorem executable_not_found_status :
  forall (g : globals) (p : platform) (api_key : option string),
    authorized g api_key = true ->
    let not_found :=
      Json [("status", JStr "error");
            ("message",
             JStr ("Twinkle Tray 可执行文件 '" ++ twinkle_tray_base_path g
                   ++ "' 未找到。"))] 400 in
    (executable_missing g p = true ->
     (forall n, value_of (monitor_on_vcp g p api_key n) = not_found)
     /\ (forall n, value_of (monitor_off_vcp g p api_key n) = not_found)
     /\ (forall s l,
           target_description p s <> None ->
           value_of (set_monitor_brightness g p api_key s l) = not_found))
    /\ (forall e,
          executable_missing g p = false ->
          process p = PopenRaises e ->
          Py.exn_cls e = Py.FileNotFoundError ->
          let details :=
            JStr ("错误：可执行文件 '" ++ twinkle_tray_base_path g
                  ++ "' 未找到。") in
          (forall n, 0 < n ->
             exists body,
               value_of (monitor_on_vcp g p api_key n) = Json body 500
               /\ field "details" body = Some details)
          /\ (forall n, 0 < n ->
                exists body,
                  value_of (monitor_off_vcp g p api_key n) = Json body 500
                  /\ field "details" body = Some details)
          /\ (forall s l parts,
                target_description p s <> None ->
                value_of (get_twinkle_brightness_command_parts g p
                            (Py.VStr s) (Py.VInt l))
                = Py.Returns (Some parts, None) ->
                exists body,
                  value_of (set_monitor_brightness g p api_key s l)
                  = Json body 500
                  /\ field "details" body = Some details)).
Proof.
  intros g p api_key Hauth not_found. subst not_found. split.
  - intro Hx. repeat split; intros.
    + unfold monitor_on_vcp.
      rewrite (require_api_key_authorized g api_key _ Hauth).
      rewrite (power_parts_missing g p _ _ Hx). reflexivity.
    + unfold monitor_off_vcp.
      rewrite (require_api_key_authorized g api_key _ Hauth).
      rewrite (power_parts_missing g p _ _ Hx). reflexivity.
    + unfold set_monitor_brightness.
      rewrite (require_api_key_authorized g api_key _ Hauth).
      destruct (target_description p s) as [t|]; [|contradiction].
      rewrite (brightness_parts_missing g p _ _ Hx). reflexivity.
  - intros e Hx Hp He details. subst details. repeat split.
    + intros n Hn. unfold monitor_on_vcp.
      rewrite (require_api_key_authorized g api_key _ Hauth).
      rewrite (power_parts_positive g p n _ Hn Hx).
      rewrite value_of_bind, value_of_ret. cbv zeta. cbn [run_built].
      rewrite value_of_bind, (run_command_not_found p _ _ e Hp He).
      eexists. split; reflexivity.
    + intros n Hn. unfold monitor_off_vcp.
      rewrite (require_api_key_authorized g api_key _ Hauth).
      rewrite (power_parts_positive g p n _ Hn Hx).
      rewrite value_of_bind, value_of_ret. cbv zeta. cbn [run_built].
      rewrite value_of_bind, (run_command_not_found p _ _ e Hp He).
      eexists. split; reflexivity.
    + intros s l parts Ht Hb. unfold set_monitor_brightness.
      rewrite (require_api_key_authorized g api_key _ Hauth).
      destruct (target_description p s) as [t|]; [|contradiction].
      rewrite value_of_bind, Hb. cbv zeta. cbn [run_built].
      destruct (brightness_built g p s l) as (r & Hr & Hbuilt).
      rewrite Hb in Hr. injection Hr as <-.
      destruct Hbuilt as [(m & Hm & _) | (rest & Hrest)];
        [discriminate Hm|].
      injection Hrest as ->.
      rewrite value_of_bind, (run_command_not_found p _ _ e Hp He).
      eexists. split; reflexivity.
Qed.

(** [executable_not_found_status] at a sample configuration, its hypotheses
    discharged by evaluation. *)
Lemma executable_not_found_status_witness :
  value_of (monitor_on_vcp Sample.g_fallback
              (Sample.windows false Sample.quiet_exit) None 1)
  = Json [("status", JStr "error");
          ("message",
           JStr "Twinkle Tray 可执行文件 'Twinkle Tray.exe' 未找到。")] 400
  /\ exists body,
       value_of (monitor_off_vcp Sample.g_fallback
                   (Sample.windows true
                      (PopenRaises
                         (Py.Exn Py.FileNotFoundError
                            "[WinError 2] The system cannot find the file specified")))
                   None 1)
       = Json body 500
       /\ field "details" body
          = Some (JStr "错误：可执行文件 'Twinkle Tray.exe' 未找到。").
Proof.
  split.
  - apply (executable_not_found_status Sample.g_fallback
             (Sample.windows false Sample.quiet_exit) None eq_refl).
    reflexivity.
  - apply (executable_not_found_status Sample.g_fallback
             (Sample.windows true
                (PopenRaises
                   (Py.Exn Py.FileNotFoundError
                      "[WinError 2] The system cannot find the file specified")))
             None eq_refl)
      with (e := Py.Exn Py.FileNotFoundError
                   "[WinError 2] The system cannot find the file specified");
      [reflexivity | reflexivity | reflexivity | lia].
Defined.

(** C1, as worded, fails: when the executable is found neither at start-up
    nor on the search path, the power-on request is answered with 400. *)
Lemma missing_executable_answers_400 :
  executable_missing Sample.g_fallback
    (Sample.windows false Sample.quiet_exit) = true
  /\ status_code_of
       (value_of (serve Sample.g_fallback
                    (Sample.windows false Sample.quiet_exit)
                    (Request None (MonitorOn 1))))
     = Some 400
  /\ status_code_of
       (value_of (serve Sample.g_fallback
                    (Sample.windows false Sample.quiet_exit)
                    (Request None (MonitorOn 1))))
     <> Some 500.
Proof.
  repeat split. discriminate.
Qed.

(* ===================================================================== *)
(** ** Further properties: the authentication guard *)
(* ===================================================================== *)

Lemma require_api_key_rejected_code (g : globals) (k : option string)
    (f : M response) :
  authorized g k = false ->
  exists c d, (c = 401 \/ c = 403)
              /\ require_api_key g k f = (Aborted c d, [EvLog WARNING]).
Proof.
  unfold authorized, require_api_key.
  destruct (API_AUTH_ENABLED g); cbn; [|discriminate].
  destruct k as [k|]; cbn; [|eauto 6].
  destruct (Py.truthy k); cbn; [|eauto 6].
  intros ->. cbn. eauto 6.
Qed.

(** X1.  The guard [require_api_key]: with authentication disabled the
    decorated view is the view; with authentication enabled, a missing or
    empty header aborts with 401, a non-empty header that differs from the
    expected key aborts with 403, and only the exact key runs the view.  An
    aborted request performs one warning log and nothing else. *)
Theorem guard_decides_by_header :
  forall (g : globals) (api_key : option string) (f : M response),
    (API_AUTH_ENABLED g = false -> require_api_key g api_key f = f)
    /\ (API_AUTH_ENABLED g = true ->
        (api_key = None \/ api_key = Some "" ->
         require_api_key g api_key f
         = (Aborted 401
              "API key required. Please provide it in the 'X-API-Key' header.",
            [EvLog WARNING]))
        /\ (forall k, api_key = Some k -> k <> "" ->
                      k <> EXPECTED_API_KEY g ->
                      require_api_key g api_key f
                      = (Aborted 403 "Invalid API key.", [EvLog WARNING]))
        /\ (forall k, api_key = Some k -> k <> "" ->
                      k = EXPECTED_API_KEY g ->
                      require_api_key g api_key f = f)).
Proof.
  intros g api_key f. unfold require_api_key. split.
  - now intros ->.
  - intros ->. repeat split.
    + intros [-> | ->]; reflexivity.
    + intros k -> Hne Hk.
      destruct k as [|c r]; [contradiction|]. cbn [Py.truthy negb].
      destruct (String.eqb_spec (String c r) (EXPECTED_API_KEY g));
        [contradiction | reflexivity].
    + intros k -> Hne <-.
      destruct k as [|c r]; [contradiction|]. cbn [Py.truthy negb].
      now rewrite String.eqb_refl.
Qed.

(** [guard_decides_by_header] at a sample configuration, its hypotheses
    discharged by evaluation. *)
Lemma guard_decides_by_header_witness :
  require_api_key Sample.g_auth (Some "S3CRET") (ret unhandled)
  = (Aborted 403 "Invalid API key.", [EvLog WARNING]).
Proof.
  apply (guard_decides_by_header Sample.g_auth (Some "S3CRET") (ret unhandled))
    with (k := "S3CRET"); [reflexivity | reflexivity | discriminate
                          | discriminate].
Defined.

(** X2.  A request that does not pass the guard is answered 401 or 403
    on every route, and the only thing it does is log one warning: no
    builder runs, no process is started, no COM or audio call is made. *)
Theorem unauthorized_request_touches_nothing :
  forall (g : globals) (p : platform) (rq : request),
    authorized g (X_API_Key rq) = false ->
    exists c d,
      (c = 401 \/ c = 403)
      /\ serve g p rq = (Aborted c d, [EvLog WARNING]).
Proof.
  intros g p rq H. unfold serve.
  destruct (target rq); now apply require_api_key_rejected_code.
Qed.

(** [unauthorized_request_touches_nothing] at a sample configuration, its
    hypotheses discharged by evaluation. *)
Lemma unauthorized_request_touches_nothing_witness :
  exists c d,
    (c = 401 \/ c = 403)
    /\ serve Sample.g_auth (Sample.windows true Sample.quiet_exit)
         (Request None AudioMuteToggle)
       = (Aborted c d, [EvLog WARNING]).
Proof.
  apply (unauthorized_request_touches_nothing Sample.g_auth
           (Sample.windows true Sample.quiet_exit)
           (Request None AudioMuteToggle)).
  reflexivity.
Defined.

(* ===================================================================== *)
(** ** Further properties: the command builders *)
(* ===================================================================== *)

(** X3.  The power builder, case by case: an executable that does not
    resolve gives the not-found text whatever the monitor number; otherwise
    a monitor number that is not an [int], or is zero or negative, gives
    the positive-integer text and no list; otherwise the list is the
    executable, [--MonitorNum=] with the number, and [--VCP=] with the
    code. *)
Theorem power_builder_cases :
  forall (g : globals) (p : platform) (v : Py.value) (vcp : string),
    let r := value_of (get_twinkle_power_command_parts g p v vcp) in
    let path := twinkle_tray_base_path g in
    (executable_missing g p = true ->
     r = (None, Some ("Twinkle Tray 可执行文件 '" ++ path ++ "' 未找到。")))
    /\ (executable_missing g p = false ->
        (Py.isinstance_int v = false
         \/ (exists n, Py.int_value v = Some n /\ n <= 0) ->
         r = (None, Some "显示器编号必须是一个正整数。"))
        /\ (forall n, v = Py.VInt n -> 0 < n ->
            r = (Some [path; "--MonitorNum=" ++ Py.str_of_Z n;
                       "--VCP=" ++ vcp], None))).
Proof.
  intros g p v vcp r path. subst r path.
  unfold get_twinkle_power_command_parts. split.
  - now intros ->.
  - intros ->. split.
    + intros [H | (n & Hn & Hle)].
      * now rewrite H.
      * unfold Py.le_int. rewrite Hn.
        destruct (Z.leb_spec n 0); [|lia].
        now rewrite orb_true_r.
    + intros n -> Hn. cbn.
      destruct (Z.leb_spec n 0); [lia | reflexivity].
Qed.

(** [power_builder_cases] at a sample configuration, its hypotheses
    discharged by evaluation. *)
Lemma power_builder_cases_witness :
  value_of (get_twinkle_power_command_parts Sample.g_ok
              (Sample.windows false Sample.quiet_exit) (Py.VInt 0) "0xD6:5")
  = (None, Some "显示器编号必须是一个正整数。").
Proof.
  apply (power_builder_cases Sample.g_ok
           (Sample.windows false Sample.quiet_exit) (Py.VInt 0) "0xD6:5");
    [reflexivity|].
  right. exists 0. split; [reflexivity | lia].
Defined.

Lemma truthy_not_empty (m : string) : Py.truthy m = true -> m <> "".
Proof. intros H ->. discriminate H. Qed.

(** X4.  Neither builder returns both a list and an error, or neither:
    the power builder returns either no list and an error text that is not
    empty, or a list of three arguments headed by the executable and no
    error; so does the brightness builder whenever it returns, and it
    fails to return (the [TypeError] of [int] escapes) only if the
    executable resolves, the level is valid and the selector is [None]. *)
Theorem builders_return_list_xor_error :
  forall (g : globals) (p : platform),
    (forall (v : Py.value) (vcp : string),
        let r := value_of (get_twinkle_power_command_parts g p v vcp) in
        (exists m, r = (None, Some m) /\ m <> "")
        \/ (exists a b, r = (Some [twinkle_tray_base_path g; a; b], None)))
    /\ (forall (sel lvl : Py.value),
          match value_of (get_twinkle_brightness_command_parts g p sel lvl) with
          | Py.Returns r =>
              (exists m, r = (None, Some m) /\ m <> "")
              \/ (exists a b,
                     r = (Some [twinkle_tray_base_path g; a; b], None))
          | Py.Raises _ =>
              executable_missing g p = false
              /\ valid_brightness lvl = true
              /\ sel = Py.VNone
          end).
Proof.
  intros g p. split.
  - intros v vcp r. subst r. unfold get_twinkle_power_command_parts.
    destruct (executable_missing g p).
    + left. eexists. split; [reflexivity | discriminate].
    + destruct (negb (Py.isinstance_int v) || Py.le_int v 0).
      * left. eexists. split; [reflexivity | discriminate].
      * right. eexists. eexists. reflexivity.
  - intros sel lvl. unfold get_twinkle_brightness_command_parts.
    destruct (executable_missing g p).
    { left. eexists. split; [reflexivity | discriminate]. }
    destruct (valid_brightness lvl).
    2:{ left. eexists. split; [reflexivity | discriminate]. }
    cbn [negb].
    destruct sel as [z | b | s |]; cbn [Py.int_of].
    + destruct (z =? 0); [right; eexists; eexists; reflexivity|].
      destruct (z >? 0); [right; eexists; eexists; reflexivity|].
      left. eexists. split; [reflexivity | discriminate].
    + destruct b; right; eexists; eexists; reflexivity.
    + destruct (Py.int_of_str (python p) s) as [z|].
      * destruct (z =? 0); [right; eexists; eexists; reflexivity|].
        destruct (z >? 0); [right; eexists; eexists; reflexivity|].
        left. eexists. split; [reflexivity | discriminate].
      * destruct (String.eqb _ "all");
          [right; eexists; eexists; reflexivity|].
        left. eexists. split; [reflexivity | discriminate].
    + repeat split.
Qed.

(* ===================================================================== *)
(** ** Further properties: the process executor *)
(* ===================================================================== *)

(** The executor on a non-empty command, by what the child does. *)
Lemma run_command_by_child (p : platform) (exe : string) (rest : list string) :
  run_command p (exe :: rest)
  = let popen := EvPopen (exe :: rest) (creationflags_for p exe) in
    match process p with
    | PopenRaises e =>
        match Py.exn_cls e with
        | Py.FileNotFoundError =>
            (Py.Done (false, "错误：可执行文件 '" ++ exe ++ "' 未找到。"),
             [EvLog DEBUG; popen; EvLog ERROR])
        | Py.TimeoutExpired =>
            (Py.Done (false, "命令执行超时。"),
             [EvLog DEBUG; popen; EvLog WARNING])
        | _ =>
            (Py.Done (false, "发生意外错误: " ++ Py.exn_str e),
             [EvLog DEBUG; popen; EvLog ERROR])
        end
    | CommunicateRaises e =>
        match Py.exn_cls e with
        | Py.FileNotFoundError =>
            (Py.Done (false, "错误：可执行文件 '" ++ exe ++ "' 未找到。"),
             [EvLog DEBUG; popen; EvCommunicate (Some 15); EvLog ERROR])
        | Py.TimeoutExpired =>
            match kill_answer p with
            | Py.Raises k =>
                (Py.Escapes k,
                 [EvLog DEBUG; popen; EvCommunicate (Some 15); EvLog WARNING;
                  EvKill])
            | Py.Returns _ =>
                (match drain_answer p with
                 | Py.Done _ => Py.Done (false, "命令执行超时。")
                 | Py.Escapes d => Py.Escapes d
                 | Py.Hangs => Py.Hangs
                 end,
                 [EvLog DEBUG; popen; EvCommunicate (Some 15); EvLog WARNING;
                  EvKill; EvCommunicate None])
            end
        | _ =>
            (Py.Done (false, "发生意外错误: " ++ Py.exn_str e),
             [EvLog DEBUG; popen; EvCommunicate (Some 15); EvLog ERROR])
        end
    | Exits rc out err =>
        (Py.Done
           (if rc =? 0
            then (true,
                  Py.or_else (Py.str_strip (python p) out) "命令成功执行。")
            else (false,
                  "执行命令出错: "
                  ++ spec_failure_message (python p) rc out err)),
         [EvLog DEBUG; popen; EvCommunicate (Some 15);
          EvLog (if rc =? 0 then INFO else ERROR)])
    end.
Proof.
  cbv zeta. unfold run_command, run_command_except.
  destruct (process p) as [[cls msg] | [cls msg] | rc out err].
  - destruct cls; reflexivity.
  - destruct cls; try reflexivity. cbn [Py.exn_cls].
    destruct (kill_answer p) as [[]|k]; [|reflexivity].
    destruct (drain_answer p) as [[]|d|]; reflexivity.
  - destruct (rc =? 0); reflexivity.
Qed.

Lemma run_command_empty (p : platform) :
  run_command p []
  = (Py.Done (false, "发生意外错误: list index out of range"),
     [EvLog DEBUG; EvLog ERROR]).
Proof. reflexivity. Qed.

Lemma run_command_success (p : platform) (exe : string) (rest : list string) :
  (exists message,
      value_of (run_command p (exe :: rest)) = Py.Done (true, message))
  <-> exists out err, process p = Exits 0 out err.
Proof.
  rewrite run_command_by_child. cbv zeta.
  destruct (process p) as [[cls msg] | [cls msg] | rc out err].
  - destruct cls; cbn; split; intros (? & H); try discriminate H;
      destruct H as (? & H); discriminate H.
  - destruct cls; cbn [Py.exn_cls value_of fst]; split; intros (? & H);
      try discriminate H; try (destruct H as (? & H); discriminate H).
    destruct (kill_answer p) as [[]|k]; [|discriminate H].
    cbn [fst] in H. destruct (drain_answer p) as [[]|d|]; discriminate H.
  - destruct (Z.eqb_spec rc 0) as [-> | Hrc]; cbn; split.
    + eauto.
    + eauto.
    + intros (? & H). discriminate H.
    + intros (o & e & H). injection H as H _ _. contradiction.
Qed.

(** The executor fails to return only from its timeout handler. *)
Lemma run_command_not_done (p : platform) (command_parts : list string) :
  (forall r, value_of (run_command p command_parts) <> Py.Done r) ->
  command_parts <> [] /\ timed_out p
  /\ (value_of (run_command p command_parts) = Py.Hangs ->
      drain_answer p = Py.Hangs).
Proof.
  destruct command_parts as [|exe rest].
  - rewrite run_command_empty. intro H. now contradiction (H _ eq_refl).
  - rewrite run_command_by_child. cbv zeta. unfold timed_out.
    destruct (process p) as [[cls msg] | [cls msg] | rc out err];
      try (destruct cls; intro H; now contradiction (H _ eq_refl));
      try (intro H; now contradiction (H _ eq_refl)).
    destruct cls; intro H; try now contradiction (H _ eq_refl).
    split; [discriminate|]. split; [eexists; split; reflexivity|].
    cbn [Py.exn_cls]. destruct (kill_answer p) as [[]|k]; [|discriminate].
    cbn [value_of fst]. destruct (drain_answer p) as [[]|d|];
      try discriminate. reflexivity.
Qed.

(** X5.  [run_command] reports success exactly when the command is not
    empty and the child exited by itself with code 0; every other outcome
    (non-zero exit, executable not found, timeout, any other exception, an
    empty command) is not a success: it is reported as a failure, except
    that the call may fail to return a result from its timeout handler. *)
Theorem run_command_success_iff_exit_zero :
  forall (p : platform) (command_parts : list string),
    ((exists message,
         value_of (run_command p command_parts) = Py.Done (true, message))
     <-> (command_parts <> []
          /\ exists out err, process p = Exits 0 out err))
    /\ ((exists success message,
            value_of (run_command p command_parts)
            = Py.Done (success, message))
        \/ (command_parts <> [] /\ timed_out p)).
Proof.
  intros p command_parts. split.
  - destruct command_parts as [|exe rest].
    + rewrite run_command_empty. cbn. split.
      * intros (? & H). discriminate H.
      * intros [H _]. contradiction.
    + rewrite run_command_success. split.
      * intro H. split; [discriminate | exact H].
      * now intros [_ H].
  - destruct (value_of (run_command p command_parts)) as [[b m] | e |] eqn:Hv.
    + left. eauto.
    + right.
      destruct (run_command_not_done p command_parts) as (H1 & H2 & _);
        [rewrite Hv; discriminate | now split].
    + right.
      destruct (run_command_not_done p command_parts) as (H1 & H2 & _);
        [rewrite Hv; discriminate | now split].
Qed.

(** X6.  [run_command] starts at most one child: exactly one [Popen] for a
    non-empty command, none for an empty one.  It kills the child exactly
    when the command is not empty and [communicate(timeout=15)] raised
    [TimeoutExpired]; a child that exits, or whose start fails, is never
    killed. *)
Theorem run_command_kills_only_on_timeout :
  forall (p : platform) (command_parts : list string),
    popen_count (trace_of (run_command p command_parts))
    = (match command_parts with [] => 0 | _ :: _ => 1 end)%nat
    /\ (In EvKill (trace_of (run_command p command_parts))
        <-> (command_parts <> []
             /\ exists e, process p = CommunicateRaises e
                          /\ Py.exn_cls e = Py.TimeoutExpired)).
Proof.
  intros p [|exe rest].
  - rewrite run_command_empty. split; [reflexivity|]. cbn. split.
    + intros [H | [H | []]]; discriminate H.
    + intros [H _]. contradiction.
  - rewrite run_command_by_child. cbv zeta.
    destruct (process p) as [[cls msg] | [cls msg] | rc out err].
    + destruct cls; (split; [reflexivity|]); cbn; split;
        try (intros [_ (e & H & _)]; discriminate H);
        intros H; repeat (destruct H as [H | H]; try discriminate H);
        contradiction.
    + destruct cls; cbn [Py.exn_cls];
        try destruct (kill_answer p) as [[]|k];
        (split; [reflexivity|]); cbn; split;
        try (intros [_ (e & H & He)]; injection H as <-; discriminate He);
        try (intros H; repeat (destruct H as [H | H]; try discriminate H);
             contradiction);
        try (intros _; split; [discriminate|]; eexists; split; reflexivity);
        auto 10.
    + (split; [reflexivity|]); cbn; split.
      * intros H; repeat (destruct H as [H | H]; try discriminate H);
          contradiction.
      * intros [_ (e & H & _)]. discriminate H.
Qed.

(** X7.  An exception of [Popen] or of [communicate] that is neither
    [FileNotFoundError] nor [TimeoutExpired] does not leave [run_command]:
    the result is the failure pair whose text is the fixed prefix followed
    by [str(e)], and the child is not killed.  An empty command gives the
    same kind of result (the [IndexError] of [command_parts[0]]) without
    any [Popen]. *)
Theorem run_command_reports_unexpected_errors :
  forall (p : platform),
    (forall (exe : string) (rest : list string) (e : Py.exn),
        process p = PopenRaises e \/ process p = CommunicateRaises e ->
        Py.exn_cls e <> Py.FileNotFoundError ->
        Py.exn_cls e <> Py.TimeoutExpired ->
        value_of (run_command p (exe :: rest))
        = Py.Done (false, "发生意外错误: " ++ Py.exn_str e)
        /\ ~ In EvKill (trace_of (run_command p (exe :: rest))))
    /\ run_command p []
       = (Py.Done (false, "发生意外错误: list index out of range"),
          [EvLog DEBUG; EvLog ERROR]).
Proof.
  intro p. split; [|apply run_command_empty].
  intros exe rest e Hp Hf Ht. rewrite run_command_by_child. cbv zeta.
  destruct Hp as [-> | ->]; destruct e as [cls msg]; cbn in Hf, Ht |- *;
    destruct cls; try contradiction; (split; [reflexivity|]);
    cbn; intros H; repeat (destruct H as [H | H]; try discriminate H);
    contradiction.
Qed.

(** [run_command_reports_unexpected_errors] at a sample configuration, its
    hypotheses discharged by evaluation. *)
Lemma run_command_reports_unexpected_errors_witness :
  value_of (run_command
              (Sample.windows true
                 (PopenRaises (Py.Exn Py.OtherException "Access is denied")))
              ["Twinkle Tray.exe"; "--AllMonitors"; "--Set=10"])
  = Py.Done (false, "发生意外错误: Access is denied").
Proof.
  apply (proj1 (run_command_reports_unexpected_errors
                  (Sample.windows true
                     (PopenRaises
                        (Py.Exn Py.OtherException "Access is denied"))))
           "Twinkle Tray.exe" ["--AllMonitors"; "--Set=10"]
           (Py.Exn Py.OtherException "Access is denied"));
    [left; reflexivity | discriminate | discriminate].
Defined.

Lemma or_else_not_empty (a b : string) : b <> "" -> Py.or_else a b <> "".
Proof.
  unfold Py.or_else. destruct a; cbn; [auto | discriminate].
Qed.

(** X8.  The text [run_command] returns is never empty, whatever the
    command and whatever the child does or prints: empty output is replaced
    by the fixed success phrase, and every failure text has a fixed,
    non-empty prefix.  And it does return a text, unless the command is not
    empty and [communicate(timeout=15)] raised [TimeoutExpired]. *)
Theorem run_command_message_not_empty :
  forall (p : platform) (command_parts : list string),
    match value_of (run_command p command_parts) with
    | Py.Done (_, message) => message <> ""
    | _ => command_parts <> [] /\ timed_out p
    end.
Proof.
  intros p [|exe rest].
  - rewrite run_command_empty. discriminate.
  - rewrite run_command_by_child. cbv zeta. unfold timed_out.
    destruct (process p) as [[cls msg] | [cls msg] | rc out err].
    + destruct cls; discriminate.
    + destruct cls; try discriminate. cbn [Py.exn_cls].
      destruct (kill_answer p) as [[]|k]; cbn [value_of fst].
      * destruct (drain_answer p) as [[]|d|]; try discriminate;
          (split; [discriminate | eexists; split; reflexivity]).
      * split; [discriminate | eexists; split; reflexivity].
    + destruct (rc =? 0); cbn [value_of fst].
      * apply or_else_not_empty. discriminate.
      * discriminate.
Qed.

(* ===================================================================== *)
(** ** Further properties: the monitor views *)
(* ===================================================================== *)

Lemma popen_count_app (t1 t2 : list event) :
  popen_count (t1 ++ t2) = (popen_count t1 + popen_count t2)%nat.
Proof. unfold popen_count. now rewrite filter_app, length_app. Qed.

Lemma popen_count_logs (t : list event) : only is_log t -> popen_count t = 0%nat.
Proof.
  unfold only, popen_count. induction t as [|e t IH]; [reflexivity|].
  cbn [forallb filter]. intro H. apply andb_prop in H as [He Ht].
  destruct e; try discriminate He. now apply IH.
Qed.

(** Finishing a view after the executor was called. *)
Ltac finish_view rest :=
  right; exists rest; unfold bind; cbv beta iota zeta; cbn [run_built];
  unfold value_of, trace_of;
  destruct (run_command _ (_ :: rest)) as [[[[|] message] | e |] t_rc];
  cbn [fst snd ret answer_after]; rewrite app_nil_r;
  [ eexists; exists []; reflexivity
  | exists []; eexists; reflexivity
  | exists [], []; reflexivity
  | exists [], []; reflexivity ].

Lemma monitor_on_outcome (g : globals) (p : platform) (k : option string)
    (n : Z) :
  authorized g k = true -> view_outcome g p (monitor_on_vcp g p k n).
Proof.
  intro Hauth. unfold monitor_on_vcp.
  rewrite (require_api_key_authorized g k _ Hauth).
  pose proof (power_only_logs g p (Py.VInt n) "0xD6:1") as Hlogs.
  pose proof (power_built g p (Py.VInt n) "0xD6:1") as Hb.
  destruct (get_twinkle_power_command_parts g p (Py.VInt n) "0xD6:1")
    as [[cp err] tb].
  cbn [value_of trace_of fst snd] in Hlogs, Hb.
  exists tb. split; [exact Hlogs|].
  destruct Hb as [(m & Heq & Hm) | (rest & Heq)]; injection Heq as -> ->.
  - left. eexists. unfold bind. rewrite Hm. cbn [ret].
    now rewrite app_nil_r.
  - finish_view rest.
Qed.

Lemma monitor_off_outcome (g : globals) (p : platform) (k : option string)
    (n : Z) :
  authorized g k = true -> view_outcome g p (monitor_off_vcp g p k n).
Proof.
  intro Hauth. unfold monitor_off_vcp.
  rewrite (require_api_key_authorized g k _ Hauth).
  pose proof (power_only_logs g p (Py.VInt n) "0xD6:5") as Hlogs.
  pose proof (power_built g p (Py.VInt n) "0xD6:5") as Hb.
  destruct (get_twinkle_power_command_parts g p (Py.VInt n) "0xD6:5")
    as [[cp err] tb].
  cbn [value_of trace_of fst snd] in Hlogs, Hb.
  exists tb. split; [exact Hlogs|].
  destruct Hb as [(m & Heq & Hm) | (rest & Heq)]; injection Heq as -> ->.
  - left. eexists. unfold bind. rewrite Hm. cbn [ret].
    now rewrite app_nil_r.
  - finish_view rest.
Qed.

(** The brightness view: its first line raises, or the rest runs. *)
Lemma brightness_outcome (g : globals) (p : platform) (k : option string)
    (sel : string) (l : Z) :
  authorized g k = true ->
  (target_description p sel = None
   /\ set_monitor_brightness g p k sel l = (unhandled, []))
  \/ view_outcome g p (set_monitor_brightness g p k sel l).
Proof.
  intro Hauth. unfold set_monitor_brightness.
  rewrite (require_api_key_authorized g k _ Hauth).
  destruct (target_description p sel) as [t|]; [right | left; now split].
  pose proof (brightness_only_logs g p (Py.VStr sel) (Py.VInt l)) as Hlogs.
  destruct (brightness_built g p sel l) as (r & Hr & Hb).
  destruct (get_twinkle_brightness_command_parts g p (Py.VStr sel) (Py.VInt l))
    as [b tb].
  cbn [value_of trace_of fst snd] in Hlogs, Hr. subst b.
  destruct Hb as [(m & -> & Hm) | (rest & ->)].
  - exists (tb ++ [EvLog ERROR])%list. split.
    + apply only_app; [exact Hlogs | reflexivity].
    + left. eexists. unfold bind. cbv beta iota zeta. rewrite Hm.
      unfold log, emit, ret. reflexivity.
  - exists tb. split; [exact Hlogs|]. finish_view rest.
Qed.

Lemma run_command_one_popen (p : platform) (exe : string)
    (rest : list string) :
  popen_count (trace_of (run_command p (exe :: rest))) = 1%nat.
Proof.
  rewrite run_command_by_child. cbv zeta.
  destruct (process p) as [[cls msg] | [cls msg] | rc out err];
    try destruct cls; try reflexivity.
  cbn [Py.exn_cls]. destruct (kill_answer p) as [[]|k]; reflexivity.
Qed.

(** The answer and the processes of a view that called its builder. *)
Lemma view_outcome_status (g : globals) (p : platform) (view : M response) :
  view_outcome g p view ->
  (status_code_of (value_of view) = Some 400
   /\ popen_count (trace_of view) = 0%nat)
  \/ (popen_count (trace_of view) = 1%nat
      /\ (((exists out err, process p = Exits 0 out err)
           /\ status_code_of (value_of view) = Some 200)
          \/ (~ (exists out err, process p = Exits 0 out err)
              /\ (status_code_of (value_of view) = Some 500
                  \/ (value_of view = NeverAnswers
                      /\ timed_out p
                      /\ drain_answer p = Py.Hangs))))).
Proof.
  intros (tb & Hlogs & [(body & ->) | (rest & b_ok & b_failed & ->)]).
  - left. split; [reflexivity | now apply popen_count_logs].
  - right.
    pose proof (run_command_success p (twinkle_tray_base_path g) rest) as Hs.
    pose proof (run_command_one_popen p (twinkle_tray_base_path g) rest)
      as Hone.
    pose proof (run_command_not_done p (twinkle_tray_base_path g :: rest))
      as Hnd.
    set (rc := run_command p (twinkle_tray_base_path g :: rest)) in *.
    set (v := value_of rc) in *. set (t_rc := trace_of rc) in *.
    clearbody v t_rc. unfold value_of, trace_of. cbn [fst snd]. split.
    + now rewrite popen_count_app, Hone, (popen_count_logs tb Hlogs).
    + destruct v as [[[|] message] | e |]; cbn [answer_after].
      * left. split; [apply Hs; eauto | reflexivity].
      * right. split; [|left; reflexivity].
        intro H. apply Hs in H as (m & H). discriminate H.
      * right. split; [|left; reflexivity].
        intro H. apply Hs in H as (m & H). discriminate H.
      * right. split.
        -- intro H. apply Hs in H as (m & H). discriminate H.
        -- right. destruct Hnd as (_ & Ht & Hd); [discriminate|].
           split; [reflexivity|]. split; [exact Ht | now apply Hd].
Qed.

(** X9.  An authorised request to a monitor route has one of three
    outcomes.  It is answered 400 without starting any process.  Or, on the
    brightness route only, [int] raises on a selector that [isdigit]
    accepted: the exception leaves the view before anything is logged or
    started, which Flask answers with 500.  Or exactly one process is
    started: the answer is 200 when that child exits by itself with code 0,
    and otherwise it is 500, unless the child timed out and the call that
    drains it never returns, in which case no answer is sent. *)
Theorem monitor_views_status_and_processes :
  forall (g : globals) (p : platform) (rq : request),
    authorized g (X_API_Key rq) = true ->
    monitor_route (target rq) = true ->
    let r := value_of (serve g p rq) in
    let t := trace_of (serve g p rq) in
    (status_code_of r = Some 400 /\ popen_count t = 0%nat)
    \/ ((exists s l, target rq = MonitorBrightness s l
                     /\ target_description p s = None)
        /\ r = unhandled /\ t = [])
    \/ (popen_count t = 1%nat
        /\ (((exists out err, process p = Exits 0 out err)
             /\ status_code_of r = Some 200)
            \/ (~ (exists out err, process p = Exits 0 out err)
                /\ (status_code_of r = Some 500
                    \/ (r = NeverAnswers
                        /\ timed_out p
                        /\ drain_answer p = Py.Hangs))))).
Proof.
  intros g p rq Hauth Hr r t. subst r t. unfold serve.
  destruct (target rq) as [n | n | s l | | | | | n]; try discriminate Hr.
  - destruct (view_outcome_status g p _ (monitor_on_outcome g p _ n Hauth))
      as [H | H]; [left | right; right]; exact H.
  - destruct (view_outcome_status g p _ (monitor_off_outcome g p _ n Hauth))
      as [H | H]; [left | right; right]; exact H.
  - destruct (brightness_outcome g p (X_API_Key rq) s l Hauth)
      as [[Hnone ->] | Hv].
    + right. left. split; [eauto | split; reflexivity].
    + destruct (view_outcome_status g p _ Hv) as [H | H];
        [left | right; right]; exact H.
Qed.

(** [monitor_views_status_and_processes] at sample configurations, its
    hypotheses discharged by evaluation: a level out of range is answered
    400 and starts nothing. *)
Lemma monitor_views_status_and_processes_witness :
  let rq := Request None (MonitorBrightness "all" 101) in
  let p := Sample.windows false Sample.quiet_exit in
  let r := value_of (serve Sample.g_ok p rq) in
  let t := trace_of (serve Sample.g_ok p rq) in
  (status_code_of r = Some 400 /\ popen_count t = 0%nat)
  \/ ((exists s l, target rq = MonitorBrightness s l
                   /\ target_description p s = None)
      /\ r = unhandled /\ t = [])
  \/ (popen_count t = 1%nat
      /\ (((exists out err, process p = Exits 0 out err)
           /\ status_code_of r = Some 200)
          \/ (~ (exists out err, process p = Exits 0 out err)
              /\ (status_code_of r = Some 500
                  \/ (r = NeverAnswers
                      /\ timed_out p
                      /\ drain_answer p = Py.Hangs))))).
Proof.
  apply (monitor_views_status_and_processes Sample.g_ok
           (Sample.windows false Sample.quiet_exit)
           (Request None (MonitorBrightness "all" 101)));
    reflexivity.
Defined.

Lemma brightness_parts_specific (g : globals) (p : platform) (sel : string)
    (l n : Z) :
  executable_missing g p = false ->
  0 <= l <= 100 ->
  Py.int_of_str (python p) sel = Some n ->
  0 < n ->
  get_twinkle_brightness_command_parts g p (Py.VStr sel) (Py.VInt l)
  = ret (Py.Returns
           (Some [twinkle_tray_base_path g;
                  "--MonitorNum=" ++ Py.str_of_Z n;
                  "--Set=" ++ Py.str_of_Z l], None)).
Proof.
  intros Hx Hl Hs Hn. unfold get_twinkle_brightness_command_parts.
  rewrite Hx.
  assert (Hv : valid_brightness (Py.VInt l) = true).
  { apply valid_brightness_spec. exists l. now split. }
  rewrite Hv. cbn [negb Py.int_of]. rewrite Hs.
  destruct (Z.eqb_spec n 0); [lia|].
  destruct (Z.gtb_spec n 0); [reflexivity | lia].
Qed.

(** X10.  For an authorised brightness request whose selector [int]
    converts to a positive number [n] (level in 0..100, executable
    resolved), the process started addresses monitor [n], and the view
    answers by the result of [run_command] with a body whose [target]
    field names the selector only if [isdigit] holds of it; otherwise the
    field reads "all monitors" although one monitor is addressed (selectors
    such as "+2" or "1_0"). *)
Theorem brightness_target_description :
  forall (g : globals) (p : platform) (api_key : option string)
         (sel : string) (l n : Z),
    authorized g api_key = true ->
    executable_missing g p = false ->
    0 <= l <= 100 ->
    Py.int_of_str (python p) sel = Some n ->
    0 < n ->
    let view := set_monitor_brightness g p api_key sel l in
    let command :=
      [twinkle_tray_base_path g;
       "--MonitorNum=" ++ Py.str_of_Z n;
       "--Set=" ++ Py.str_of_Z l] in
    let named :=
      Some (JStr (if Py.str_isdigit (python p) sel
                  then "显示器 " ++ sel
                  else "所有显示器")) in
    (exists flags, In (EvPopen command flags) (trace_of view))
    /\ exists body_ok body_failed,
         value_of view
         = answer_after (value_of (run_command p command)) body_ok body_failed
         /\ field "target" body_ok = named
         /\ field "target" body_failed = named.
Proof.
  intros g p api_key sel l n Hauth Hx Hl Hs Hn view command named.
  subst view command named.
  unfold set_monitor_brightness.
  rewrite (require_api_key_authorized g api_key _ Hauth).
  assert (Ht : target_description p sel
               = Some (if Py.str_isdigit (python p) sel
                       then "显示器 " ++ sel
                       else "所有显示器")).
  { unfold target_description. rewrite Hs.
    destruct (Py.str_isdigit (python p) sel); [|reflexivity].
    destruct (Z.gtb_spec n 0); [reflexivity | lia]. }
  rewrite Ht, (brightness_parts_specific g p sel l n Hx Hl Hs Hn).
  split.
  - eexists. rewrite trace_of_bind, trace_of_ret, value_of_ret.
    cbv beta iota zeta. cbn [app run_built]. rewrite trace_of_bind.
    apply in_or_app. left. apply run_command_popen.
  - rewrite value_of_bind, value_of_ret. cbv beta iota zeta.
    cbn [run_built]. rewrite value_of_bind.
    destruct (value_of (run_command p _)) as [[[|] message] | e |];
      cbn [answer_after].
    + eexists.
      exists [("target",
               JStr (if Py.str_isdigit (python p) sel
                     then "显示器 " ++ sel else "所有显示器"))].
      split; [reflexivity|]. split; reflexivity.
    + exists [("target",
               JStr (if Py.str_isdigit (python p) sel
                     then "显示器 " ++ sel else "所有显示器"))].
      eexists. split; [reflexivity|]. split; reflexivity.
    + exists [("target",
               JStr (if Py.str_isdigit (python p) sel
                     then "显示器 " ++ sel else "所有显示器"))],
             [("target",
               JStr (if Py.str_isdigit (python p) sel
                     then "显示器 " ++ sel else "所有显示器"))].
      split; [reflexivity|]. split; reflexivity.
    + exists [("target",
               JStr (if Py.str_isdigit (python p) sel
                     then "显示器 " ++ sel else "所有显示器"))],
             [("target",
               JStr (if Py.str_isdigit (python p) sel
                     then "显示器 " ++ sel else "所有显示器"))].
      split; [reflexivity|]. split; reflexivity.
Qed.

(** [brightness_target_description] at a sample configuration, its
    hypotheses discharged by evaluation. *)
Lemma brightness_target_description_witness :
  exists body_ok body_failed,
    value_of (set_monitor_brightness Sample.g_ok
                (Sample.windows false Sample.quiet_exit) None "+2" 40)
    = answer_after
        (value_of (run_command (Sample.windows false Sample.quiet_exit)
                     [Sample.tray_path; "--MonitorNum=2"; "--Set=40"]))
        body_ok body_failed
    /\ field "target" body_ok = Some (JStr "所有显示器")
    /\ field "target" body_failed = Some (JStr "所有显示器").
Proof.
  apply (brightness_target_description Sample.g_ok
           (Sample.windows false Sample.quiet_exit) None "+2" 40 2);
    [reflexivity | reflexivity | lia | reflexivity | lia].
Defined.

(* ===================================================================== *)
(** ** Further properties: the audio views *)
(* ===================================================================== *)

(** X11.  When [AudioUtilities] is not bound, an authorised request to
    any of the four audio routes is answered 503 with the fixed
    unavailable text, and performs no call at all: no COM initialisation,
    no device lookup, no log. *)
Theorem audio_unavailable_short_circuit :
  forall (g : globals) (p : platform) (rq : request),
    authorized g (X_API_Key rq) = true ->
    audio_route (target rq) = true ->
    AudioUtilities g = false ->
    exists body,
      serve g p rq = (Json body 503, [])
      /\ field "status" body = Some (JStr "error")
      /\ field "message" body
         = Some (JStr "音频控制功能不可用 (pycaw 未加载)。").
Proof.
  intros g p rq Hauth Hr Ha. unfold serve.
  destruct (target rq); try discriminate Hr;
    unfold audio_mute, audio_unmute, audio_mute_toggle, audio_status;
    rewrite (require_api_key_authorized g _ _ Hauth), Ha;
    eexists; (split; [reflexivity|]); split; reflexivity.
Qed.

(** [audio_unavailable_short_circuit] at a sample configuration, its
    hypotheses discharged by evaluation. *)
Lemma audio_unavailable_short_circuit_witness :
  exists body,
    serve (Globals false "" "Twinkle Tray.exe" false true false false)
      (Sample.windows false Sample.quiet_exit) (Request None AudioStatus)
    = (Json body 503, [])
    /\ field "status" body = Some (JStr "error")
    /\ field "message" body
       = Some (JStr "音频控制功能不可用 (pycaw 未加载)。").
Proof.
  apply (audio_unavailable_short_circuit
           (Globals false "" "Twinkle Tray.exe" false true false false)
           (Sample.windows false Sample.quiet_exit)
           (Request None AudioStatus));
    reflexivity.
Defined.

(** X12.  The mute ([b] true) and unmute ([b] false) views, for an
    authorised request with [AudioUtilities] bound: when the handle is
    acquired and [SetMute] returns, the answer is 200 with [audio_muted]
    equal to [b], and after the acquisition the view performs exactly one
    [SetMute], with flag 1 for mute and 0 for unmute; when the acquisition
    fails, the answer is 500 with the acquisition error as details and
    [SetMute] is not called; when [SetMute] raises, the answer is 500 and
    the details carry the text of the exception. *)
Theorem mute_and_unmute_views :
  forall (g : globals) (p : platform) (api_key : option string) (b : bool),
    authorized g api_key = true ->
    AudioUtilities g = true ->
    let view := if b then audio_mute g p api_key
                else audio_unmute g p api_key in
    let gateway := _get_master_volume_control g (com_first p) in
    (forall h, value_of gateway = (Some h, None) ->
               SetMute p = Py.Returns tt ->
               (exists body,
                   value_of view = Json body 200
                   /\ field "audio_muted" body = Some (JBool b))
               /\ trace_of view
                  = (trace_of gateway
                     ++ [EvSetMute (if b then 1 else 0); EvLog INFO])%list)
    /\ (forall m, value_of gateway = (None, Some m) ->
                  (exists body,
                      value_of view = Json body 500
                      /\ field "details" body = Some (JStr m))
                  /\ forall flag, ~ In (EvSetMute flag) (trace_of view))
    /\ (forall h e, value_of gateway = (Some h, None) ->
                    SetMute p = Py.Raises e ->
                    exists body,
                      value_of view = Json body 500
                      /\ field "details" body
                         = Some (JStr ("设置系统静音时出错: "
                                       ++ Py.exn_str e))).
Proof.
  intros g p api_key b Hauth Ha view gateway. subst view gateway.
  split; [|split].
  - intros h Hh Hset.
    destruct b; unfold audio_mute, audio_unmute;
      rewrite (require_api_key_authorized g _ _ Hauth), Ha; cbn [negb];
      rewrite (mute_acquired g (com_first p) (SetMute p) _ h Hh), Hset;
      unfold bind, value_of, trace_of; cbv beta iota zeta; cbn [fst snd ret];
      rewrite app_nil_r;
      (split; [eexists; split; reflexivity | reflexivity]).
  - intros m Hm.
    destruct (gateway_value g (com_first p)) as [(h & Hv) | (m' & Hv & Ht)];
      rewrite Hv in Hm; [discriminate Hm|]. injection Hm as <-.
    assert (Hnw : forall flag,
               ~ In (EvSetMute flag)
                    (trace_of (_get_master_volume_control g (com_first p)))).
    { intro flag. apply (not_in_only _ _ _ (gateway_only g (com_first p))).
      reflexivity. }
    destruct b; unfold audio_mute, audio_unmute;
      rewrite (require_api_key_authorized g _ _ Hauth), Ha; cbn [negb];
      rewrite (mute_not_acquired g (com_first p) (SetMute p) _ m' Hv Ht);
      unfold bind, value_of; cbv beta iota zeta; cbn [fst snd ret];
      unfold trace_of at 1; cbn [snd]; rewrite app_nil_r;
      (split; [eexists; split; reflexivity | exact Hnw]).
  - intros h e Hh Hset.
    destruct b; unfold audio_mute, audio_unmute;
      rewrite (require_api_key_authorized g _ _ Hauth), Ha; cbn [negb];
      rewrite (mute_acquired g (com_first p) (SetMute p) _ h Hh), Hset;
      unfold bind, value_of; cbv beta iota zeta; cbn [fst snd ret];
      eexists; split; reflexivity.
Qed.

(** [mute_and_unmute_views] at a sample configuration, its hypotheses
    discharged by evaluation. *)
Lemma mute_and_unmute_views_witness :
  trace_of (audio_unmute Sample.g_ok
              (Sample.windows false Sample.quiet_exit) None)
  = (trace_of (_get_master_volume_control Sample.g_ok Sample.com_ok)
     ++ [EvSetMute 0; EvLog INFO])%list.
Proof.
  apply (mute_and_unmute_views Sample.g_ok
           (Sample.windows false Sample.quiet_exit) None false
           eq_refl eq_refl)
    with (h := ActivatedInterface (Interface true true));
    reflexivity.
Defined.

(* ===================================================================== *)
(** ** Further properties: toggling twice *)
(* ===================================================================== *)

Lemma muted_after_app (t1 t2 : list event) (m : bool) :
  muted_after (t1 ++ t2) m = muted_after t2 (muted_after t1 m).
Proof. unfold muted_after. apply fold_left_app. Qed.

Lemma muted_after_gateway (g : globals) (c : com_answers) (m : bool) :
  muted_after (trace_of (_get_master_volume_control g c)) m = m.
Proof.
  pose proof (gateway_only g c) as H. unfold only in H.
  induction (trace_of (_get_master_volume_control g c)) as [|e t IH];
    [reflexivity|].
  cbn [forallb] in H. apply andb_prop in H as [He Ht].
  destruct e; try discriminate He; cbn; now apply IH.
Qed.

(** One toggle on an endpoint that answers. *)
Lemma toggle_on_answering_endpoint (g : globals) (p : platform)
    (k : option string) (s : bool) :
  authorized g k = true ->
  endpoint_answers g p s ->
  (exists body,
      value_of (audio_mute_toggle g p k) = Json body 200
      /\ field "audio_muted" body = Some (JBool (negb s)))
  /\ forall m, muted_after (trace_of (audio_mute_toggle g p k)) m = negb s.
Proof.
  intros Hauth ((h1 & H1) & (h2 & H2) & (v & Hgm & Hv) & Hset).
  unfold audio_mute_toggle.
  rewrite (require_api_key_authorized g k _ Hauth).
  rewrite (acquired_loaded g _ h1 H1). cbn [negb].
  rewrite (status_acquired g _ _ h1 H1), Hgm, Hv.
  unfold bind. cbv beta iota zeta.
  rewrite (mute_acquired g _ _ _ h2 H2), Hset.
  cbv beta iota zeta. cbn [value_of trace_of fst snd ret].
  split.
  - eexists. split; reflexivity.
  - intro m. rewrite app_nil_r, !muted_after_app, !muted_after_gateway.
    now destruct s.
Qed.

(** X13.  Toggling twice restores the mute state.  On an endpoint that
    answers (both acquisitions succeed, [GetMute] reports the current
    state, [SetMute] returns) and with the state left by the first request
    being the one the second request reads, the first toggle leaves the
    negation of the initial state and answers 200 with it, and the second
    toggle leaves the initial state and answers 200 with it. *)
Theorem toggle_twice_restores_state :
  forall (g : globals) (p1 p2 : platform) (api_key : option string)
         (s : bool),
    authorized g api_key = true ->
    endpoint_answers g p1 s ->
    let first := audio_mute_toggle g p1 api_key in
    endpoint_answers g p2 (muted_after (trace_of first) s) ->
    let second := audio_mute_toggle g p2 api_key in
    muted_after (trace_of first) s = negb s
    /\ muted_after (trace_of second) (muted_after (trace_of first) s) = s
    /\ (exists body,
          value_of first = Json body 200
          /\ field "audio_muted" body = Some (JBool (negb s)))
    /\ (exists body,
          value_of second = Json body 200
          /\ field "audio_muted" body = Some (JBool s)).
Proof.
  intros g p1 p2 api_key s Hauth H1 first H2 second. subst first second.
  destruct (toggle_on_answering_endpoint g p1 api_key s Hauth H1)
    as [Hb1 Hm1].
  rewrite Hm1 in H2 |- *.
  destruct (toggle_on_answering_endpoint g p2 api_key (negb s) Hauth H2)
    as [Hb2 Hm2].
  rewrite Hm2, negb_involutive in *.
  repeat split; assumption.
Qed.

(** [toggle_twice_restores_state] at a sample configuration, its
    hypotheses discharged by evaluation. *)
Lemma toggle_twice_restores_state_witness :
  let p1 := Sample.windows false Sample.quiet_exit in
  let p2 := Platform false None Sample.quiet_exit Sample.com_ok
              (Py.Returns (Py.VInt 1)) Sample.com_ok (Py.Returns tt)
              Py.ascii_runtime (Py.Returns tt) (Py.Done tt) in
  muted_after (trace_of (audio_mute_toggle Sample.g_ok p2 None))
    (muted_after (trace_of (audio_mute_toggle Sample.g_ok p1 None)) false)
  = false.
Proof.
  cbv zeta.
  apply (toggle_twice_restores_state Sample.g_ok
           (Sample.windows false Sample.quiet_exit)
           (Platform false None Sample.quiet_exit Sample.com_ok
              (Py.Returns (Py.VInt 1)) Sample.com_ok (Py.Returns tt)
              Py.ascii_runtime (Py.Returns tt) (Py.Done tt))
           None false eq_refl).
  - repeat split; eexists; try split; reflexivity.
  - repeat split; eexists; try split; reflexivity.
Defined.

(* ===================================================================== *)
(** ** Further properties: the audio gateway *)
(* ===================================================================== *)

Lemma gateway_trace_initialized (g : globals) (c : com_answers) :
  performs_initialization g c = true ->
  trace_of (_get_master_volume_control g c)
  = ((EvCoInitializeEx :: trace_of (acquire c))
     ++ EvCoUninitialize
        :: match CoUninitialize c with
           | Py.Returns _ => []
           | Py.Raises _ => [EvLog WARNING]
           end)%list.
Proof.
  unfold performs_initialization. intro H.
  apply andb_prop in H as [H Hhr]. apply andb_prop in H as [H Hp].
  apply andb_prop in H as [Ha Hi].
  rewrite (gateway_unfold g c Ha Hi). cbv zeta. rewrite Hp.
  assert (Hv : value_of (com_initialize c) = inl true).
  { unfold com_initialize. destruct (CoInitializeEx c); [|discriminate].
    now rewrite Hhr. }
  rewrite Hv. unfold trace_of at 1. cbn [snd].
  now rewrite (com_initialize_true c Hv), (release_trace g c Hp).
Qed.

(** X14.  When the gateway performed the COM initialisation and handed
    out a handle, the mute flag is read, and written, only after that
    initialisation has been released: in the trace of a read or of a write,
    [CoUninitialize] comes before [GetMute] / [SetMute]. *)
Theorem mute_flag_accessed_after_release :
  forall (g : globals) (c : com_answers) (h : handle),
    performs_initialization g c = true ->
    value_of (_get_master_volume_control g c) = (Some h, None) ->
    (forall gm : Py.outcome Py.value,
        exists before after,
          trace_of (get_system_mute_status g c gm)
          = (before ++ EvCoUninitialize :: after)%list
          /\ In EvGetMute after
          /\ ~ In EvGetMute before)
    /\ (forall (sm : Py.outcome unit) (b : bool),
          exists before after,
            trace_of (set_system_mute g c sm b)
            = (before ++ EvCoUninitialize :: after)%list
            /\ In (EvSetMute (if b then 1 else 0)) after
            /\ forall flag, ~ In (EvSetMute flag) before).
Proof.
  intros g c h Hinit Hh.
  assert (Hacq : forall e, is_acquire_event e = false ->
                           e <> EvCoInitializeEx ->
                           ~ In e (EvCoInitializeEx :: trace_of (acquire c))).
  { intros e He Hne [Hin | Hin]; [now apply Hne|].
    revert Hin. now apply (not_in_only _ _ _ (acquire_only c)). }
  split.
  - intro gm. rewrite (status_acquired g c gm h Hh).
    unfold trace_of at 1. cbn [snd].
    rewrite (gateway_trace_initialized g c Hinit), <- app_assoc.
    eexists. eexists. split; [reflexivity|]. split.
    + cbn [app]. apply in_or_app. right. now left.
    + apply Hacq; [reflexivity | discriminate].
  - intros sm b. rewrite (mute_acquired g c sm b h Hh).
    unfold trace_of at 1. cbn [snd].
    rewrite (gateway_trace_initialized g c Hinit), <- app_assoc.
    eexists. eexists. split; [reflexivity|]. split.
    + cbn [app]. apply in_or_app. right. now left.
    + intro flag. apply Hacq; [reflexivity | discriminate].
Qed.

(** [mute_flag_accessed_after_release] at a sample configuration, its
    hypotheses discharged by evaluation. *)
Lemma mute_flag_accessed_after_release_witness :
  exists before after,
    trace_of (get_system_mute_status Sample.g_ok Sample.com_ok
                (Py.Returns (Py.VInt 1)))
    = (before ++ EvCoUninitialize :: after)%list
    /\ In EvGetMute after
    /\ ~ In EvGetMute before.
Proof.
  apply (mute_flag_accessed_after_release Sample.g_ok Sample.com_ok
           (ActivatedInterface (Interface true true)));
    reflexivity.
Defined.

(** X15.  The gateway never returns both a handle and an error, or
    neither: its result is a handle with no error, or no handle with an
    error text that is not empty, so the callers' test [if error:] tells
    the two apart. *)
Theorem gateway_returns_handle_xor_error :
  forall (g : globals) (c : com_answers),
    (exists h, value_of (_get_master_volume_control g c) = (Some h, None))
    \/ (exists m, value_of (_get_master_volume_control g c) = (None, Some m)
                  /\ m <> "").
Proof.
  intros g c.
  destruct (gateway_value g c) as [H | (m & H & Hm)]; [now left|].
  right. exists m. split; [exact H | now apply truthy_not_empty].
Qed.

Lemma acquire_starts (c : com_answers) :
  exists t, trace_of (acquire c) = EvGetSpeakers :: t.
Proof.
  unfold acquire. rewrite trace_of_bind, trace_of_emit. cbn [app]. eauto.
Qed.

Lemma release_only (g : globals) (c : com_answers) (here : bool) :
  only (fun e => match e with
                 | EvCoUninitialize | EvLog _ => true
                 | _ => false
                 end)
       (trace_of (release g c here)).
Proof. unfold release. only_tac. Qed.

(** The gateway once the device lookup is reached. *)
Lemma gateway_after_init (g : globals) (c : com_answers) :
  In EvGetSpeakers (trace_of (_get_master_volume_control g c)) ->
  exists init_trace release_trace,
    _get_master_volume_control g c
    = (gateway_result (value_of (acquire c)),
       (init_trace ++ trace_of (acquire c) ++ release_trace)%list)
    /\ only (fun e => match e with
                       | EvCoInitializeEx | EvLog _ => true
                       | _ => false
                       end) init_trace
    /\ only (fun e => match e with
                       | EvCoUninitialize | EvLog _ => true
                       | _ => false
                       end) release_trace.
Proof.
  destruct (AudioUtilities g && IAudioEndpointVolume g) eqn:Hl.
  - apply andb_prop in Hl as [Ha Hi].
    rewrite (gateway_unfold g c Ha Hi). cbv zeta.
    assert (Hinit : only (fun e => match e with
                                   | EvCoInitializeEx | EvLog _ => true
                                   | _ => false
                                   end)
                         (trace_of (if pythoncom g then com_initialize c
                                    else ret (inl false)))).
    { destruct (pythoncom g); [apply com_initialize_only | reflexivity]. }
    destruct (value_of (if pythoncom g then com_initialize c
                        else ret (inl false))) as [here | m].
    + intros _. eexists. eexists. split; [reflexivity|].
      split; [exact Hinit | apply release_only].
    + unfold trace_of at 1. cbn [snd]. intro Hin.
      apply (only_In _ _ _ Hinit) in Hin. discriminate Hin.
  - rewrite (gateway_unloaded g c Hl). intros [].
Qed.

Lemma com_initialize_raises (c : com_answers) (e : Py.exn) :
  CoInitializeEx c = Py.Raises e ->
  com_initialize c
  = if passed_over e
    then (inl false, [EvCoInitializeEx])
    else (inr ("COM 初始化失败: " ++ Py.exn_str e),
          [EvCoInitializeEx; EvLog ERROR]).
Proof.
  intro He. unfold com_initialize, passed_over. rewrite He.
  destruct (Py.is_class Py.AttributeError e); [reflexivity|].
  destruct (Py.contains "already initialized" _); [reflexivity|].
  destruct (Py.contains "RPC_E_CHANGED_MODE" _); reflexivity.
Qed.

Lemma com_initialize_returns (c : com_answers) (hr : Py.value) :
  CoInitializeEx c = Py.Returns hr ->
  com_initialize c
  = (inl (Py.eq_int hr 0 || Py.eq_int hr 1), [EvCoInitializeEx]).
Proof.
  intro Hr. unfold com_initialize. rewrite Hr.
  destruct (Py.eq_int hr 0 || Py.eq_int hr 1); reflexivity.
Qed.

(** X16.  The COM initialisation step of the gateway (pycaw names bound).
    Without [pythoncom] neither [CoInitializeEx] nor [CoUninitialize] is
    called and the device lookup proceeds.  With [pythoncom]: an exception
    of [CoInitializeEx] that is not passed over ends the call with the
    COM-initialisation error, after one error log and before any device
    lookup; an exception that is passed over, and a returned code other
    than 0 and 1, let the device lookup proceed and [CoUninitialize] is
    not called. *)
Theorem com_initialization_outcomes :
  forall (g : globals) (c : com_answers),
    AudioUtilities g = true ->
    IAudioEndpointVolume g = true ->
    let gateway := _get_master_volume_control g c in
    (pythoncom g = false ->
     ~ In EvCoInitializeEx (trace_of gateway)
     /\ ~ In EvCoUninitialize (trace_of gateway)
     /\ In EvGetSpeakers (trace_of gateway))
    /\ (pythoncom g = true ->
        (forall e, CoInitializeEx c = Py.Raises e ->
            (passed_over e = false ->
             gateway = ((None, Some ("COM 初始化失败: " ++ Py.exn_str e)),
                        [EvCoInitializeEx; EvLog ERROR]))
            /\ (passed_over e = true ->
                In EvGetSpeakers (trace_of gateway)
                /\ ~ In EvCoUninitialize (trace_of gateway)))
        /\ (forall hr, CoInitializeEx c = Py.Returns hr ->
                       Py.eq_int hr 0 || Py.eq_int hr 1 = false ->
                       In EvGetSpeakers (trace_of gateway)
                       /\ ~ In EvCoUninitialize (trace_of gateway))).
Proof.
  intros g c Ha Hi gateway. subst gateway.
  rewrite (gateway_unfold g c Ha Hi). cbv zeta.
  destruct (acquire_starts c) as (t & Ht).
  assert (Hcont : forall init_trace,
             only (fun e => match e with
                            | EvCoInitializeEx | EvLog _ => true
                            | _ => false
                            end) init_trace ->
             In EvGetSpeakers
                (init_trace ++ trace_of (acquire c)
                 ++ trace_of (release g c false))%list
             /\ ~ In EvCoUninitialize
                     (init_trace ++ trace_of (acquire c)
                      ++ trace_of (release g c false))%list).
  { intros it Hit. rewrite release_none, trace_of_ret, app_nil_r. split.
    - apply in_or_app. right. rewrite Ht. now left.
    - intro Hin. apply in_app_or in Hin as [Hin | Hin].
      + apply (only_In _ _ _ Hit) in Hin. discriminate Hin.
      + apply (only_In _ _ _ (acquire_only c)) in Hin. discriminate Hin. }
  split.
  - intros ->. clear Hcont.
    pose proof (acquire_only c) as Hao.
    unfold value_of, trace_of in *. cbn [ret fst snd app].
    rewrite release_none. cbn [ret snd]. rewrite app_nil_r.
    repeat split.
    + intro Hin. apply (only_In _ _ _ Hao) in Hin. discriminate Hin.
    + intro Hin. apply (only_In _ _ _ Hao) in Hin. discriminate Hin.
    + rewrite Ht. now left.
  - intros ->. split.
    + intros e He. rewrite (com_initialize_raises c e He).
      destruct (passed_over e); split; try discriminate; intros _.
      * exact (Hcont [EvCoInitializeEx] eq_refl).
      * reflexivity.
    + intros hr Hr Hhr. rewrite (com_initialize_returns c hr Hr), Hhr.
      exact (Hcont [EvCoInitializeEx] eq_refl).
Qed.

(** [com_initialization_outcomes] at a sample configuration, its
    hypotheses discharged by evaluation. *)
Lemma com_initialization_outcomes_witness :
  _get_master_volume_control Sample.g_ok
    (ComAnswers (Py.Raises (Py.Exn Py.OtherException "access denied"))
       (Py.Returns true) (Py.Returns (Interface true true))
       (Py.Returns true) (Py.Returns tt))
  = ((None, Some "COM 初始化失败: access denied"),
     [EvCoInitializeEx; EvLog ERROR]).
Proof.
  apply (com_initialization_outcomes Sample.g_ok
           (ComAnswers (Py.Raises (Py.Exn Py.OtherException "access denied"))
              (Py.Returns true) (Py.Returns (Interface true true))
              (Py.Returns true) (Py.Returns tt))
           eq_refl eq_refl)
    with (e := Py.Exn Py.OtherException "access denied");
    reflexivity.
Defined.

Lemma acquire_except_eq (e : Py.exn) :
  acquire_except e = ((None, Some (acquire_error_text e)), [EvLog ERROR]).
Proof.
  unfold acquire_except, acquire_error_text.
  destruct (Py.is_class Py.AttributeError e); reflexivity.
Qed.

Lemma gateway_result_error (e : Py.exn) :
  gateway_result (None, Some (acquire_error_text e))
  = (None, Some (acquire_error_text e)).
Proof.
  unfold gateway_result, acquire_error_text.
  destruct (Py.is_class Py.AttributeError e); reflexivity.
Qed.

(** The acquisition, answer by answer. *)
Lemma acquire_by_answers (c : com_answers) :
  acquire c
  = match GetSpeakers c with
    | Py.Raises e =>
        ((None, Some (acquire_error_text e)), [EvGetSpeakers; EvLog ERROR])
    | Py.Returns false =>
        ((None, Some "未能获取默认扬声器设备。"), [EvGetSpeakers])
    | Py.Returns true =>
        match Activate c with
        | Py.Raises e =>
            ((None, Some (acquire_error_text e)),
             [EvGetSpeakers; EvActivate; EvLog ERROR])
        | Py.Returns i =>
            if has_SetMute i && has_GetMute i
            then ((Some (ActivatedInterface i), None),
                  [EvGetSpeakers; EvActivate])
            else
              match QueryInterface c with
              | Py.Raises e =>
                  ((None, Some (acquire_error_text e)),
                   [EvGetSpeakers; EvActivate; EvQueryInterface;
                    EvLog ERROR])
              | Py.Returns true =>
                  ((Some QueriedInterface, None),
                   [EvGetSpeakers; EvActivate; EvQueryInterface])
              | Py.Returns false =>
                  ((None, None),
                   [EvGetSpeakers; EvActivate; EvQueryInterface])
              end
        end
    end.
Proof.
  unfold acquire.
  destruct (GetSpeakers c) as [[|] | e];
    [| reflexivity | now rewrite acquire_except_eq].
  destruct (Activate c) as [i | e]; [| now rewrite acquire_except_eq].
  destruct (has_SetMute i && has_GetMute i); [reflexivity|].
  destruct (QueryInterface c) as [[|] | e];
    [reflexivity | reflexivity | now rewrite acquire_except_eq].
Qed.

(** Membership of an acquisition call in the trace of the gateway. *)
Lemma gateway_acquire_event (g : globals) (c : com_answers) (e : event) :
  In EvGetSpeakers (trace_of (_get_master_volume_control g c)) ->
  is_acquire_event e = true -> is_log e = false ->
  (In e (trace_of (_get_master_volume_control g c))
   <-> In e (trace_of (acquire c))).
Proof.
  intros Hr He Hl.
  destruct (gateway_after_init g c Hr) as (ti & tr & -> & Hi & Hrel).
  unfold trace_of at 1. cbn [snd]. split.
  - intro Hin. apply in_app_or in Hin as [Hin | Hin].
    + apply (only_In _ _ _ Hi) in Hin. destruct e; discriminate.
    + apply in_app_or in Hin as [Hin | Hin]; [exact Hin|].
      apply (only_In _ _ _ Hrel) in Hin. destruct e; discriminate.
  - intro Hin. apply in_or_app. right. apply in_or_app. now left.
Qed.

(** X17.  The device lookup and the activation of the gateway, once they
    are reached.  No default device: the no-device error, and [Activate] is
    not called.  An activated interface that has both [SetMute] and
    [GetMute] is the handle, and [QueryInterface] is not called; otherwise
    [QueryInterface] is called, its object is the handle, and its [None]
    gives the activation error.  An exception of the lookup, of the
    activation or of the query gives the error text of the matching
    [except] clause. *)
Theorem endpoint_resolution :
  forall (g : globals) (c : com_answers),
    let gateway := _get_master_volume_control g c in
    In EvGetSpeakers (trace_of gateway) ->
    (GetSpeakers c = Py.Returns false ->
     value_of gateway = (None, Some "未能获取默认扬声器设备。")
     /\ ~ In EvActivate (trace_of gateway))
    /\ (forall i,
          GetSpeakers c = Py.Returns true -> Activate c = Py.Returns i ->
          (has_SetMute i && has_GetMute i = true ->
           value_of gateway = (Some (ActivatedInterface i), None)
           /\ ~ In EvQueryInterface (trace_of gateway))
          /\ (has_SetMute i && has_GetMute i = false ->
              In EvQueryInterface (trace_of gateway)
              /\ (QueryInterface c = Py.Returns true ->
                  value_of gateway = (Some QueriedInterface, None))
              /\ (QueryInterface c = Py.Returns false ->
                  value_of gateway
                  = (None, Some "未能成功激活主音量控制接口。"))
              /\ (forall e, QueryInterface c = Py.Raises e ->
                            value_of gateway
                            = (None, Some (acquire_error_text e)))))
    /\ (forall e,
          GetSpeakers c = Py.Raises e
          \/ (GetSpeakers c = Py.Returns true /\ Activate c = Py.Raises e) ->
          value_of gateway = (None, Some (acquire_error_text e))).
Proof.
  intros g c gateway Hr. subst gateway.
  pose proof (gateway_acquire_event g c EvActivate Hr eq_refl eq_refl) as HA.
  pose proof (gateway_acquire_event g c EvQueryInterface Hr eq_refl eq_refl)
    as HQ.
  destruct (gateway_after_init g c Hr) as (ti & tr & Hg & _ & _).
  assert (Hv : value_of (_get_master_volume_control g c)
               = gateway_result (value_of (acquire c)))
    by now rewrite Hg.
  rewrite Hv. clear Hv Hg Hr.
  rewrite acquire_by_answers in HA, HQ |- *.
  split; [|split].
  - intros Hs. rewrite Hs in HA |- *. split; [reflexivity|].
    intro H. apply HA in H. cbn in H. destruct H as [H | []].
    discriminate H.
  - intros i Hs Hact. rewrite Hs, Hact in HQ |- *. split.
    + intros Hi. rewrite Hi in HQ |- *. split; [reflexivity|].
      intro H. apply HQ in H. cbn in H.
      destruct H as [H | [H | []]]; discriminate H.
    + intros Hi. rewrite Hi in HQ |- *. split; [|split; [|split]].
      * apply HQ. destruct (QueryInterface c) as [[|] | e]; cbn; auto.
      * now intros ->.
      * now intros ->.
      * intros e ->. apply gateway_result_error.
  - intros e [-> | [-> ->]]; apply gateway_result_error.
Qed.

(** [endpoint_resolution] at a sample configuration, its hypotheses
    discharged by evaluation. *)
Lemma endpoint_resolution_witness :
  value_of (_get_master_volume_control Sample.g_ok Sample.com_no_speakers)
  = (None, Some "未能获取默认扬声器设备。")
  /\ ~ In EvActivate
         (trace_of (_get_master_volume_control Sample.g_ok
                      Sample.com_no_speakers)).
Proof.
  apply (endpoint_resolution Sample.g_ok Sample.com_no_speakers).
  - right. left. reflexivity.
  - reflexivity.
Defined.

(* ===================================================================== *)
(** ** Further properties: start-up *)
(* ===================================================================== *)

Lemma first_existing_two (e : startup_env) (a b : string)
    (fallback : string * bool) :
  first_existing e [a; b] fallback
  = if path_exists e a then (a, true)
    else if path_exists e b then (b, true)
    else fallback.
Proof. reflexivity. Qed.

Lemma resolve_under_local_app_data_good (e : startup_env) :
  (snd (resolve_under_local_app_data e) = true ->
   path_exists e (fst (resolve_under_local_app_data e)) = true)
  /\ (snd (resolve_under_local_app_data e) = false ->
      fst (resolve_under_local_app_data e) = "Twinkle Tray.exe").
Proof.
  unfold resolve_under_local_app_data.
  destruct (getenv_truthy e "LOCALAPPDATA") as [lad|];
    [|split; [discriminate | reflexivity]].
  rewrite first_existing_two.
  destruct (path_exists e (path_join e lad _)) eqn:H1;
    [split; [intros _; exact H1 | discriminate]|].
  destruct (path_exists e (path_join e lad ["twinkle-tray"; _])) eqn:H2;
    [split; [intros _; exact H2 | discriminate]|].
  split; [discriminate | reflexivity].
Qed.

(** X18.  The resolution of the executable at import.  The path marked as
    found exists; a path not marked as found is the bare name "Twinkle
    Tray.exe".  A non-empty [TWINKLE_TRAY_PATH] that exists wins; when it is
    unset, empty or does not exist, a non-empty [LOCALAPPDATA] yields the
    "Programs" install location if that exists, else the other install
    location if that exists, else the bare name. *)
Theorem twinkle_tray_resolution :
  forall (e : startup_env),
    let r := resolve_twinkle_tray e in
    (snd r = true -> path_exists e (fst r) = true)
    /\ (snd r = false -> fst r = "Twinkle Tray.exe")
    /\ (forall v, getenv e "TWINKLE_TRAY_PATH" = Some v -> v <> "" ->
                  path_exists e v = true -> r = (v, true))
    /\ (forall lad,
          (forall v, getenv e "TWINKLE_TRAY_PATH" = Some v ->
                     v = "" \/ path_exists e v = false) ->
          getenv e "LOCALAPPDATA" = Some lad -> lad <> "" ->
          let programs :=
            path_join e lad ["Programs"; "twinkle-tray"; "Twinkle Tray.exe"] in
          let plain := path_join e lad ["twinkle-tray"; "Twinkle Tray.exe"] in
          r = if path_exists e programs then (programs, true)
              else if path_exists e plain then (plain, true)
              else ("Twinkle Tray.exe", false)).
Proof.
  intros e r. subst r. unfold resolve_twinkle_tray.
  destruct (resolve_under_local_app_data_good e) as [Hg1 Hg2].
  split; [|split; [|split]].
  - destruct (getenv_truthy e "TWINKLE_TRAY_PATH") as [v|]; [|exact Hg1].
    destruct (path_exists e v) eqn:Hv; [intros _; exact Hv | exact Hg1].
  - destruct (getenv_truthy e "TWINKLE_TRAY_PATH") as [v|]; [|exact Hg2].
    destruct (path_exists e v) eqn:Hv; [discriminate | exact Hg2].
  - intros v Hv Hne Hex. unfold getenv_truthy. rewrite Hv.
    destruct v; [contradiction|]. cbn [Py.truthy]. now rewrite Hex.
  - intros lad Henv Hlad Hne. cbv zeta.
    assert (Hl : resolve_under_local_app_data e
                 = if path_exists e
                        (path_join e lad
                           ["Programs"; "twinkle-tray"; "Twinkle Tray.exe"])
                   then (path_join e lad
                           ["Programs"; "twinkle-tray"; "Twinkle Tray.exe"],
                         true)
                   else if path_exists e
                             (path_join e lad
                                ["twinkle-tray"; "Twinkle Tray.exe"])
                        then (path_join e lad
                                ["twinkle-tray"; "Twinkle Tray.exe"], true)
                        else ("Twinkle Tray.exe", false)).
    { unfold resolve_under_local_app_data, getenv_truthy. rewrite Hlad.
      destruct lad; [contradiction|]. reflexivity. }
    unfold getenv_truthy.
    destruct (getenv e "TWINKLE_TRAY_PATH") as [v|] eqn:Hv; [|exact Hl].
    destruct (Henv v eq_refl) as [-> | Hex]; [exact Hl|].
    destruct (Py.truthy v); [|exact Hl]. now rewrite Hex.
Qed.

(** [twinkle_tray_resolution] at a sample configuration, its hypotheses
    discharged by evaluation. *)
Lemma twinkle_tray_resolution_witness :
  let e := StartupEnv
             (fun name => if String.eqb name "LOCALAPPDATA"
                          then Some "C:\Users\iot\AppData\Local"
                          else None)
             (fun path =>
                String.eqb path
                  "C:\Users\iot\AppData\Local\twinkle-tray\Twinkle Tray.exe")
             (path_join Sample.bare_env) true true
             Py.ascii_runtime true true in
  resolve_twinkle_tray e
  = ("C:\Users\iot\AppData\Local\twinkle-tray\Twinkle Tray.exe", true).
Proof.
  cbv zeta.
  apply (twinkle_tray_resolution
           (StartupEnv
              (fun name => if String.eqb name "LOCALAPPDATA"
                           then Some "C:\Users\iot\AppData\Local"
                           else None)
              (fun path =>
                 String.eqb path
                   "C:\Users\iot\AppData\Local\twinkle-tray\Twinkle Tray.exe")
              (path_join Sample.bare_env) true true
             Py.ascii_runtime true true))
    with (lad := "C:\Users\iot\AppData\Local").
  - intros v H. discriminate H.
  - reflexivity.
  - discriminate.
Defined.

Lemma main_checks_value (g : globals) (which : bool) :
  value_of (main_checks g which)
  = if negb (twinkle_tray_base_path_found g) && which
    then Globals (API_AUTH_ENABLED g) (EXPECTED_API_KEY g)
                 (twinkle_tray_base_path g) true
                 (pythoncom g) (AudioUtilities g) (IAudioEndpointVolume g)
    else g.
Proof.
  unfold main_checks. rewrite !value_of_bind, value_of_ret.
  destruct (twinkle_tray_base_path_found g); cbn [negb andb];
    [now rewrite value_of_bind|].
  destruct which; now rewrite value_of_bind.
Qed.

(** X19.  The checks of the [__main__] block change the globals in one
    field only: the executable counts as found afterwards if it was found
    at import or is then on the search path.  From then on the builders
    do not look at the search path again: if the executable has vanished
    when a power-on request arrives, the command is still built and
    started, and the request is answered 500 by the executor (not 400 by
    the builder). *)
Theorem found_at_startup_is_not_rechecked :
  forall (g : globals) (which : bool),
    let g' := value_of (main_checks g which) in
    twinkle_tray_base_path_found g' = twinkle_tray_base_path_found g || which
    /\ twinkle_tray_base_path g' = twinkle_tray_base_path g
    /\ API_AUTH_ENABLED g' = API_AUTH_ENABLED g
    /\ EXPECTED_API_KEY g' = EXPECTED_API_KEY g
    /\ pythoncom g' = pythoncom g
    /\ AudioUtilities g' = AudioUtilities g
    /\ IAudioEndpointVolume g' = IAudioEndpointVolume g
    /\ (twinkle_tray_base_path_found g || which = true ->
        forall (p : platform) (api_key : option string) (n : Z) (e : Py.exn),
          authorized g' api_key = true ->
          0 < n ->
          which_twinkle_tray p = false ->
          process p = PopenRaises e ->
          Py.exn_cls e = Py.FileNotFoundError ->
          exists body,
            monitor_on_vcp g' p api_key n
            = (Json body 500,
               [EvLog DEBUG;
                EvPopen [twinkle_tray_base_path g;
                         "--MonitorNum=" ++ Py.str_of_Z n; "--VCP=0xD6:1"]
                        (creationflags_for p (twinkle_tray_base_path g));
                EvLog ERROR])).
Proof.
  intros g which g'. subst g'. rewrite main_checks_value.
  assert (Hfields :
    let g' := if negb (twinkle_tray_base_path_found g) && which
              then Globals (API_AUTH_ENABLED g) (EXPECTED_API_KEY g)
                     (twinkle_tray_base_path g) true
                     (pythoncom g) (AudioUtilities g) (IAudioEndpointVolume g)
              else g in
    twinkle_tray_base_path_found g' = twinkle_tray_base_path_found g || which
    /\ twinkle_tray_base_path g' = twinkle_tray_base_path g).
  { destruct (twinkle_tray_base_path_found g) eqn:Hf, which; cbn;
      rewrite ?Hf; split; reflexivity. }
  cbv zeta in Hfields. destruct Hfields as [Hfound Hpath].
  split; [exact Hfound|]. split; [exact Hpath|].
  repeat (split;
          [destruct (negb (twinkle_tray_base_path_found g) && which);
           reflexivity|]).
  intros Hf p api_key n e Hauth Hn _ Hp He.
  set (g' := if negb (twinkle_tray_base_path_found g) && which
             then _ else g) in *.
  assert (Hx : executable_missing g' p = false).
  { unfold executable_missing. now rewrite Hfound, Hf. }
  unfold monitor_on_vcp.
  rewrite (require_api_key_authorized g' api_key _ Hauth).
  rewrite (power_parts_positive g' p n _ Hn Hx).
  unfold bind at 1. cbv beta iota zeta. cbn [ret run_built app].
  rewrite (run_command_not_found p _ _ e Hp He), Hpath.
  unfold bind. cbv beta iota zeta. cbn [ret app].
  eexists. reflexivity.
Qed.

(** [found_at_startup_is_not_rechecked] at a sample configuration, its
    hypotheses discharged by evaluation. *)
Lemma found_at_startup_is_not_rechecked_witness :
  exists body,
    monitor_on_vcp (value_of (main_checks Sample.g_fallback true))
      (Sample.windows false
         (PopenRaises (Py.Exn Py.FileNotFoundError "[WinError 2]")))
      None 1
    = (Json body 500,
       [EvLog DEBUG;
        EvPopen ["Twinkle Tray.exe"; "--MonitorNum=1"; "--VCP=0xD6:1"] 0;
        EvLog ERROR]).
Proof.
  apply (found_at_startup_is_not_rechecked Sample.g_fallback true)
    with (e := Py.Exn Py.FileNotFoundError "[WinError 2]");
    [reflexivity | reflexivity | lia | reflexivity | reflexivity
    | reflexivity].
Defined.

Lemma lower_true_auth (e : startup_env) :
  String.eqb (Py.lower (getenv_default e "API_AUTH_ENABLED" "False")) "true"
  = true
  <-> exists v, getenv e "API_AUTH_ENABLED" = Some v /\ Py.lower v = "true".
Proof.
  unfold getenv_default. rewrite String.eqb_eq.
  destruct (getenv e "API_AUTH_ENABLED") as [v|]; split.
  - eauto.
  - now intros (v' & H & Hv); injection H as ->.
  - discriminate.
  - intros (v' & H & _). discriminate H.
Qed.

(** X20.  The globals the import builds.  The import is aborted when a
    required import fails, when [FLASK_PORT] is set to a text [int]
    rejects, and when the log file cannot be opened.  When it completes:
    [AudioUtilities] and [IAudioEndpointVolume] are bound together or not
    at all; a path marked as found exists; authentication is enabled
    exactly when [API_AUTH_ENABLED] is set to a spelling of "true", and
    when that variable is not set the guard passes every request. *)
Theorem module_globals_invariants :
  forall (e : startup_env),
    (required_imports e = false -> module_globals e = None)
    /\ ((exists v, getenv e "FLASK_PORT" = Some v
                   /\ Py.int_of_str (interpreter e) v = None) ->
        module_globals e = None)
    /\ (log_file_opens e = false -> module_globals e = None)
    /\ forall g, module_globals e = Some g ->
         AudioUtilities g = IAudioEndpointVolume g
         /\ (twinkle_tray_base_path_found g = true ->
             path_exists e (twinkle_tray_base_path g) = true)
         /\ (API_AUTH_ENABLED g = true
             <-> exists v, getenv e "API_AUTH_ENABLED" = Some v
                           /\ Py.lower v = "true")
         /\ (getenv e "API_AUTH_ENABLED" = None ->
             forall (api_key : option string) (f : M response),
               require_api_key g api_key f = f).
Proof.
  intro e. unfold module_globals, flask_port.
  pose proof (resolve_under_local_app_data_good e) as Hgood.
  assert (Hres : snd (resolve_twinkle_tray e) = true ->
                 path_exists e (fst (resolve_twinkle_tray e)) = true).
  { unfold resolve_twinkle_tray.
    destruct (getenv_truthy e "TWINKLE_TRAY_PATH") as [v|]; [|apply Hgood].
    destruct (path_exists e v) eqn:Hv; [intros _; exact Hv | apply Hgood]. }
  destruct (resolve_twinkle_tray e) as [path found].
  cbn [fst snd] in Hres.
  split; [now intros ->|].
  split.
  { intros (v & -> & ->). now destruct (negb (required_imports e)). }
  split.
  { intros ->. destruct (negb (required_imports e)); [reflexivity|].
    now destruct (match getenv e "FLASK_PORT" with
                  | Some v => Py.int_of_str (interpreter e) v
                  | None => Some 5000
                  end). }
  intros g H.
  destruct (negb (required_imports e)); [discriminate H|].
  destruct (match getenv e "FLASK_PORT" with
            | Some v => Py.int_of_str (interpreter e) v
            | None => Some 5000
            end); [|discriminate H].
  destruct (negb (log_file_opens e)); [discriminate H|].
  injection H as <-. cbn.
  split; [reflexivity|]. split; [exact Hres|].
  split; [apply lower_true_auth|].
  intros Hnone api_key f. unfold require_api_key, getenv_default. cbn.
  now rewrite Hnone.
Qed.

(** [module_globals_invariants] at a sample configuration, its hypotheses
    discharged by evaluation. *)
Lemma module_globals_invariants_witness :
  module_globals Sample.bare_env = Some Sample.g_fallback
  /\ require_api_key Sample.g_fallback (Some "anything") (ret unhandled)
     = ret unhandled.
Proof.
  split; [reflexivity|].
  destruct (proj2 (proj2 (proj2 (module_globals_invariants Sample.bare_env)))
              Sample.g_fallback eq_refl) as (_ & _ & _ & H).
  apply H. reflexivity.
Defined.
